(** * Gantt chart view: date range, unit width, coordinate mapping,
      relationship lines and hover handling

    A shallow embedding of [GanttViewComponent]
    (projects/gantt-charts/src/lib/gantt-view/gantt-view.component.ts).

    Conventions of the embedding.
    - A JavaScript number is a value of [JsNum.number]: NaN, the two
      infinities, negative zero, or a finite rational ([Fin 0] is +0).
      Arithmetic on finite values is exact: the rounding of binary64 is
      not modelled, and a decimal literal such as [0.05] is its decimal
      value.
    - A [Date] is its time value, an integer number of milliseconds since
      the epoch; the dates of a task and of a component are valid dates,
      and [setDate] gives no date when it leaves the range of 8.64e15 ms.
      Local time is UTC shifted by a constant offset [LocalTZA] (no
      daylight saving).
    - Where the rounding of binary64 or a change of the offset of the
      time zone decides a statement, the same methods are embedded once
      more, on binary64 numbers ([Binary64]) and with an offset that
      depends on the time value ([HostZone]).
    - A string is a list of characters, one per UTF-16 code unit.
    - Object identity ([===] on tasks and lines) is structural equality. *)

From Stdlib Require Import ZArith QArith Qround Lqa Lia Bool SpecFloat.
From stdpp Require Import gmap strings list fin_maps.

Local Open Scope Z_scope.

(** ** JavaScript numbers *)

Module JsNum.

Inductive number : Type :=
| NaN
| PInf
| NInf
| NZero
| Fin (q : Q).

Definition of_Z (z : Z) : number := Fin (inject_Z z).

Definition Qltb (x y : Q) : bool := negb (Qle_bool y x).

(** the sign bit *)
Definition sign (a : number) : bool :=
  match a with
  | NInf | NZero => true
  | Fin q => Qltb q 0
  | _ => false
  end.

Definition is_zero (a : number) : bool :=
  match a with
  | NZero => true
  | Fin q => Qeq_bool q 0
  | _ => false
  end.

Definition is_finite (a : number) : bool :=
  match a with
  | NZero | Fin _ => true
  | _ => false
  end.

Definition val (a : number) : Q :=
  match a with
  | Fin q => q
  | _ => 0%Q
  end.

Definition zero (s : bool) : number := if s then NZero else Fin 0.
Definition inf (s : bool) : number := if s then NInf else PInf.

Definition neg (a : number) : number :=
  match a with
  | NaN => NaN
  | PInf => NInf
  | NInf => PInf
  | NZero => Fin 0
  | Fin q => if Qeq_bool q 0 then NZero else Fin (- q)
  end.

Definition add (a b : number) : number :=
  match a, b with
  | NaN, _ | _, NaN => NaN
  | PInf, NInf | NInf, PInf => NaN
  | PInf, _ | _, PInf => PInf
  | NInf, _ | _, NInf => NInf
  | NZero, NZero => NZero
  | NZero, x | x, NZero => x
  | Fin p, Fin q => Fin (p + q)
  end.

Definition sub (a b : number) : number := add a (neg b).

Definition mul (a b : number) : number :=
  match a, b with
  | NaN, _ | _, NaN => NaN
  | _, _ =>
      let s := xorb (sign a) (sign b) in
      if is_finite a && is_finite b then
        if is_zero a || is_zero b then zero s else Fin (val a * val b)
      else if is_zero a || is_zero b then NaN else inf s
  end.

Definition div (a b : number) : number :=
  match a, b with
  | NaN, _ | _, NaN => NaN
  | _, _ =>
      let s := xorb (sign a) (sign b) in
      match is_finite a, is_finite b with
      | false, false => NaN
      | false, true => inf s
      | true, false => zero s
      | true, true =>
          if is_zero b then (if is_zero a then NaN else inf s)
          else if is_zero a then zero s
          else Fin (val a / val b)
      end
  end.

(** [a < b] *)
Definition ltb (a b : number) : bool :=
  match a, b with
  | NaN, _ | _, NaN => false
  | _, NInf => false
  | NInf, _ => true
  | PInf, _ => false
  | _, PInf => true
  | _, _ => Qltb (val a) (val b)
  end.

(** [a <= b] *)
Definition leb (a b : number) : bool :=
  match a, b with
  | NaN, _ | _, NaN => false
  | _, _ => negb (ltb b a)
  end.

Definition gtb (a b : number) : bool := ltb b a.
Definition geb (a b : number) : bool := leb b a.

(** [a === b] *)
Definition eqb (a b : number) : bool := leb a b && leb b a.

(** [Math.max(a, b)] and [Math.min(a, b)]: NaN is contagious and -0 is
    below +0. *)
Definition max (a b : number) : number :=
  match a, b with
  | NaN, _ | _, NaN => NaN
  | _, _ =>
      if ltb a b then b
      else if ltb b a then a
      else if sign a then b else a
  end.

Definition min (a b : number) : number :=
  match a, b with
  | NaN, _ | _, NaN => NaN
  | _, _ =>
      if ltb a b then a
      else if ltb b a then b
      else if sign a then a else b
  end.

(** [Math.ceil]: a value in (-1, 0) is rounded to -0. *)
Definition ceil (a : number) : number :=
  match a with
  | Fin q =>
      let c := Qceiling q in
      if (c =? 0) && Qltb q 0 then NZero else of_Z c
  | _ => a
  end.

Definition floor (a : number) : number :=
  match a with
  | Fin q => of_Z (Qfloor q)
  | _ => a
  end.

(** truthiness of a number: [if (a)] *)
Definition truthy (a : number) : bool :=
  match a with
  | NaN | NZero => false
  | Fin q => negb (Qeq_bool q 0)
  | _ => true
  end.

(** Rounding towards zero of a finite number ([ToIntegerOrInfinity]);
    [None] for NaN and the infinities, which the callers of this file
    treat as not finite. *)
Definition Qtrunc (q : Q) : Z :=
  if Qle_bool 0 q then Qfloor q else Qceiling q.

Definition to_integer (a : number) : option Z :=
  match a with
  | Fin q => Some (Qtrunc q)
  | NZero => Some 0
  | _ => None
  end.

(** The same number: equal up to the representation of the fraction. *)
Definition same (a b : number) : Prop :=
  match a, b with
  | Fin p, Fin q => (p == q)%Q
  | _, _ => a = b
  end.

(** [Math.round] *)
Definition round (a : number) : number :=
  match a with
  | Fin q =>
      let r := Qfloor (q + (1 # 2)) in
      if (r =? 0) && Qltb q 0 then NZero else of_Z r
  | _ => a
  end.

(** [finite_as a q]: [a] is finite and its value is [q] (either zero has
    the value 0). *)
Definition finite_as (a : number) (q : Q) : Prop :=
  is_finite a = true /\ (val a == q)%Q.

(** [nonneg a]: [a] is +0 or a positive finite number. *)
Definition nonneg (a : number) : Prop :=
  is_finite a = true /\ sign a = false.

End JsNum.

Import JsNum.

(** ** Dates (ECMAScript, "Date objects") *)

Module JsDate.

Definition msPerDay : Z := 86400000.

Definition Day (t : Z) : Z := t / msPerDay.
Definition TimeWithinDay (t : Z) : Z := t mod msPerDay.

Definition DayFromYear (y : Z) : Z :=
  365 * (y - 1970) + (y - 1969) / 4 - (y - 1901) / 100 + (y - 1601) / 400.

Definition TimeFromYear (y : Z) : Z := msPerDay * DayFromYear y.

Definition DaysInYear (y : Z) : Z :=
  if negb (y mod 4 =? 0) then 365
  else if negb (y mod 100 =? 0) then 366
  else if negb (y mod 400 =? 0) then 365
  else 366.

(** The largest [y] with [TimeFromYear y <= t]: an estimate from the
    mean length of a year, corrected by at most one. *)
Definition YearFromTime (t : Z) : Z :=
  let d := Day t in
  let y := 1970 + (d * 400) / 146097 in
  if d <? DayFromYear y then y - 1
  else if DayFromYear (y + 1) <=? d then y + 1
  else y.

Definition InLeapYear (t : Z) : Z :=
  if DaysInYear (YearFromTime t) =? 366 then 1 else 0.

Definition DayWithinYear (t : Z) : Z := Day t - DayFromYear (YearFromTime t).

(** first day (within the year) of month [m], [m] from 0 to 11; 12 gives
    the length of the year *)
Definition monthStart (m leap : Z) : Z :=
  match m with
  | 0 => 0
  | 1 => 31
  | 2 => 59 + leap
  | 3 => 90 + leap
  | 4 => 120 + leap
  | 5 => 151 + leap
  | 6 => 181 + leap
  | 7 => 212 + leap
  | 8 => 243 + leap
  | 9 => 273 + leap
  | 10 => 304 + leap
  | 11 => 334 + leap
  | _ => 365 + leap
  end.

Definition MonthFromTime (t : Z) : Z :=
  let d := DayWithinYear t in
  let l := InLeapYear t in
  if d <? 31 then 0
  else if d <? 59 + l then 1
  else if d <? 90 + l then 2
  else if d <? 120 + l then 3
  else if d <? 151 + l then 4
  else if d <? 181 + l then 5
  else if d <? 212 + l then 6
  else if d <? 243 + l then 7
  else if d <? 273 + l then 8
  else if d <? 304 + l then 9
  else if d <? 334 + l then 10
  else 11.

Definition DateFromTime (t : Z) : Z :=
  DayWithinYear t - monthStart (MonthFromTime t) (InLeapYear t) + 1.

(** [MakeDay(year, month, date)] for integral arguments *)
Definition MakeDay (year month date : Z) : Z :=
  let ym := year + month / 12 in
  let mn := month mod 12 in
  let leap := if DaysInYear ym =? 366 then 1 else 0 in
  DayFromYear ym + monthStart mn leap + date - 1.

Definition MakeDate (day time : Z) : Z := day * msPerDay + time.

(** [TimeClip]: a time value further than 8.64e15 ms from the epoch is
    not a date; [None] stands for the invalid date. *)
Definition TimeClip (t : Z) : option Z :=
  if Z.abs t <=? 8640000000000000 then Some t else None.

Definition valid_date (t : Z) : Prop := Z.abs t <= 8640000000000000.

Section Local.
(** offset of local time from UTC, in milliseconds *)
Variable LocalTZA : Z.

Definition LocalTime (t : Z) : Z := t + LocalTZA.
Definition UTC (t : Z) : Z := t - LocalTZA.

Definition getFullYear (t : Z) : Z := YearFromTime (LocalTime t).
Definition getMonth (t : Z) : Z := MonthFromTime (LocalTime t).
Definition getDate (t : Z) : Z := DateFromTime (LocalTime t).

(** [d.setDate(dt)] on a valid date: the new time value, [None] when
    [dt] is not finite or the new time value is out of range (the date
    becomes invalid) *)
Definition setDate (t : Z) (dt : number) : option Z :=
  match to_integer dt with
  | Some n =>
      let lt := LocalTime t in
      TimeClip (UTC (MakeDate (MakeDay (YearFromTime lt) (MonthFromTime lt) n)
                              (TimeWithinDay lt)))
  | None => None
  end.

(** [new Date(year, month, date)] for integral arguments: a year from
    0 to 99 stands for 1900 + year *)
Definition newDate (year month date : Z) : Z :=
  let yr := if (0 <=? year) && (year <=? 99) then 1900 + year else year in
  UTC (MakeDate (MakeDay yr month date) 0).
End Local.

End JsDate.

Import JsDate.

(** ** Data model *)

Inductive GanttRelationshipType : Type := FS | SS | FF | SF.

(** [GanttTask]; [dependencies] and the custom properties, which the
    component never reads, are left out. *)
Record GanttTask : Type := {
  task_id : string;
  task_name : string;
  task_start : Z;
  task_end : Z;
  task_progress : option number;
  task_color : option string
}.

Record GanttRelationship : Type := {
  rel_id : string;
  sourceId : string;
  targetId : string;
  rel_type : GanttRelationshipType;
  lag : option number
}.

(** The one shape of path the component builds: [moveTo] followed by
    [bezierCurveTo]. *)
Record Path2D : Type := {
  path_moveTo : number * number;
  path_cp1 : number * number;
  path_cp2 : number * number;
  path_end : number * number
}.

Record RelationshipLine : Type := {
  line_id : string;
  fromX : number;
  fromY : number;
  toX : number;
  toY : number;
  line_type : GanttRelationshipType;
  sourceTask : GanttTask;
  targetTask : GanttTask;
  line_lag : option number;
  path : Path2D
}.

Record UnitWidthConfig : Type := {
  w_min : number;
  w_max : number;
  w_optimal : number
}.

Inductive ViewMode : Type := day | week | month | year.
Inductive Theme : Type := light | dark.

Record ThemeColors : Type := {
  backgroundColor : string;
  textColor : string;
  gridColor : string;
  barColor : string;
  barProgressColor : string;
  relationshipColors : GanttRelationshipType -> string
}.

(** The canvas element behind [canvasRef]: its [width] attribute, the
    [style.cursor], and the corner of its bounding rectangle. *)
Record Canvas : Type := {
  canvas_width : N;
  cursor : string;
  rect_left : number;
  rect_top : number
}.

(** What a tooltip shows; the markup around it is not modelled. *)
Inductive Html : Type :=
| NoHtml
| TaskHtml (name : string) (start finish : Z) (duration : number)
           (progress : option number)
| RelationshipHtml (type : GanttRelationshipType) (from to : string)
                   (lag : option number).

Record Element : Type := {
  className : string;
  innerHTML : Html;
  style_left : option number;
  style_top : option number;
  style_display : string
}.

Record MouseEvent : Type := {
  clientX : number;
  clientY : number
}.

(** Canvas drawing commands issued by [drawTasks]. *)
Inductive Text : Type :=
| Str (s : string)
| Percent (n : number).

Inductive DrawCmd : Type :=
| FillRect (fillStyle : string) (x y w h : number)
| FillText (fillStyle font textAlign : string) (text : Text) (x y : number).

(** The component: its inputs and its private fields. [repaints] counts
    the full repaints done by [drawChart]; the pixels are not modelled. *)
Record Component : Type := {
  tasks : list GanttTask;
  relationships : list GanttRelationship;
  viewMode : ViewMode;
  theme : Theme;
  rowHeight : number;
  barHeight : number;
  showTooltips : bool;
  showRelationships : bool;
  canvasRef : option Canvas;
  ctx : bool;
  startDate : Z;
  endDate : Z;
  relationshipLines : list RelationshipLine;
  hoveredRelationship : option RelationshipLine;
  relationshipTooltip : option Element;
  tooltip : option Element;
  hoveredTask : option GanttTask;
  repaints : nat
}.

Definition headerHeight : number := of_Z 100.

Definition UNIT_WIDTHS (m : ViewMode) : UnitWidthConfig :=
  match m with
  | day => {| w_min := of_Z 20; w_max := of_Z 40; w_optimal := of_Z 30 |}
  | week => {| w_min := of_Z 60; w_max := of_Z 120; w_optimal := of_Z 80 |}
  | month => {| w_min := of_Z 80; w_max := of_Z 150; w_optimal := of_Z 100 |}
  | year => {| w_min := of_Z 150; w_max := of_Z 300; w_optimal := of_Z 200 |}
  end.

Definition THEMES (t : Theme) : ThemeColors :=
  match t with
  | light =>
      {| backgroundColor := "#ffffff"; textColor := "#333333";
         gridColor := "#e0e0e0"; barColor := "#42a5f5";
         barProgressColor := "#1976d2";
         relationshipColors := fun k =>
           match k with
           | FS => "#2196F3" | SS => "#4CAF50"
           | FF => "#FF9800" | SF => "#9C27B0"
           end |}
  | dark =>
      {| backgroundColor := "#2D3D43"; textColor := "#ffffff";
         gridColor := "#404040"; barColor := "#64b5f6";
         barProgressColor := "#42a5f5";
         relationshipColors := fun k =>
           match k with
           | FS => "#64B5F6" | SS => "#81C784"
           | FF => "#FFB74D" | SF => "#BA68C8"
           end |}
  end.

(** Field updates. *)
Definition set_relationships (v : list GanttRelationship) (c : Component)
  : Component :=
  {| tasks := tasks c; relationships := v;
     viewMode := viewMode c; theme := theme c; rowHeight := rowHeight c;
     barHeight := barHeight c; showTooltips := showTooltips c;
     showRelationships := showRelationships c; canvasRef := canvasRef c;
     ctx := ctx c; startDate := startDate c; endDate := endDate c;
     relationshipLines := relationshipLines c;
     hoveredRelationship := hoveredRelationship c;
     relationshipTooltip := relationshipTooltip c; tooltip := tooltip c;
     hoveredTask := hoveredTask c; repaints := repaints c |}.

Definition set_range (a b : Z) (c : Component) : Component :=
  {| tasks := tasks c; relationships := relationships c;
     viewMode := viewMode c; theme := theme c; rowHeight := rowHeight c;
     barHeight := barHeight c; showTooltips := showTooltips c;
     showRelationships := showRelationships c; canvasRef := canvasRef c;
     ctx := ctx c; startDate := a; endDate := b;
     relationshipLines := relationshipLines c;
     hoveredRelationship := hoveredRelationship c;
     relationshipTooltip := relationshipTooltip c; tooltip := tooltip c;
     hoveredTask := hoveredTask c; repaints := repaints c |}.

Definition set_canvasRef (v : option Canvas) (c : Component) : Component :=
  {| tasks := tasks c; relationships := relationships c;
     viewMode := viewMode c; theme := theme c; rowHeight := rowHeight c;
     barHeight := barHeight c; showTooltips := showTooltips c;
     showRelationships := showRelationships c; canvasRef := v;
     ctx := ctx c; startDate := startDate c; endDate := endDate c;
     relationshipLines := relationshipLines c;
     hoveredRelationship := hoveredRelationship c;
     relationshipTooltip := relationshipTooltip c; tooltip := tooltip c;
     hoveredTask := hoveredTask c; repaints := repaints c |}.

Definition set_relationshipLines (v : list RelationshipLine) (c : Component)
  : Component :=
  {| tasks := tasks c; relationships := relationships c;
     viewMode := viewMode c; theme := theme c; rowHeight := rowHeight c;
     barHeight := barHeight c; showTooltips := showTooltips c;
     showRelationships := showRelationships c; canvasRef := canvasRef c;
     ctx := ctx c; startDate := startDate c; endDate := endDate c;
     relationshipLines := v;
     hoveredRelationship := hoveredRelationship c;
     relationshipTooltip := relationshipTooltip c; tooltip := tooltip c;
     hoveredTask := hoveredTask c; repaints := repaints c |}.

Definition set_hoveredRelationship (v : option RelationshipLine)
  (c : Component) : Component :=
  {| tasks := tasks c; relationships := relationships c;
     viewMode := viewMode c; theme := theme c; rowHeight := rowHeight c;
     barHeight := barHeight c; showTooltips := showTooltips c;
     showRelationships := showRelationships c; canvasRef := canvasRef c;
     ctx := ctx c; startDate := startDate c; endDate := endDate c;
     relationshipLines := relationshipLines c;
     hoveredRelationship := v;
     relationshipTooltip := relationshipTooltip c; tooltip := tooltip c;
     hoveredTask := hoveredTask c; repaints := repaints c |}.

Definition set_relationshipTooltip (v : option Element) (c : Component)
  : Component :=
  {| tasks := tasks c; relationships := relationships c;
     viewMode := viewMode c; theme := theme c; rowHeight := rowHeight c;
     barHeight := barHeight c; showTooltips := showTooltips c;
     showRelationships := showRelationships c; canvasRef := canvasRef c;
     ctx := ctx c; startDate := startDate c; endDate := endDate c;
     relationshipLines := relationshipLines c;
     hoveredRelationship := hoveredRelationship c;
     relationshipTooltip := v; tooltip := tooltip c;
     hoveredTask := hoveredTask c; repaints := repaints c |}.

Definition set_tooltip (v : option Element) (c : Component) : Component :=
  {| tasks := tasks c; relationships := relationships c;
     viewMode := viewMode c; theme := theme c; rowHeight := rowHeight c;
     barHeight := barHeight c; showTooltips := showTooltips c;
     showRelationships := showRelationships c; canvasRef := canvasRef c;
     ctx := ctx c; startDate := startDate c; endDate := endDate c;
     relationshipLines := relationshipLines c;
     hoveredRelationship := hoveredRelationship c;
     relationshipTooltip := relationshipTooltip c; tooltip := v;
     hoveredTask := hoveredTask c; repaints := repaints c |}.

Definition set_hoveredTask (v : option GanttTask) (c : Component)
  : Component :=
  {| tasks := tasks c; relationships := relationships c;
     viewMode := viewMode c; theme := theme c; rowHeight := rowHeight c;
     barHeight := barHeight c; showTooltips := showTooltips c;
     showRelationships := showRelationships c; canvasRef := canvasRef c;
     ctx := ctx c; startDate := startDate c; endDate := endDate c;
     relationshipLines := relationshipLines c;
     hoveredRelationship := hoveredRelationship c;
     relationshipTooltip := relationshipTooltip c; tooltip := tooltip c;
     hoveredTask := v; repaints := repaints c |}.

Definition set_repaints (v : nat) (c : Component) : Component :=
  {| tasks := tasks c; relationships := relationships c;
     viewMode := viewMode c; theme := theme c; rowHeight := rowHeight c;
     barHeight := barHeight c; showTooltips := showTooltips c;
     showRelationships := showRelationships c; canvasRef := canvasRef c;
     ctx := ctx c; startDate := startDate c; endDate := endDate c;
     relationshipLines := relationshipLines c;
     hoveredRelationship := hoveredRelationship c;
     relationshipTooltip := relationshipTooltip c; tooltip := tooltip c;
     hoveredTask := hoveredTask c; repaints := v |}.

Definition set_cursor (v : string) (cv : Canvas) : Canvas :=
  {| canvas_width := canvas_width cv; cursor := v;
     rect_left := rect_left cv; rect_top := rect_top cv |}.

Definition set_display (v : string) (e : Element) : Element :=
  {| className := className e; innerHTML := innerHTML e;
     style_left := style_left e; style_top := style_top e;
     style_display := v |}.

(** Structural equality, standing for [===] on objects. *)
#[global] Instance Q_eq_dec : EqDecision Q.
Proof. solve_decision. Defined.
#[global] Instance number_eq_dec : EqDecision number.
Proof. solve_decision. Defined.
#[global] Instance GanttTask_eq_dec : EqDecision GanttTask.
Proof. solve_decision. Defined.

Definition without_lag (rel : GanttRelationship) : GanttRelationship :=
  {| rel_id := rel_id rel; sourceId := sourceId rel;
     targetId := targetId rel; rel_type := rel_type rel; lag := None |}.

Definition texts (l : list DrawCmd) : list Text :=
  omap (fun cmd => match cmd with
                   | FillText _ _ _ t _ _ => Some t
                   | FillRect _ _ _ _ _ => None
                   end) l.

Definition hidden (o : option Element) : Prop :=
  match o with
  | Some e => style_display e = "none"
  | None => True
  end.

(** ** Sample data *)

Definition component (ts : list GanttTask) (rels : list GanttRelationship)
  (vm : ViewMode) (cv : option Canvas) (s e : Z) : Component :=
  {| tasks := ts; relationships := rels; viewMode := vm; theme := light;
     rowHeight := of_Z 40; barHeight := of_Z 20;
     showTooltips := true; showRelationships := true;
     canvasRef := cv; ctx := true; startDate := s; endDate := e;
     relationshipLines := []; hoveredRelationship := None;
     relationshipTooltip := None; tooltip := None; hoveredTask := None;
     repaints := 0 |}.

(** A task that ends one second before it starts, in UTC. *)
Definition backwards : GanttTask :=
  {| task_id := "B"; task_name := "Backwards";
     task_start := 1000; task_end := 0;
     task_progress := None; task_color := None |}.

Definition backwards_view : Component :=
  component [backwards] [] day None 1000 0.

(** The task of the scenario of the specification, from 2024-01-01 to
    2024-01-10 (UTC), shown in the day view over its padded range. *)
Definition authentication : GanttTask :=
  {| task_id := "A"; task_name := "Implement authentication module";
     task_start := 1704067200000; task_end := 1704844800000;
     task_progress := None; task_color := None |}.

Definition authentication_view : Component :=
  component [authentication] [] day None 1703980800000 1704844800000.

(** A component whose pointer is over a line and a task at once. *)
Definition line_AA : RelationshipLine :=
  {| line_id := "r"; fromX := of_Z 0; fromY := of_Z 120;
     toX := of_Z 40; toY := of_Z 120; line_type := SS;
     sourceTask := authentication; targetTask := authentication;
     line_lag := None;
     path := {| path_moveTo := (of_Z 0, of_Z 120);
                path_cp1 := (of_Z 20, of_Z 120);
                path_cp2 := (of_Z 20, of_Z 120);
                path_end := (of_Z 40, of_Z 120) |} |}.

Definition canvas800 : Canvas :=
  {| canvas_width := 800; cursor := "pointer";
     rect_left := of_Z 0; rect_top := of_Z 0 |}.

Definition element (cls display : string) : Element :=
  {| className := cls; innerHTML := NoHtml;
     style_left := None; style_top := None; style_display := display |}.

Definition hovering (tooltips : bool) : Component :=
  {| tasks := [authentication];
     relationships :=
       [{| rel_id := "r"; sourceId := "A"; targetId := "A";
           rel_type := SS; lag := None |}];
     viewMode := day; theme := light;
     rowHeight := of_Z 40; barHeight := of_Z 20;
     showTooltips := tooltips; showRelationships := true;
     canvasRef := Some canvas800; ctx := true;
     startDate := 1703980800000; endDate := 1704844800000;
     relationshipLines := [line_AA];
     hoveredRelationship := Some line_AA;
     relationshipTooltip := Some (element "gantt-relationship-tooltip" "");
     tooltip := Some (element "gantt-tooltip" "block");
     hoveredTask := Some authentication;
     repaints := 1 |}.

Definition everywhere (p : Path2D) (x y : number) : bool := true.

Definition at_100_120 : MouseEvent :=
  {| clientX := of_Z 100; clientY := of_Z 120 |}.

(** Two tasks of January 2024 in a day view of 20 days on a canvas of
    600 pixels, so that the unit width is 30. *)
Definition design : GanttTask :=
  {| task_id := "D"; task_name := "Design";
     task_start := 1704153600000; task_end := 1704412800000;
     task_progress := Some (of_Z 50); task_color := None |}.

Definition build : GanttTask :=
  {| task_id := "E"; task_name := "Build";
     task_start := 1704499200000; task_end := 1704844800000;
     task_progress := None; task_color := Some "#ff0000" |}.

Definition finish_to_start (l : option number) : GanttRelationship :=
  {| rel_id := "r1"; sourceId := "D"; targetId := "E";
     rel_type := FS; lag := l |}.

Definition dangling : GanttRelationship :=
  {| rel_id := "r2"; sourceId := "D"; targetId := "Z";
     rel_type := FS; lag := None |}.

Definition canvas600 : Canvas :=
  {| canvas_width := 600; cursor := "";
     rect_left := of_Z 0; rect_top := of_Z 0 |}.

Definition january : Component :=
  component [design; build] [finish_to_start (Some (of_Z 2)); dangling] day
    (Some canvas600) 1704067200000 1705795200000.

(** An instant of June 2024, as the clock. *)
Definition june_2024 : Z := 1718000000000.

(** The component [hovering true] with its relationship tooltip hidden. *)
Definition quiet : Component :=
  set_relationshipTooltip
    (Some (element "gantt-relationship-tooltip" "none")) (hovering true).

(** The tasks of [january] in the week view. *)
Definition weekly : Component :=
  component [design; build] [] week (Some canvas600)
    1704067200000 1705795200000.

(** 2024-01-31, a Wednesday, at midnight UTC. *)
Definition last_of_january : Z := 1706659200000.

Definition at_0_0 : MouseEvent :=
  {| clientX := of_Z 0; clientY := of_Z 0 |}.

Definition nowhere (p : Path2D) (x y : number) : bool := false.

Definition at_60_110 : MouseEvent :=
  {| clientX := of_Z 60; clientY := of_Z 110 |}.

(** The component after its parent has bound another list of tasks. *)
Definition with_tasks (ts : list GanttTask) (c : Component) : Component :=
  {| tasks := ts; relationships := relationships c;
     viewMode := viewMode c; theme := theme c;
     rowHeight := rowHeight c; barHeight := barHeight c;
     showTooltips := showTooltips c;
     showRelationships := showRelationships c;
     canvasRef := canvasRef c; ctx := ctx c;
     startDate := startDate c; endDate := endDate c;
     relationshipLines := relationshipLines c;
     hoveredRelationship := hoveredRelationship c;
     relationshipTooltip := relationshipTooltip c;
     tooltip := tooltip c; hoveredTask := hoveredTask c;
     repaints := repaints c |}.

(** [january] with the task [build] hovered and its tooltip hidden. *)
Definition hidden_tooltip : Component :=
  set_hoveredTask (Some build)
    (set_tooltip (Some (element "gantt-tooltip" "none")) january).

(** ** The same methods on binary64 numbers

    [Binary64] embeds the date scale and the hit test once more, with the
    arithmetic of the code: every operation is rounded to the nearest
    binary64 number, ties to even, as specified by [SpecFloat]. *)

Module Binary64.

Definition float : Type := spec_float.

Definition prec : Z := 53.
Definition emax : Z := 1024.

(** the binary64 number nearest to an integer *)
Definition of_Z (z : Z) : float := binary_normalize prec emax z 0 false.

Definition add : float -> float -> float := SFadd prec emax.
Definition sub : float -> float -> float := SFsub prec emax.
Definition mul : float -> float -> float := SFmul prec emax.
Definition div : float -> float -> float := SFdiv prec emax.
Definition ltb : float -> float -> bool := SFltb.
Definition leb : float -> float -> bool := SFleb.
Definition geb (a b : float) : bool := leb b a.

(** The binary64 number that a number of the exact embedding stands
    for: the quotient, rounded once, of the numerator by the denominator
    (both taken below 2^53, so that they are binary64 numbers). *)
Definition of_number (a : number) : float :=
  match a with
  | NaN => S754_nan
  | PInf => S754_infinity false
  | NInf => S754_infinity true
  | NZero => S754_zero true
  | Fin q => div (of_Z (Qnum q)) (of_Z (Z.pos (Qden q)))
  end.

Definition is_nan (a : float) : bool :=
  match a with
  | S754_nan => true
  | _ => false
  end.

Definition sign (a : float) : bool :=
  match a with
  | S754_zero s | S754_infinity s | S754_finite s _ _ => s
  | S754_nan => false
  end.

Definition max (a b : float) : float :=
  if is_nan a || is_nan b then S754_nan
  else if ltb a b then b
  else if ltb b a then a
  else if sign a then b else a.

Definition min (a b : float) : float :=
  if is_nan a || is_nan b then S754_nan
  else if ltb a b then a
  else if ltb b a then b
  else if sign a then a else b.

(** [Math.floor]: a finite number [m * 2^e] with [e < 0] is cut to the
    integer below it; the others are integers already. *)
Definition floor (a : float) : float :=
  match a with
  | S754_finite s m e =>
      if 0 <=? e then a
      else
        let q := Z.pos m / 2 ^ (- e) in
        let r := Z.pos m mod 2 ^ (- e) in
        if s then (if r =? 0 then a else of_Z (- q - 1)) else of_Z q
  | _ => a
  end.

(** [Math.ceil] *)
Definition ceil (a : float) : float := SFopp (floor (SFopp a)).

(** the integer that an integral binary64 number is *)
Definition to_Z (a : float) : option Z :=
  match a with
  | S754_zero _ => Some 0
  | S754_finite s m e =>
      if 0 <=? e then Some (cond_Zopp s (Z.pos m * 2 ^ e))
      else if Z.pos m mod 2 ^ (- e) =? 0
           then Some (cond_Zopp s (Z.pos m / 2 ^ (- e)))
           else None
  | _ => None
  end.

Section Methods.

(** offset of local time from UTC, in milliseconds *)
Variable LocalTZA : Z.

Definition getTotalDays (c : Component) : float :=
  ceil (div (sub (of_Z (endDate c)) (of_Z (startDate c)))
            (of_Z (1000 * 60 * 60 * 24))).

Definition getTotalUnits (c : Component) : float :=
  match viewMode c with
  | day => getTotalDays c
  | week => ceil (div (getTotalDays c) (of_Z 7))
  | month =>
      add (add (mul (sub (of_Z (getFullYear LocalTZA (endDate c)))
                         (of_Z (getFullYear LocalTZA (startDate c))))
                    (of_Z 12))
               (sub (of_Z (getMonth LocalTZA (endDate c)))
                    (of_Z (getMonth LocalTZA (startDate c)))))
          (of_Z 1)
  | year =>
      add (sub (of_Z (getFullYear LocalTZA (endDate c)))
               (of_Z (getFullYear LocalTZA (startDate c))))
          (of_Z 1)
  end.

Definition calculateCanvasWidth (c : Component) : float :=
  match canvasRef c with
  | Some cv => if (canvas_width cv =? 0)%N then of_Z 800
               else of_Z (Z.of_N (canvas_width cv))
  | None => of_Z 800
  end.

Definition getOptimalUnitWidth (c : Component) : float :=
  let config := UNIT_WIDTHS (viewMode c) in
  let totalUnits := getTotalUnits c in
  max (of_number (w_min config))
      (min (of_number (w_max config))
           (div (calculateCanvasWidth c) totalUnits)).

Definition getXPositionForDate (c : Component) (date : Z) : float :=
  let daysDiff :=
    div (sub (of_Z date) (of_Z (startDate c))) (of_Z (1000 * 60 * 60 * 24)) in
  let unitWidth := getOptimalUnitWidth c in
  match viewMode c with
  | day => mul daysDiff unitWidth
  | week => mul (div daysDiff (of_Z 7)) unitWidth
  | month =>
      let monthsDiff :=
        add (mul (sub (of_Z (getFullYear LocalTZA date))
                      (of_Z (getFullYear LocalTZA (startDate c))))
                 (of_Z 12))
            (sub (of_Z (getMonth LocalTZA date))
                 (of_Z (getMonth LocalTZA (startDate c)))) in
      mul monthsDiff unitWidth
  | year =>
      mul (sub (of_Z (getFullYear LocalTZA date))
               (of_Z (getFullYear LocalTZA (startDate c)))) unitWidth
  end.

Definition getTaskAtPosition (c : Component) (x y : float)
  : option GanttTask :=
  let startY := of_number headerHeight in
  if ltb y startY then None
  else
    let rowIndex := floor (div (sub y startY) (of_number (rowHeight c))) in
    if geb rowIndex (of_Z 0)
       && ltb rowIndex (of_Z (Z.of_nat (length (tasks c))))
    then
      match to_Z rowIndex ≫= fun i => tasks c !! Z.to_nat i with
      | Some task =>
          let taskStartX := getXPositionForDate c (task_start task) in
          let taskEndX := getXPositionForDate c (task_end task) in
          if geb x taskStartX && leb x taskEndX then Some task else None
      | None => None
      end
    else None.

End Methods.

End Binary64.

(** ** The date scale in a time zone whose offset changes

    [HostZone] embeds the date scale once more, with the offset of local
    time a function of the time value, as the rules of a time zone give
    it. *)

Module HostZone.

Section Methods.

(** offset of local time from UTC at a time value, in milliseconds *)
Variable LocalTZA : Z -> Z.

Definition getFullYear (t : Z) : Z := YearFromTime (t + LocalTZA t).
Definition getMonth (t : Z) : Z := MonthFromTime (t + LocalTZA t).

Definition getTotalDays (c : Component) : number :=
  ceil (div (sub (of_Z (endDate c)) (of_Z (startDate c)))
            (of_Z (1000 * 60 * 60 * 24))).

Definition getTotalUnits (c : Component) : number :=
  match viewMode c with
  | day => getTotalDays c
  | week => ceil (div (getTotalDays c) (of_Z 7))
  | month =>
      of_Z ((getFullYear (endDate c) - getFullYear (startDate c)) * 12
            + (getMonth (endDate c) - getMonth (startDate c)) + 1)
  | year => of_Z (getFullYear (endDate c) - getFullYear (startDate c) + 1)
  end.

Definition calculateCanvasWidth (c : Component) : number :=
  match canvasRef c with
  | Some cv => if (canvas_width cv =? 0)%N then of_Z 800
               else of_Z (Z.of_N (canvas_width cv))
  | None => of_Z 800
  end.

Definition getOptimalUnitWidth (c : Component) : number :=
  let config := UNIT_WIDTHS (viewMode c) in
  let totalUnits := getTotalUnits c in
  JsNum.max (w_min config)
    (JsNum.min (w_max config) (div (calculateCanvasWidth c) totalUnits)).

Definition getXPositionForDate (c : Component) (date : Z) : number :=
  let daysDiff :=
    div (sub (of_Z date) (of_Z (startDate c))) (of_Z (1000 * 60 * 60 * 24)) in
  let unitWidth := getOptimalUnitWidth c in
  match viewMode c with
  | day => mul daysDiff unitWidth
  | week => mul (div daysDiff (of_Z 7)) unitWidth
  | month =>
      let monthsDiff :=
        (getFullYear date - getFullYear (startDate c)) * 12
        + (getMonth date - getMonth (startDate c)) in
      mul (of_Z monthsDiff) unitWidth
  | year => mul (of_Z (getFullYear date - getFullYear (startDate c))) unitWidth
  end.

End Methods.

(** America/St_Johns in the autumn of 2009: daylight time, UTC-2:30,
    ended on 2009-11-01 at 00:01 local time, which is 02:31 UTC; standard
    time is UTC-3:30. *)
Definition st_johns_2009 (t : Z) : Z :=
  if t <? 1257042660000 then -9000000 else -12600000.

End HostZone.

(** Nine tasks in rows of 20.3 pixels. *)
Definition row_task (id : string) : GanttTask :=
  {| task_id := id; task_name := "Step";
     task_start := 1704153600000; task_end := 1704412800000;
     task_progress := None; task_color := None |}.

Definition nine_rows : Component :=
  {| tasks := row_task <$> ["T0"; "T1"; "T2"; "T3"; "T4"; "T5"; "T6"; "T7";
                             "T8"];
     relationships := [];
     viewMode := day; theme := light;
     rowHeight := Fin (203 # 10); barHeight := of_Z 12;
     showTooltips := true; showRelationships := true;
     canvasRef := Some canvas600; ctx := true;
     startDate := 1704067200000; endDate := 1705795200000;
     relationshipLines := []; hoveredRelationship := None;
     relationshipTooltip := None; tooltip := None; hoveredTask := None;
     repaints := 0 |}.

(** Three months of 2009 in the month view. *)
Definition autumn_2009 : Component :=
  component [] [] month (Some canvas600) 1254398400000 1259668800000.

(** ** The component's methods *)

Section Gantt.

(** offset of local time from UTC, in milliseconds *)
Variable LocalTZA : Z.
(** [ctx.isPointInStroke(path, x, y)], given by the canvas *)
Variable isPointInStroke : Path2D -> number -> number -> bool.
(** [window.innerWidth] and the laid-out width of a tooltip *)
Variable innerWidth : number.
Variable offsetWidth : Element -> number.

(** [initializeDateRange], reading the clock as [now]: the new
    [startDate] and [endDate], [None] if a date became invalid. *)
Definition getTotalDaysOf (a b : Z) : number :=
  ceil (div (sub (of_Z b) (of_Z a)) (of_Z (1000 * 60 * 60 * 24))).

Definition getTotalDays (c : Component) : number :=
  getTotalDaysOf (startDate c) (endDate c).

Definition Math_min_list (l : list Z) (d : Z) : Z := foldr Z.min d l.
Definition Math_max_list (l : list Z) (d : Z) : Z := foldr Z.max d l.

Definition initializeDateRange (now : Z) (ts : list GanttTask)
  : option (Z * Z) :=
  match ts with
  | [] =>
      Some (newDate LocalTZA (getFullYear LocalTZA now) 0 1,
            newDate LocalTZA (getFullYear LocalTZA now + 1) 0 1)
  | t :: ts' =>
      let starts := task_start <$> ts' in
      let ends := task_end <$> ts' in
      let s0 := Math_min_list starts (task_start t) in
      let e0 := Math_max_list ends (task_end t) in
      let paddingDays := mul (getTotalDaysOf s0 e0) (Fin (5 # 100)) in
      s1 ← setDate LocalTZA s0 (sub (of_Z (getDate LocalTZA s0)) paddingDays);
      e1 ← setDate LocalTZA e0 (add (of_Z (getDate LocalTZA e0)) paddingDays);
      Some (s1, e1)
  end.

(** [getTotalUnits]. The month and year counts are sums and differences
    of integers, computed on [Z]; such a sum is never a negative zero. *)
Definition getTotalUnits (c : Component) : number :=
  match viewMode c with
  | day => getTotalDays c
  | week => ceil (div (getTotalDays c) (of_Z 7))
  | month =>
      of_Z ((getFullYear LocalTZA (endDate c)
             - getFullYear LocalTZA (startDate c)) * 12
            + (getMonth LocalTZA (endDate c)
               - getMonth LocalTZA (startDate c)) + 1)
  | year =>
      of_Z (getFullYear LocalTZA (endDate c)
            - getFullYear LocalTZA (startDate c) + 1)
  end.

(** [this.canvasRef?.nativeElement.width || 800] *)
Definition calculateCanvasWidth (c : Component) : number :=
  match canvasRef c with
  | Some cv => if (canvas_width cv =? 0)%N then of_Z 800
               else of_Z (Z.of_N (canvas_width cv))
  | None => of_Z 800
  end.

Definition getOptimalUnitWidth (c : Component) : number :=
  let config := UNIT_WIDTHS (viewMode c) in
  let totalUnits := getTotalUnits c in
  JsNum.max (w_min config)
    (JsNum.min (w_max config) (div (calculateCanvasWidth c) totalUnits)).

Definition getXPositionForDate (c : Component) (date : Z) : number :=
  let daysDiff :=
    div (sub (of_Z date) (of_Z (startDate c))) (of_Z (1000 * 60 * 60 * 24)) in
  let unitWidth := getOptimalUnitWidth c in
  match viewMode c with
  | day => mul daysDiff unitWidth
  | week => mul (div daysDiff (of_Z 7)) unitWidth
  | month =>
      let monthsDiff :=
        (getFullYear LocalTZA date - getFullYear LocalTZA (startDate c)) * 12
        + (getMonth LocalTZA date - getMonth LocalTZA (startDate c)) in
      mul (of_Z monthsDiff) unitWidth
  | year =>
      mul (of_Z (getFullYear LocalTZA date
                 - getFullYear LocalTZA (startDate c))) unitWidth
  end.

(** [drawTasks]: the commands for one task at row [index], then for all. *)
Definition truthy_opt (o : option number) : bool :=
  match o with
  | Some n => truthy n
  | None => false
  end.

Definition number_or (o : option number) (d : number) : number :=
  default d o.

Definition taskLabel (name : string) : string :=
  if bool_decide (15 < String.length name)%nat
  then String.substring 0 15 name +:+ "..."
  else name.

Definition drawTask (c : Component) (index : nat) (task : GanttTask)
  : list DrawCmd :=
  let th := THEMES (theme c) in
  let y := add (add headerHeight (mul (of_Z (Z.of_nat index)) (rowHeight c)))
               (div (sub (rowHeight c) (barHeight c)) (of_Z 2)) in
  let startX := getXPositionForDate c (task_start task) in
  let endX := getXPositionForDate c (task_end task) in
  let width := JsNum.max (sub endX startX) (of_Z 2) in
  let fill :=
    match task_color task with
    | Some col => if bool_decide (col = "") then barColor th else col
    | None => barColor th
    end in
  [FillRect fill startX y width (barHeight c)]
  ++ (if truthy_opt (task_progress task)
         && gtb (number_or (task_progress task) NaN) (of_Z 0)
      then
        let p := number_or (task_progress task) NaN in
        let progressWidth := div (mul width p) (of_Z 100) in
        [FillRect (barProgressColor th) startX y progressWidth (barHeight c)]
        ++ (if gtb width (of_Z 40)
            then [FillText (textColor th) "10px Arial" "center"
                    (Percent (round p))
                    (add startX (div width (of_Z 2)))
                    (add y (div (barHeight c) (of_Z 2)))]
            else [])
      else [])
  ++ (if gtb width (of_Z 60)
      then [FillText (textColor th) "10px Arial" "left"
              (Str (taskLabel (task_name task)))
              (add startX (of_Z 5))
              (add y (div (barHeight c) (of_Z 2)))]
      else []).

Definition drawTasks (c : Component) : list DrawCmd :=
  if negb (ctx c) || bool_decide (length (tasks c) = 0%nat) then []
  else mjoin (imap (drawTask c) (tasks c)).

(** [calculateRelationshipLines]. [new Map(tasks.map(t => [t.id, t]))]
    keeps the last task of each id; [findIndex] returns the first index. *)
Definition taskMap (ts : list GanttTask) : gmap string GanttTask :=
  foldl (fun m t => <[task_id t := t]> m) ∅ ts.

Definition findIndex (i : string) (ts : list GanttTask) : option nat :=
  fst <$> list_find (fun t => task_id t = i) ts.

Definition createRelationshipPath (fromX fromY toX toY : number) : Path2D :=
  let midX := div (add fromX toX) (of_Z 2) in
  {| path_moveTo := (fromX, fromY);
     path_cp1 := (midX, fromY);
     path_cp2 := (midX, toY);
     path_end := (toX, toY) |}.

(** The body of the [forEach]: [None] where it returns without a push. *)
Definition relationshipLine (c : Component) (rel : GanttRelationship)
  : option RelationshipLine :=
  sourceTask ← taskMap (tasks c) !! sourceId rel;
  targetTask ← taskMap (tasks c) !! targetId rel;
  sourceIndex ← findIndex (task_id sourceTask) (tasks c);
  targetIndex ← findIndex (task_id targetTask) (tasks c);
  let startY := headerHeight in
  let fromY := add (add startY (mul (of_Z (Z.of_nat sourceIndex)) (rowHeight c)))
                   (div (rowHeight c) (of_Z 2)) in
  let toY := add (add startY (mul (of_Z (Z.of_nat targetIndex)) (rowHeight c)))
                 (div (rowHeight c) (of_Z 2)) in
  let ends :=
    match rel_type rel with
    | FS => (getXPositionForDate c (task_end sourceTask),
             getXPositionForDate c (task_start targetTask))
    | SS => (getXPositionForDate c (task_start sourceTask),
             getXPositionForDate c (task_start targetTask))
    | FF => (getXPositionForDate c (task_end sourceTask),
             getXPositionForDate c (task_end targetTask))
    | SF => (getXPositionForDate c (task_start sourceTask),
             getXPositionForDate c (task_end targetTask))
    end in
  let fromX := ends.1 in
  let toX :=
    if truthy_opt (lag rel)
    then add ends.2 (mul (number_or (lag rel) NaN) (getOptimalUnitWidth c))
    else ends.2 in
  Some {| line_id := rel_id rel;
          fromX := fromX; fromY := fromY; toX := toX; toY := toY;
          line_type := rel_type rel;
          sourceTask := sourceTask; targetTask := targetTask;
          line_lag := lag rel;
          path := createRelationshipPath fromX fromY toX toY |}.

Definition calculateRelationshipLines (c : Component) : list RelationshipLine :=
  omap (relationshipLine c) (relationships c).

(** [drawRelationships] and [drawChart]: a repaint is counted, and the
    cache of lines is rebuilt when relationships are shown. *)
Definition drawRelationships (c : Component) : Component :=
  if negb (ctx c) || bool_decide (length (relationships c) = 0%nat) then c
  else set_relationshipLines (calculateRelationshipLines c) c.

Definition drawChart (c : Component) : Component :=
  if negb (ctx c) then c
  else
    let c1 := set_repaints (S (repaints c)) c in
    if showRelationships c1 then drawRelationships c1 else c1.

(** Tooltips. *)
Definition newElement (cls : string) : Element :=
  {| className := cls; innerHTML := NoHtml;
     style_left := None; style_top := None; style_display := "" |}.

Definition createTooltipElement (c : Component) : Component :=
  match tooltip c with
  | Some _ => c
  | None => set_tooltip (Some (newElement "gantt-tooltip")) c
  end.

Definition createRelationshipTooltipElement (c : Component) : Component :=
  match relationshipTooltip c with
  | Some _ => c
  | None =>
      set_relationshipTooltip
        (Some (newElement "gantt-relationship-tooltip")) c
  end.

Definition hideTooltip (c : Component) : Component :=
  match tooltip c with
  | Some e => set_tooltip (Some (set_display "none" e)) c
  | None => c
  end.

Definition hideRelationshipTooltip (c : Component) : Component :=
  match relationshipTooltip c with
  | Some e => set_relationshipTooltip (Some (set_display "none" e)) c
  | None => c
  end.

Definition positionTooltip (event : MouseEvent) (c : Component) : Component :=
  match tooltip c with
  | None => c
  | Some e =>
      let x := add (clientX event) (of_Z 15) in
      let y := sub (clientY event) (of_Z 15) in
      let rightEdge := sub (sub innerWidth (offsetWidth e)) (of_Z 20) in
      set_tooltip
        (Some {| className := className e; innerHTML := innerHTML e;
                 style_left := Some (JsNum.min x rightEdge);
                 style_top := Some y;
                 style_display := "block" |}) c
  end.

Definition keep_truthy (o : option number) : option number :=
  if truthy_opt o then o else None.

Definition showTooltip (event : MouseEvent) (task : GanttTask) (c : Component)
  : Component :=
  if negb (showTooltips c) || bool_decide (hoveredTask c = Some task) then c
  else
    let c1 := createTooltipElement (set_hoveredTask (Some task) c) in
    match tooltip c1 with
    | None => c1
    | Some e =>
        let duration :=
          ceil (div (sub (of_Z (task_end task)) (of_Z (task_start task)))
                    (of_Z (1000 * 60 * 60 * 24))) in
        let html :=
          TaskHtml (task_name task) (task_start task) (task_end task)
                   duration (keep_truthy (task_progress task)) in
        positionTooltip event
          (set_tooltip
             (Some {| className := className e; innerHTML := html;
                      style_left := style_left e; style_top := style_top e;
                      style_display := style_display e |}) c1)
    end.

Definition showRelationshipTooltip (event : MouseEvent)
  (rel : RelationshipLine) (c : Component) : Component :=
  let c1 := createRelationshipTooltipElement c in
  match relationshipTooltip c1 with
  | None => c1
  | Some e =>
      let html :=
        RelationshipHtml (line_type rel) (task_name (sourceTask rel))
          (task_name (targetTask rel)) (keep_truthy (line_lag rel)) in
      set_relationshipTooltip
        (Some {| className := className e; innerHTML := html;
                 style_left := Some (add (clientX event) (of_Z 15));
                 style_top := Some (sub (clientY event) (of_Z 15));
                 style_display := style_display e |}) c1
  end.

(** [this.canvasRef.nativeElement.style.cursor = v]; the handlers that
    assign it run only when [canvasRef] is set. *)
Definition assign_cursor (v : string) (c : Component) : Component :=
  match canvasRef c with
  | Some cv => set_canvasRef (Some (set_cursor v cv)) c
  | None => c
  end.

(** Hit-testing and the hover handlers. *)
Definition getTaskAtPosition (c : Component) (x y : number)
  : option GanttTask :=
  let startY := headerHeight in
  if ltb y startY then None
  else
    let rowIndex := floor (div (sub y startY) (rowHeight c)) in
    if geb rowIndex (of_Z 0)
       && ltb rowIndex (of_Z (Z.of_nat (length (tasks c))))
    then
      match to_integer rowIndex ≫= fun i => tasks c !! Z.to_nat i with
      | Some task =>
          let taskStartX := getXPositionForDate c (task_start task) in
          let taskEndX := getXPositionForDate c (task_end task) in
          if geb x taskStartX && leb x taskEndX then Some task else None
      | None => None
      end
    else None.

Definition handleRelationshipHover (event : MouseEvent) (x y : number)
  (c : Component) : Component :=
  if negb (showRelationships c) || negb (showTooltips c) then c
  else
    let hovered :=
      List.find (fun line => ctx c && isPointInStroke (path line) x y)
                (relationshipLines c) in
    match hovered with
    | Some h =>
        let c1 := set_hoveredRelationship (Some h) c in
        let c2 := drawChart c1 in
        let c3 := showRelationshipTooltip event h c2 in
        assign_cursor "pointer" c3
    | None =>
        let c1 :=
          match hoveredRelationship c with
          | Some _ => drawChart (set_hoveredRelationship None c)
          | None => c
          end in
        hideRelationshipTooltip c1
    end.

Definition handleTaskHover (event : MouseEvent) (x y : number)
  (c : Component) : Component :=
  if negb (showTooltips c) then c
  else
    match getTaskAtPosition c x y with
    | Some task => assign_cursor "pointer" (showTooltip event task c)
    | None => assign_cursor "default" (hideTooltip c)
    end.

Definition getMousePosition (event : MouseEvent) (cv : Canvas)
  : number * number :=
  (sub (clientX event) (rect_left cv), sub (clientY event) (rect_top cv)).

Definition onMouseMove (event : MouseEvent) (c : Component) : Component :=
  match canvasRef c with
  | None => c
  | Some cv =>
      let p := getMousePosition event cv in
      handleTaskHover event p.1 p.2
        (handleRelationshipHover event p.1 p.2 c)
  end.

Definition onMouseLeave (c : Component) : Component :=
  let c1 := hideRelationshipTooltip (hideTooltip c) in
  match canvasRef c1 with
  | Some _ => assign_cursor "default" c1
  | None => c1
  end.

(** ** Further methods *)

Definition calculateCanvasHeight (c : Component) : number :=
  add (add headerHeight (mul (of_Z (Z.of_nat (length (tasks c)))) (rowHeight c)))
      (of_Z 50).

(** [setDate], [setMonth] and [setFullYear] of a date for an integral
    argument, and [getDay] (0 is Sunday). *)
Definition setDateZ (t n : Z) : Z :=
  let lt := LocalTime LocalTZA t in
  UTC LocalTZA
    (MakeDate (MakeDay (YearFromTime lt) (MonthFromTime lt) n)
              (TimeWithinDay lt)).

Definition setMonth (t m : Z) : Z :=
  let lt := LocalTime LocalTZA t in
  UTC LocalTZA
    (MakeDate (MakeDay (YearFromTime lt) m (DateFromTime lt))
              (TimeWithinDay lt)).

Definition setFullYear (t y : Z) : Z :=
  let lt := LocalTime LocalTZA t in
  UTC LocalTZA
    (MakeDate (MakeDay y (MonthFromTime lt) (DateFromTime lt))
              (TimeWithinDay lt)).

Definition getDay (t : Z) : Z := (Day (LocalTime LocalTZA t) + 4) mod 7.

Definition getNextDate (c : Component) (current : Z) : Z :=
  match viewMode c with
  | day => setDateZ current (getDate LocalTZA current + 1)
  | week => setDateZ current (getDate LocalTZA current + 7)
  | month => setMonth current (getMonth LocalTZA current + 1)
  | year => setFullYear current (getFullYear LocalTZA current + 1)
  end.

(** [getDateLabel]: what the label shows; [ShortMonth m] stands for the
    short name of month [m] in the locale. *)
Inductive DateLabel : Type :=
| DayOfMonth (d : Z)
| WeekRange (first last : Z)
| ShortMonth (m : Z)
| FullYear (y : Z).

Definition getDateLabel (c : Component) (date : Z) : DateLabel :=
  match viewMode c with
  | day => DayOfMonth (getDate LocalTZA date)
  | week =>
      let weekStart :=
        setDateZ date (getDate LocalTZA date - getDay date) in
      WeekRange (getDate LocalTZA weekStart) (getDate LocalTZA weekStart + 6)
  | month => ShortMonth (getMonth LocalTZA date)
  | year => FullYear (getFullYear LocalTZA date)
  end.

(** Painting commands of the header and of the grid; stroke styles are
    not modelled. *)
Inductive PaintCmd : Type :=
| FillBox (fillStyle : string) (x y w h : number)
| FillLabel (fillStyle font : string) (label : DateLabel) (x y : number)
| FillCaption (fillStyle font text : string) (x y : number)
| StrokeLine (dashed : bool) (x0 y0 x1 y1 : number).

(** The loop of [drawHeader]: the date and the x of each iteration, and
    the x after the last one; [None] when the fuel runs out. *)
Fixpoint headerIterations (fuel : nat) (c : Component) (unitWidth x : number)
  (current : Z) : option (list (Z * number) * number) :=
  match fuel with
  | O => None
  | S fuel' =>
      if current <=? endDate c then
        match headerIterations fuel' c unitWidth (add x unitWidth)
                (getNextDate c current) with
        | Some (its, x') => Some ((current, x) :: its, x')
        | None => None
        end
      else Some ([], x)
  end.

(** [drawHeader], with [cv] the canvas of [canvasRef]. *)
Definition drawHeader (fuel : nat) (c : Component) (cv : Canvas)
  : option (list PaintCmd) :=
  if negb (ctx c) then Some []
  else
    let th := THEMES (theme c) in
    let unitWidth := getOptimalUnitWidth c in
    match headerIterations fuel c unitWidth (of_Z 0) (startDate c) with
    | Some (its, x) =>
        Some (FillBox (backgroundColor th) (of_Z 0) (of_Z 0)
                (of_Z (Z.of_N (canvas_width cv))) headerHeight
              :: flat_map
                   (fun it =>
                      [FillLabel (textColor th) "bold 14px Arial"
                         (getDateLabel c it.1)
                         (add it.2 (div unitWidth (of_Z 2)))
                         (div headerHeight (of_Z 2));
                       StrokeLine false it.2 (of_Z 0) it.2 headerHeight])
                   its
              ++ [StrokeLine false x (of_Z 0) x headerHeight;
                  StrokeLine false (of_Z 0) headerHeight x headerHeight])
    | None => None
    end.

(** The loop of the vertical lines of [drawGrid]: the x of each line. *)
Fixpoint gridIterations (fuel : nat) (unitWidth totalWidth x : number)
  : option (list number) :=
  match fuel with
  | O => None
  | S fuel' =>
      if leb x totalWidth then
        match gridIterations fuel' unitWidth totalWidth (add x unitWidth) with
        | Some xs => Some (x :: xs)
        | None => None
        end
      else Some []
  end.

(** [drawGrid], reading the clock as [now], with [height] the height of
    the canvas. *)
Definition drawGrid (fuel : nat) (now : Z) (c : Component) (height : number)
  : option (list PaintCmd) :=
  if negb (ctx c) then Some []
  else
    let th := THEMES (theme c) in
    let unitWidth := getOptimalUnitWidth c in
    let gridStartY := headerHeight in
    let totalWidth := calculateCanvasWidth c in
    match gridIterations fuel unitWidth totalWidth (of_Z 0) with
    | Some xs =>
        Some (((fun x => StrokeLine false x gridStartY x height) <$> xs)
              ++ ((fun i : nat =>
                     let y := add gridStartY
                                  (mul (of_Z (Z.of_nat i)) (rowHeight c)) in
                     StrokeLine false (of_Z 0) y totalWidth y)
                  <$> seq 0 (S (length (tasks c))))
              ++ (if (startDate c <=? now) && (now <=? endDate c)
                  then
                    let todayX := getXPositionForDate c now in
                    [StrokeLine true todayX gridStartY todayX height;
                     FillCaption (textColor th) "bold 10px Arial" "TODAY"
                       todayX (add gridStartY (of_Z 20))]
                  else []))
    | None => None
    end.

(** ** Notions used by the statements *)

(** [resolvable c rel]: both ends of [rel] are ids of tasks of [c]. *)
Definition resolvable (c : Component) (rel : GanttRelationship) : Prop :=
  sourceId rel ∈ task_id <$> tasks c /\ targetId rel ∈ task_id <$> tasks c.

(** The number of view units, fractional in the day and week views, from
    the start of the range to [date]. *)
Definition units_from_start (c : Component) (date : Z) : Q :=
  match viewMode c with
  | day => (inject_Z date - inject_Z (startDate c)) / (86400000 # 1)
  | week => (inject_Z date - inject_Z (startDate c)) / (86400000 # 1) / (7 # 1)
  | month =>
      inject_Z
        ((getFullYear LocalTZA date - getFullYear LocalTZA (startDate c)) * 12
         + (getMonth LocalTZA date - getMonth LocalTZA (startDate c)))
  | year =>
      inject_Z (getFullYear LocalTZA date - getFullYear LocalTZA (startDate c))
  end.

(** [t] is the first instant of the calendar year [y], in local time. *)
Definition first_instant_of_year (y t : Z) : Prop :=
  getFullYear LocalTZA t = y /\ getFullYear LocalTZA (t - 1) = y - 1.

(** [t] is the last instant of the calendar year [y], in local time. *)
Definition last_instant_of_year (y t : Z) : Prop :=
  getFullYear LocalTZA t = y /\ getFullYear LocalTZA (t + 1) = y + 1.

(** [same_geometry c1 c2]: the two components agree on the fields from
    which positions and lines are computed. *)
Definition same_geometry (c1 c2 : Component) : Prop :=
  tasks c1 = tasks c2 /\ viewMode c1 = viewMode c2
  /\ rowHeight c1 = rowHeight c2 /\ canvasRef c1 = canvasRef c2
  /\ startDate c1 = startDate c2 /\ endDate c1 = endDate c2.

(** [same_layout c1 c2]: the two components have the same inputs, date
    range, drawing context and canvas width; they may differ in what is
    hovered, in the tooltips, the cursor, the cache of lines and the count
    of repaints. *)
Definition same_layout (c1 c2 : Component) : Prop :=
  tasks c1 = tasks c2 /\ relationships c1 = relationships c2
  /\ viewMode c1 = viewMode c2 /\ theme c1 = theme c2
  /\ rowHeight c1 = rowHeight c2 /\ barHeight c1 = barHeight c2
  /\ showTooltips c1 = showTooltips c2
  /\ showRelationships c1 = showRelationships c2
  /\ ctx c1 = ctx c2
  /\ startDate c1 = startDate c2 /\ endDate c1 = endDate c2
  /\ (canvas_width <$> canvasRef c1) = (canvas_width <$> canvasRef c2)
  /\ (rect_left <$> canvasRef c1) = (rect_left <$> canvasRef c2)
  /\ (rect_top <$> canvasRef c1) = (rect_top <$> canvasRef c2).

(** Pointer events, and the component after a sequence of them. *)
Inductive PointerEvent : Type :=
| Move (event : MouseEvent)
| Leave.

Definition handle (ev : PointerEvent) (c : Component) : Component :=
  match ev with
  | Move event => onMouseMove event c
  | Leave => onMouseLeave c
  end.

Definition run (evs : list PointerEvent) (c : Component) : Component :=
  foldl (fun c ev => handle ev c) c evs.

(** The two hover channels: what is hovered and shown for relationships,
    with the cache of lines and the count of repaints, and what is hovered
    and shown for tasks. *)
Definition same_relationship_channel (c1 c2 : Component) : Prop :=
  hoveredRelationship c1 = hoveredRelationship c2
  /\ relationshipTooltip c1 = relationshipTooltip c2
  /\ relationshipLines c1 = relationshipLines c2
  /\ repaints c1 = repaints c2.

Definition same_task_channel (c1 c2 : Component) : Prop :=
  hoveredTask c1 = hoveredTask c2 /\ tooltip c1 = tooltip c2.


(** The labels that a list of painting commands writes, with their x. *)
Definition labels (cmds : list PaintCmd) : list (DateLabel * number) :=
  omap (fun cmd =>
          match cmd with
          | FillLabel _ _ l x _ => Some (l, x)
          | _ => None
          end) cmds.

(** An integer that binary64 holds exactly ([Number.MAX_SAFE_INTEGER] is
    2^53 - 1). *)
Definition safe_integer (n : Z) : Prop := Z.abs n <= 9007199254740991.

(** * Facts *)

Set Default Proof Using "Type".

(** Arithmetic tactics look at the whole context: the host's variables
    are put aside first where a proof does not concern them. *)
Ltac clear_canvas :=
  try clear isPointInStroke; try clear innerWidth; try clear offsetWidth.
Ltac clear_host := clear_canvas; try clear LocalTZA.

#[local] Arguments getTotalUnits : simpl never.
#[local] Arguments getOptimalUnitWidth : simpl never.
#[local] Arguments getXPositionForDate : simpl never.
#[local] Arguments calculateRelationshipLines : simpl never.

(** ** Numbers: finite values *)

Lemma Qltb_lt x y : Qltb x y = true <-> (x < y)%Q.
Proof.
  unfold Qltb. rewrite negb_true_iff, <- not_true_iff_false, Qle_bool_iff.
  split; [apply Qnot_le_lt | apply Qlt_not_le].
Qed.

Lemma Qltb_ge x y : Qltb x y = false <-> (y <= x)%Q.
Proof.
  unfold Qltb. rewrite negb_false_iff. apply Qle_bool_iff.
Qed.

Lemma Qeq_bool_false x y : Qeq_bool x y = false <-> ~ (x == y)%Q.
Proof.
  rewrite <- not_true_iff_false, Qeq_bool_iff. tauto.
Qed.

Lemma inject_Z_pos k : 0 < k -> (0 < inject_Z k)%Q.
Proof. intros H. by rewrite (Zlt_Qlt 0 k) in H. Qed.

Lemma inject_Z_nonneg k : 0 <= k -> (0 <= inject_Z k)%Q.
Proof. intros H. by rewrite (Zle_Qle 0 k) in H. Qed.

Lemma finite_as_of_Z z : finite_as (of_Z z) (inject_Z z).
Proof. split; reflexivity. Qed.

Lemma finite_as_Fin q : finite_as (Fin q) q.
Proof. split; reflexivity. Qed.

Lemma finite_as_same a p q : finite_as a p -> (p == q)%Q -> finite_as a q.
Proof. intros [H1 H2] H. split; [done | by rewrite H2]. Qed.

Lemma finite_as_zero s : finite_as (zero s) 0.
Proof. destruct s; split; reflexivity. Qed.

Lemma finite_as_neg a p : finite_as a p -> finite_as (neg a) (- p).
Proof.
  intros [H1 H2]. destruct a as [| | | |q]; try discriminate; simpl in *.
  - split; [done | simpl; lra].
  - destruct (Qeq_bool q 0) eqn:E.
    + apply Qeq_bool_iff in E. split; [done | simpl; lra].
    + split; [done | simpl; lra].
Qed.

Lemma finite_as_add a b p q :
  finite_as a p -> finite_as b q -> finite_as (add a b) (p + q).
Proof.
  intros [Ha1 Ha2] [Hb1 Hb2].
  destruct a as [| | | |x], b as [| | | |y]; try discriminate;
    simpl in *; (split; [done | simpl; lra]).
Qed.

Lemma finite_as_sub a b p q :
  finite_as a p -> finite_as b q -> finite_as (sub a b) (p - q).
Proof.
  intros Ha Hb. unfold sub.
  eapply finite_as_same; [apply finite_as_add; [done | by apply finite_as_neg] |].
  lra.
Qed.

Lemma is_zero_val a : is_finite a = true -> is_zero a = true <-> (val a == 0)%Q.
Proof.
  destruct a; try discriminate; simpl; intros _.
  - split; [reflexivity | done].
  - apply Qeq_bool_iff.
Qed.

Lemma finite_as_mul a b p q :
  finite_as a p -> finite_as b q -> finite_as (mul a b) (p * q).
Proof.
  intros [Ha1 Ha2] [Hb1 Hb2].
  assert (Hm : mul a b =
               if is_zero a || is_zero b
               then zero (xorb (sign a) (sign b)) else Fin (val a * val b)).
  { destruct a, b; try discriminate; reflexivity. }
  rewrite Hm. destruct (is_zero a || is_zero b) eqn:E.
  - eapply finite_as_same; [apply finite_as_zero |].
    apply orb_true_iff in E as [E | E]; apply is_zero_val in E; try done;
      rewrite <- Ha2, <- Hb2, E; lra.
  - split; [done | simpl; by rewrite Ha2, Hb2].
Qed.

Lemma finite_as_div a b p q :
  finite_as a p -> finite_as b q -> ~ (q == 0)%Q ->
  finite_as (div a b) (p / q).
Proof.
  intros [Ha1 Ha2] [Hb1 Hb2] Hq.
  assert (Hz : is_zero b = false).
  { apply not_true_iff_false. rewrite is_zero_val by done. by rewrite Hb2. }
  assert (Hm : div a b =
               if is_zero a then zero (xorb (sign a) (sign b))
               else Fin (val a / val b)).
  { destruct a, b; try discriminate; simpl in *; try rewrite Hz; try done. }
  rewrite Hm. destruct (is_zero a) eqn:E.
  - eapply finite_as_same; [apply finite_as_zero |].
    apply is_zero_val in E; [| done]. rewrite <- Ha2, E.
    unfold Qdiv. lra.
  - split; [done | simpl; by rewrite Ha2, Hb2].
Qed.

Lemma finite_as_ceil a p :
  finite_as a p -> finite_as (ceil a) (inject_Z (Qceiling p)).
Proof.
  intros [H1 H2]. destruct a as [| | | |x]; try discriminate; simpl in *.
  - rewrite <- H2. split; reflexivity.
  - destruct ((Qceiling x =? 0) && Qltb x 0) eqn:E.
    + apply andb_true_iff in E as [E _]. apply Z.eqb_eq in E.
      split; [done |]. simpl. by rewrite <- H2, E.
    + split; [done |]. simpl. by rewrite H2.
Qed.

Lemma finite_as_floor a p :
  finite_as a p -> finite_as (floor a) (inject_Z (Qfloor p)).
Proof.
  intros [H1 H2]. destruct a as [| | | |x]; try discriminate; simpl in *.
  - rewrite <- H2. split; reflexivity.
  - split; [done |]. simpl. by rewrite H2.
Qed.

Lemma ltb_finite a b p q :
  finite_as a p -> finite_as b q -> ltb a b = Qltb p q.
Proof.
  intros [Ha1 Ha2] [Hb1 Hb2].
  assert (H : ltb a b = Qltb (val a) (val b)).
  { destruct a, b; try discriminate; reflexivity. }
  rewrite H. unfold Qltb. f_equal.
  apply eq_true_iff_eq. rewrite !Qle_bool_iff. by rewrite Ha2, Hb2.
Qed.

Lemma leb_finite a b p q :
  finite_as a p -> finite_as b q -> leb a b = Qle_bool p q.
Proof.
  intros Ha Hb.
  assert (H : leb a b = negb (ltb b a)).
  { destruct Ha as [Ha _], Hb as [Hb _].
    destruct a, b; try discriminate; reflexivity. }
  rewrite H, (ltb_finite b a q p) by done.
  unfold Qltb. by rewrite negb_involutive.
Qed.

Lemma ltb_finite_iff a b p q :
  finite_as a p -> finite_as b q -> ltb a b = true <-> (p < q)%Q.
Proof. intros Ha Hb. rewrite (ltb_finite a b p q) by done. apply Qltb_lt. Qed.

Lemma leb_finite_iff a b p q :
  finite_as a p -> finite_as b q -> leb a b = true <-> (p <= q)%Q.
Proof.
  intros Ha Hb. rewrite (leb_finite a b p q) by done. apply Qle_bool_iff.
Qed.

Lemma finite_pos_Fin a q :
  finite_as a q -> ~ (q == 0)%Q -> exists q', a = Fin q' /\ (q' == q)%Q.
Proof.
  intros [H1 H2] Hq. destruct a as [| | | |x]; try discriminate; simpl in *.
  - by destruct Hq.
  - by exists x.
Qed.

Lemma max_finite a b p q :
  finite_as a p -> finite_as b q ->
  finite_as (JsNum.max a b) (if Qltb p q then q else p).
Proof.
  intros Ha Hb.
  assert (H : JsNum.max a b =
              if ltb a b then b else if ltb b a then a
              else if sign a then b else a).
  { destruct Ha as [Ha _], Hb as [Hb _].
    destruct a, b; try discriminate; reflexivity. }
  rewrite H, (ltb_finite a b p q), (ltb_finite b a q p) by done.
  destruct (Qltb p q) eqn:E1; [done |].
  destruct (Qltb q p) eqn:E2; [done |].
  apply Qltb_ge in E1, E2.
  destruct (sign a); [| done].
  eapply finite_as_same; [done | lra].
Qed.

Lemma min_finite a b p q :
  finite_as a p -> finite_as b q ->
  finite_as (JsNum.min a b) (if Qltb p q then p else q).
Proof.
  intros Ha Hb.
  assert (H : JsNum.min a b =
              if ltb a b then a else if ltb b a then b
              else if sign a then a else b).
  { destruct Ha as [Ha _], Hb as [Hb _].
    destruct a, b; try discriminate; reflexivity. }
  rewrite H, (ltb_finite a b p q), (ltb_finite b a q p) by done.
  destruct (Qltb p q) eqn:E1; [done |].
  destruct (Qltb q p) eqn:E2; [done |].
  apply Qltb_ge in E1, E2.
  destruct (sign a); [| done].
  eapply finite_as_same; [done | lra].
Qed.

(** Clamping into [[lo, hi]]: the result is finite and within the bounds
    whatever is clamped, NaN apart. *)
Lemma clamp_bounds (lo hi : Z) (x : number) :
  0 < lo <= hi -> x <> NaN ->
  exists w, JsNum.max (of_Z lo) (JsNum.min (of_Z hi) x) = Fin w
            /\ (inject_Z lo <= w <= inject_Z hi)%Q
            /\ (x = PInf -> (w == inject_Z hi)%Q)
            /\ (x = NInf -> (w == inject_Z lo)%Q).
Proof.
  intros [Hlo Hhi] Hx.
  assert (Hlo' : (0 < inject_Z lo)%Q) by (by apply inject_Z_pos).
  assert (Hhi' : (inject_Z lo <= inject_Z hi)%Q) by (by rewrite <- Zle_Qle).
  assert (Hin : forall m, finite_as m (inject_Z hi) \/ finite_as m (inject_Z lo)
                   \/ (exists v, finite_as m v /\ (v <= inject_Z hi)%Q) \/ m = NInf ->
                   exists w, JsNum.max (of_Z lo) m = Fin w
                             /\ (inject_Z lo <= w <= inject_Z hi)%Q
                             /\ (finite_as m (inject_Z hi) -> (w == inject_Z hi)%Q)
                             /\ (m = NInf -> (w == inject_Z lo)%Q)).
  { intros m Hm.
    assert (Hcase : (exists v, finite_as m v /\ (v <= inject_Z hi)%Q) \/ m = NInf).
    { destruct Hm as [Hm | [Hm | [Hm | Hm]]]; [| | by left | by right].
      - left. exists (inject_Z hi). split; [done | lra].
      - left. exists (inject_Z lo). split; [done | lra]. }
    destruct Hcase as [(v & Hv & Hle) | ->].
    - pose proof (max_finite (of_Z lo) m _ _ (finite_as_of_Z lo) Hv) as Hmax.
      set (r := if Qltb (inject_Z lo) v then v else inject_Z lo) in Hmax.
      assert (Hr : (inject_Z lo <= r <= inject_Z hi)%Q
                   /\ ((v == inject_Z hi)%Q -> (r == inject_Z hi)%Q)).
      { subst r. destruct (Qltb (inject_Z lo) v) eqn:E.
        - apply Qltb_lt in E. split; [lra | done].
        - apply Qltb_ge in E. split; [lra | intros; lra]. }
      destruct (finite_pos_Fin _ _ Hmax) as (w & -> & Hw); [lra |].
      destruct Hr as [Hr1 Hr2].
      exists w. split; [done |]. split; [lra |].
      split; [| intros ->; by destruct Hv].
      intros [_ Hv2]. destruct Hv as [_ Hv1].
      assert (Hvh : (v == inject_Z hi)%Q) by (by rewrite <- Hv1, Hv2).
      specialize (Hr2 Hvh). lra.
    - exists (inject_Z lo). simpl.
      split; [done |]. split; [lra |]. split; [| done].
      intros [? _]; discriminate. }
  destruct x as [| | | |q]; try done.
  - (* PInf *)
    destruct (Hin (of_Z hi)) as (w & Hw & Hb & Hhi2 & _).
    { left. apply finite_as_of_Z. }
    exists w. split; [done |]. split; [done |].
    split; [intros _; apply Hhi2, finite_as_of_Z | discriminate].
  - (* NInf *)
    destruct (Hin NInf) as (w & Hw & Hb & _ & Hlo2); [by auto |].
    exists w. split; [done |]. split; [done |].
    split; [discriminate | auto].
  - (* -0 *)
    pose proof (min_finite (of_Z hi) NZero (inject_Z hi) 0
                  (finite_as_of_Z hi) (conj eq_refl (Qeq_refl 0))) as Hmin.
    destruct (Hin (JsNum.min (of_Z hi) NZero)) as (w & Hw & Hb & _ & _).
    { right; right; left. eexists; split; [exact Hmin |].
      destruct (Qltb (inject_Z hi) 0); lra. }
    exists w. split; [done |]. split; [done |]. split; discriminate.
  - pose proof (min_finite (of_Z hi) (Fin q) (inject_Z hi) q
                  (finite_as_of_Z hi) (finite_as_Fin q)) as Hmin.
    destruct (Hin (JsNum.min (of_Z hi) (Fin q))) as (w & Hw & Hb & _ & _).
    { right; right; left. eexists; split; [exact Hmin |].
      destruct (Qltb (inject_Z hi) q) eqn:E; [lra |].
      apply Qltb_ge in E. lra. }
    exists w. split; [done |]. split; [done |]. split; discriminate.
Qed.

(** ** Numbers: the sign of a quotient and of a ceiling *)

Lemma nonneg_of_Z n : 0 <= n -> nonneg (of_Z n).
Proof.
  intros Hn. split; [done |]. simpl. apply Qltb_ge.
  by apply inject_Z_nonneg.
Qed.

Lemma nonneg_sub_of_Z a b : a <= b -> nonneg (sub (of_Z b) (of_Z a)).
Proof.
  intros Hab. unfold sub, of_Z. simpl.
  destruct (Qeq_bool (inject_Z a) 0) eqn:E; simpl.
  - apply Qeq_bool_iff in E. split; [done |]. apply Qltb_ge.
    assert (a = 0) by (unfold Qeq in E; simpl in E; lia). subst a.
    by apply inject_Z_nonneg.
  - split; [done |]. apply Qltb_ge.
    rewrite (Zle_Qle a b) in Hab. lra.
Qed.

Lemma nonneg_div_pos a k : nonneg a -> 0 < k -> nonneg (div a (of_Z k)).
Proof.
  intros [Hf Hs] Hk. apply inject_Z_pos in Hk.
  assert (Hk0 : Qeq_bool (inject_Z k) 0 = false) by (apply Qeq_bool_false; intros E0; lra).
  assert (Hk1 : Qltb (inject_Z k) 0 = false) by (apply Qltb_ge; lra).
  destruct a as [| | | |q]; try discriminate; simpl in *.
  rewrite Hk0, Hs, Hk1. destruct (Qeq_bool q 0) eqn:E; simpl.
  - split; reflexivity.
  - split; [done |]. apply Qltb_ge. apply Qltb_ge in Hs.
    apply Qle_shift_div_l; lra.
Qed.

Lemma nonneg_ceil a : nonneg a -> nonneg (ceil a).
Proof.
  intros [Hf Hs]. destruct a as [| | | |q]; try discriminate; simpl in *.
  rewrite Hs, andb_false_r. split; [done |]. simpl.
  apply Qltb_ge. apply Qltb_ge in Hs.
  rewrite <- (Zle_Qle 0). change 0 with (Qceiling 0).
  by apply Qceiling_resp_le.
Qed.

Lemma eqb_zero_finite a q :
  finite_as a q -> eqb a (of_Z 0) = true <-> is_zero a = true.
Proof.
  intros Ha. unfold eqb.
  rewrite andb_true_iff.
  rewrite (leb_finite_iff a (of_Z 0) q 0), (leb_finite_iff (of_Z 0) a 0 q);
    try done; try apply finite_as_of_Z.
  rewrite is_zero_val by apply Ha. destruct Ha as [_ ->].
  split; [intros [? ?]; lra | intros ->; split; lra].
Qed.

(** ** The unit width *)

Lemma getTotalDaysOf_finite a b : exists q, finite_as (getTotalDaysOf a b) q.
Proof.
  eexists. unfold getTotalDaysOf.
  apply finite_as_ceil, finite_as_div;
    [apply finite_as_sub; apply finite_as_of_Z | apply finite_as_of_Z | done].
Qed.

Lemma getTotalUnits_finite c : exists q, finite_as (getTotalUnits c) q.
Proof.
  unfold getTotalUnits, getTotalDays.
  destruct (getTotalDaysOf_finite (startDate c) (endDate c)) as [q Hq].
  destruct (viewMode c); eauto using finite_as_of_Z.
  eexists. apply finite_as_ceil, finite_as_div;
    [exact Hq | apply finite_as_of_Z | done].
Qed.

Lemma getTotalDaysOf_nonneg a b : a <= b -> nonneg (getTotalDaysOf a b).
Proof.
  intros Hab. unfold getTotalDaysOf.
  apply nonneg_ceil, nonneg_div_pos; [by apply nonneg_sub_of_Z | done].
Qed.

Lemma getTotalUnits_zero_sign c :
  startDate c <= endDate c ->
  is_zero (getTotalUnits c) = true -> sign (getTotalUnits c) = false.
Proof.
  intros Hle. unfold getTotalUnits, getTotalDays.
  pose proof (getTotalDaysOf_nonneg _ _ Hle) as Hn.
  destruct (viewMode c).
  - intros _. apply Hn.
  - intros _. by apply nonneg_ceil, nonneg_div_pos.
  - simpl. intros Hz. apply Qeq_bool_iff in Hz. apply Qltb_ge. lra.
  - simpl. intros Hz. apply Qeq_bool_iff in Hz. apply Qltb_ge. lra.
Qed.

Lemma calculateCanvasWidth_pos c :
  exists k, 0 < k /\ calculateCanvasWidth c = of_Z k.
Proof.
  unfold calculateCanvasWidth. destruct (canvasRef c) as [cv |].
  - destruct (N.eqb_spec (canvas_width cv) 0).
    + by exists 800.
    + exists (Z.of_N (canvas_width cv)). split; [lia | done].
  - by exists 800.
Qed.

Lemma div_canvas_width k a q :
  0 < k -> finite_as a q ->
  div (of_Z k) a <> NaN
  /\ (is_zero a = true -> div (of_Z k) a = inf (sign a))
  /\ (is_zero a = false ->
      exists w, div (of_Z k) a = Fin w /\ (w == inject_Z k / q)%Q).
Proof.
  intros Hk [Hf Hv]. apply inject_Z_pos in Hk.
  assert (Hk0 : Qeq_bool (inject_Z k) 0 = false) by (apply Qeq_bool_false; intros E0; lra).
  assert (Hk1 : Qltb (inject_Z k) 0 = false) by (apply Qltb_ge; lra).
  destruct a as [| | | |x]; try discriminate; simpl in *.
  - rewrite Hk0, Hk1. by repeat split.
  - rewrite Hk0, Hk1. destruct (Qeq_bool x 0) eqn:E; simpl.
    + split; [by destruct (Qltb x 0) |]. split; [done | discriminate].
    + split; [done |]. split; [discriminate |].
      intros _. eexists. split; [done |]. by rewrite Hv.
Qed.

Lemma UNIT_WIDTHS_bounds m :
  exists lo hi, 0 < lo <= hi
                /\ w_min (UNIT_WIDTHS m) = of_Z lo
                /\ w_max (UNIT_WIDTHS m) = of_Z hi.
Proof.
  destruct m; simpl; do 2 eexists; (split; [| split; reflexivity]); lia.
Qed.

(** The unit width is a finite number between the bounds of the view
    mode, whatever the date range and the canvas are. *)
Lemma getOptimalUnitWidth_Fin c :
  exists lo hi w,
    w_min (UNIT_WIDTHS (viewMode c)) = of_Z lo
    /\ w_max (UNIT_WIDTHS (viewMode c)) = of_Z hi
    /\ 0 < lo <= hi
    /\ getOptimalUnitWidth c = Fin w
    /\ (inject_Z lo <= w <= inject_Z hi)%Q
    /\ (is_zero (getTotalUnits c) = true ->
        (sign (getTotalUnits c) = false -> (w == inject_Z hi)%Q)
        /\ (sign (getTotalUnits c) = true -> (w == inject_Z lo)%Q)).
Proof.
  destruct (UNIT_WIDTHS_bounds (viewMode c)) as (lo & hi & Hb & Hlo & Hhi).
  destruct (calculateCanvasWidth_pos c) as (k & Hk & Hcw).
  destruct (getTotalUnits_finite c) as (q & Hq).
  destruct (div_canvas_width k _ _ Hk Hq) as (Hnan & Hzero & _).
  destruct (clamp_bounds lo hi _ Hb Hnan) as (w & Hw & Hbw & Hp & Hn).
  exists lo, hi, w. unfold getOptimalUnitWidth.
  rewrite Hlo, Hhi, Hcw. repeat split; try done; try lia; try apply Hbw.
  - intros Hs. apply Hp. rewrite (Hzero H), Hs. done.
  - intros Hs. apply Hn. rewrite (Hzero H), Hs. done.
Qed.

(** The time value of an invalid date is NaN, and so is a count of units
    made from it; the clamp of [getOptimalUnitWidth] then gives NaN, which
    is not within any bounds. *)
Lemma unit_width_of_NaN (lo hi canvasWidth : number) :
  JsNum.max lo (JsNum.min hi (div canvasWidth NaN)) = NaN
  /\ leb lo NaN = false /\ leb NaN hi = false.
Proof. clear_host. by destruct lo, hi, canvasWidth. Qed.

(** C2 (amended). For every view mode, canvas and range of two valid
    dates the unit width is a number within the [min, max] bounds of the
    view mode.  When the total unit count is zero, the width is the
    mode's max if the count is +0, which is the only zero of a range
    whose start is not after its end, and the mode's min if the count is
    -0. *)
Theorem C2_unit_width_within_bounds (c : Component) :
  valid_date (startDate c) -> valid_date (endDate c) ->
  let config := UNIT_WIDTHS (viewMode c) in
  let totalUnits := getTotalUnits c in
  let width := getOptimalUnitWidth c in
  leb (w_min config) width = true
  /\ leb width (w_max config) = true
  /\ (eqb totalUnits (of_Z 0) = true ->
      (sign totalUnits = false -> same width (w_max config))
      /\ (sign totalUnits = true -> same width (w_min config))
      /\ (startDate c <= endDate c -> same width (w_max config))).
Proof.
  intros _ _ config totalUnits width. subst config totalUnits width.
  destruct (getOptimalUnitWidth_Fin c)
    as (lo & hi & w & -> & -> & Hb & -> & Hw & Hz).
  split; [| split].
  - rewrite (leb_finite_iff _ _ _ _ (finite_as_of_Z lo) (finite_as_Fin w)).
    apply Hw.
  - rewrite (leb_finite_iff _ _ _ _ (finite_as_Fin w) (finite_as_of_Z hi)).
    apply Hw.
  - intros He. destruct (getTotalUnits_finite c) as (q & Hq).
    apply (eqb_zero_finite _ _ Hq) in He.
    destruct (Hz He) as [Hpos Hneg]. simpl.
    split; [done |]. split; [done |].
    intros Hle. apply Hpos. by apply getTotalUnits_zero_sign.
Qed.

(** ** Task names *)

(** C9 (amended). When the width of the bar of a task exceeds 60 pixels
    and its name is longer than 15 characters, the name is drawn as its
    first 15 characters followed by three dots, left-aligned 5 pixels into
    the bar; the 31-character name "Implement authentication module" is
    drawn as "Implement authe...". *)
Theorem C9_long_name_truncated (c : Component) (index : nat)
  (task : GanttTask) :
  let startX := getXPositionForDate c (task_start task) in
  let endX := getXPositionForDate c (task_end task) in
  let width := JsNum.max (sub endX startX) (of_Z 2) in
  let y := add (add headerHeight (mul (of_Z (Z.of_nat index)) (rowHeight c)))
               (div (sub (rowHeight c) (barHeight c)) (of_Z 2)) in
  gtb width (of_Z 60) = true ->
  (15 < String.length (task_name task))%nat ->
  last (drawTask c index task) =
    Some (FillText (textColor (THEMES (theme c))) "10px Arial" "left"
            (Str (String.substring 0 15 (task_name task) +:+ "..."))
            (add startX (of_Z 5))
            (add y (div (barHeight c) (of_Z 2))))
  /\ String.length "Implement authentication module" = 31%nat
  /\ taskLabel "Implement authentication module" = "Implement authe...".
Proof.
  intros startX endX width y Hw Hn.
  split; [| split; reflexivity].
  unfold drawTask. fold startX endX. fold width. fold y.
  rewrite Hw. unfold taskLabel. rewrite bool_decide_true by done.
  rewrite !app_assoc. apply last_snoc.
Qed.

(** ** The hover handlers *)

(** C10. With [showTooltips] off, a pointer move leaves the component as
    it was: the hovered task and relationship, the cache of lines, the
    repaint count, the tooltips and the cursor are all unchanged. *)
Theorem C10_mouse_move_without_tooltips (event : MouseEvent) (c : Component) :
  showTooltips c = false -> onMouseMove event c = c.
Proof.
  intros H. unfold onMouseMove. destruct (canvasRef c); [| done].
  unfold handleRelationshipHover. rewrite H, orb_true_r.
  unfold handleTaskHover. by rewrite H.
Qed.

(** After the pointer-leave handler both tooltips are hidden and the
    cursor of the canvas, when there is one, is "default"; the hovered
    task and the hovered relationship are left as they were. *)
Lemma onMouseLeave_effect (c : Component) :
  let c' := onMouseLeave c in
  hidden (tooltip c')
  /\ hidden (relationshipTooltip c')
  /\ cursor <$> canvasRef c' = (fun _ => "default") <$> canvasRef c
  /\ hoveredTask c' = hoveredTask c
  /\ hoveredRelationship c' = hoveredRelationship c.
Proof.
  unfold onMouseLeave, hideRelationshipTooltip, hideTooltip, assign_cursor.
  destruct c as [? ? ? ? ? ? ? ? [cv |] ? ? ? ? ? [rt |] [tt |] ? ?];
    simpl; done.
Qed.

(** ** Relationship lines *)

Lemma taskMap_fold_None (ts : list GanttTask) (m : gmap string GanttTask) i :
  foldl (fun m t => <[task_id t := t]> m) m ts !! i = None
  <-> m !! i = None /\ i ∉ task_id <$> ts.
Proof.
  revert m. induction ts as [| t ts IH]; intros m; simpl.
  - split; [intros H; split; [done | apply not_elem_of_nil] | tauto].
  - rewrite IH, lookup_insert_None, not_elem_of_cons. split.
    + intros [[H1 H2] H3]. split; [done |]. split; [congruence | done].
    + intros [H1 [H2 H3]]. split; [| done]. split; [done | congruence].
Qed.

Lemma taskMap_None ts i : taskMap ts !! i = None <-> i ∉ task_id <$> ts.
Proof.
  unfold taskMap. rewrite taskMap_fold_None, lookup_empty. tauto.
Qed.

Lemma taskMap_fold_Some (ts : list GanttTask) (m : gmap string GanttTask) i t :
  foldl (fun m t => <[task_id t := t]> m) m ts !! i = Some t ->
  m !! i = Some t \/ (t ∈ ts /\ task_id t = i).
Proof.
  revert m. induction ts as [| t' ts IH]; intros m; simpl; [tauto |].
  intros H. apply IH in H as [H | [H1 H2]].
  - apply lookup_insert_Some in H as [[<- <-] | [_ H]].
    + right. split; [apply list_elem_of_here | done].
    + by left.
  - right. split; [by apply list_elem_of_further | done].
Qed.

Lemma taskMap_Some ts i t :
  taskMap ts !! i = Some t -> t ∈ ts /\ task_id t = i.
Proof.
  intros H. apply taskMap_fold_Some in H as [H | H]; [| done].
  by rewrite lookup_empty in H.
Qed.

Lemma findIndex_is_Some ts t : t ∈ ts -> is_Some (findIndex (task_id t) ts).
Proof.
  intros H. unfold findIndex.
  destruct (list_find_elem_of (fun t' => task_id t' = task_id t) ts t H eq_refl)
    as [[i t'] ->].
  by eexists.
Qed.

(** A relationship gives a line exactly when both its ends resolve. *)
Lemma relationshipLine_None (c : Component) (rel : GanttRelationship) :
  relationshipLine c rel = None <-> ~ resolvable c rel.
Proof.
  unfold relationshipLine, resolvable.
  destruct (taskMap (tasks c) !! sourceId rel) as [s |] eqn:Es; simpl.
  2: { apply taskMap_None in Es. split; [tauto | done]. }
  destruct (taskMap (tasks c) !! targetId rel) as [t |] eqn:Et; simpl.
  2: { apply taskMap_None in Et. split; [tauto | done]. }
  pose proof (taskMap_Some _ _ _ Es) as [Hs1 Hs2].
  pose proof (taskMap_Some _ _ _ Et) as [Ht1 Ht2].
  destruct (findIndex_is_Some _ _ Hs1) as [si ->].
  destruct (findIndex_is_Some _ _ Ht1) as [ti ->]. simpl.
  split; [done |]. intros H. destruct H. rewrite <- Hs2, <- Ht2.
  split; by apply list_elem_of_fmap_2.
Qed.

(** Equations between fields of updated components: by cases on the
    optional fields of the component. *)
Ltac by_fields c :=
  destruct c; simpl in *; repeat case_match; simplify_eq /=; reflexivity.

Lemma hoveredRelationship_drawChart c :
  hoveredRelationship (drawChart c) = hoveredRelationship c.
Proof.
  unfold drawChart, drawRelationships.
  destruct (ctx c) eqn:E; simpl; [| done]. rewrite E. simpl.
  destruct (showRelationships c); [| reflexivity].
  destruct (bool_decide _); reflexivity.
Qed.

Lemma hoveredRelationship_showRelationshipTooltip event h c :
  hoveredRelationship (showRelationshipTooltip event h c)
  = hoveredRelationship c.
Proof.
  unfold showRelationshipTooltip, createRelationshipTooltipElement.
  by_fields c.
Qed.

Lemma hoveredRelationship_hideRelationshipTooltip c :
  hoveredRelationship (hideRelationshipTooltip c) = hoveredRelationship c.
Proof.
  unfold hideRelationshipTooltip. by_fields c.
Qed.

Lemma hoveredRelationship_assign_cursor v c :
  hoveredRelationship (assign_cursor v c) = hoveredRelationship c.
Proof. unfold assign_cursor. by_fields c. Qed.

(** What the relationship handler leaves hovered is a line of the cache
    that the canvas reports under the pointer. *)
Lemma handleRelationshipHover_hovered event x y c h :
  showRelationships c = true -> showTooltips c = true ->
  hoveredRelationship (handleRelationshipHover event x y c) = Some h ->
  h ∈ relationshipLines c /\ isPointInStroke (path h) x y = true.
Proof.
  intros Hr Ht. unfold handleRelationshipHover. rewrite Hr, Ht. simpl.
  destruct (List.find _ (relationshipLines c)) as [h' |] eqn:E.
  - rewrite hoveredRelationship_assign_cursor,
      hoveredRelationship_showRelationshipTooltip,
      hoveredRelationship_drawChart. simpl.
    intros [= ->]. apply find_some in E as [E1 E2].
    apply andb_true_iff in E2 as [_ E2].
    split; [by apply list_elem_of_In | done].
  - rewrite hoveredRelationship_hideRelationshipTooltip.
    destruct (hoveredRelationship c) eqn:Eh.
    + by rewrite hoveredRelationship_drawChart.
    + by rewrite Eh.
Qed.

(** Positions and lines depend on the component through the fields of
    [same_geometry] only. *)
Lemma getTotalUnits_ext c1 c2 :
  same_geometry c1 c2 -> getTotalUnits c1 = getTotalUnits c2.
Proof.
  intros (_ & Hv & _ & _ & Hs & He).
  unfold getTotalUnits, getTotalDays. by rewrite Hv, Hs, He.
Qed.

Lemma getOptimalUnitWidth_ext c1 c2 :
  same_geometry c1 c2 -> getOptimalUnitWidth c1 = getOptimalUnitWidth c2.
Proof.
  intros H. pose proof (getTotalUnits_ext _ _ H) as Hu.
  destruct H as (_ & Hv & _ & Hc & _ & _).
  unfold getOptimalUnitWidth, calculateCanvasWidth. by rewrite Hv, Hc, Hu.
Qed.

Lemma getXPositionForDate_ext c1 c2 date :
  same_geometry c1 c2 ->
  getXPositionForDate c1 date = getXPositionForDate c2 date.
Proof.
  intros H. pose proof (getOptimalUnitWidth_ext _ _ H) as Hw.
  destruct H as (_ & Hv & _ & _ & Hs & _).
  unfold getXPositionForDate. by rewrite Hv, Hs, Hw.
Qed.

Lemma relationshipLine_ext c1 c2 rel :
  same_geometry c1 c2 -> relationshipLine c1 rel = relationshipLine c2 rel.
Proof.
  intros H. pose proof (getOptimalUnitWidth_ext _ _ H) as Hw.
  pose proof (fun d => getXPositionForDate_ext _ _ d H) as Hx.
  destruct H as (Ht & _ & Hr & _ & _ & _).
  unfold relationshipLine. rewrite Ht, Hr, Hw.
  destruct (taskMap (tasks c2) !! sourceId rel) as [s |]; [| done].
  destruct (taskMap (tasks c2) !! targetId rel) as [t |]; [| done]. simpl.
  destruct (findIndex (task_id s) (tasks c2)) as [si |]; [| done].
  destruct (findIndex (task_id t) (tasks c2)) as [ti |]; [| done]. simpl.
  by rewrite !Hx.
Qed.

Lemma omap_ext_pointwise {A B} (f g : A -> option B) (l : list A) :
  (forall x, f x = g x) -> omap f l = omap g l.
Proof.
  intros H. induction l as [| x l IH]; [done |].
  cbn [omap list_omap]. by rewrite H, IH.
Qed.

Lemma calculateRelationshipLines_ext c1 c2 :
  same_geometry c1 c2 -> relationships c1 = relationships c2 ->
  calculateRelationshipLines c1 = calculateRelationshipLines c2.
Proof.
  intros H Hr. unfold calculateRelationshipLines. rewrite Hr.
  apply omap_ext_pointwise. intros rel. by apply relationshipLine_ext.
Qed.

Lemma same_geometry_set_repaints n c : same_geometry (set_repaints n c) c.
Proof. by repeat split. Qed.

Lemma same_geometry_set_relationships rels c :
  same_geometry (set_relationships rels c) c.
Proof. by repeat split. Qed.

Lemma calculateRelationshipLines_set rels c :
  calculateRelationshipLines (set_relationships rels c)
  = omap (relationshipLine c) rels.
Proof.
  unfold calculateRelationshipLines. cbn [relationships set_relationships].
  apply omap_ext_pointwise. intros rel.
  apply relationshipLine_ext, same_geometry_set_relationships.
Qed.

Lemma relationshipLines_drawChart c :
  ctx c = true -> showRelationships c = true -> relationships c <> [] ->
  relationshipLines (drawChart c) = calculateRelationshipLines c.
Proof.
  intros Hc Hs Hr. unfold drawChart, drawRelationships. rewrite Hc.
  cbn [negb orb showRelationships ctx set_repaints relationships].
  rewrite Hs, Hc. cbn [negb orb].
  case_bool_decide as Hlen.
  - destruct (relationships c); [by destruct Hr | discriminate].
  - cbn [relationshipLines set_relationshipLines].
    apply calculateRelationshipLines_ext;
      [apply same_geometry_set_repaints | reflexivity].
Qed.

(** C7 (amended). A relationship whose source or target id is not the id
    of a task of the current list is skipped when the lines are computed:
    it gives no line, the lines are those of the list without it, and
    every line comes from a relationship whose ends both resolve.  The
    hit test of the relationship handler matches the lines cached by the
    last repaint: just after a repaint with a drawing context and the
    relationships shown it can only match the line of a relationship
    whose ends both resolve.  The computation is a total function: there
    is no error. *)
Theorem C7_dangling_relationship_skipped (c : Component)
  (rel : GanttRelationship) :
  sourceId rel ∉ task_id <$> tasks c \/ targetId rel ∉ task_id <$> tasks c ->
  relationshipLine c rel = None
  /\ (forall rels1 rels2,
        relationships c = rels1 ++ rel :: rels2 ->
        calculateRelationshipLines c
        = calculateRelationshipLines (set_relationships (rels1 ++ rels2) c))
  /\ (forall line,
        line ∈ calculateRelationshipLines c ->
        exists rel', rel' ∈ relationships c /\ resolvable c rel'
                     /\ relationshipLine c rel' = Some line)
  /\ (forall event x y h,
        ctx c = true -> showRelationships c = true ->
        showTooltips c = true -> rel ∈ relationships c ->
        hoveredRelationship
          (handleRelationshipHover event x y (drawChart c)) = Some h ->
        exists rel', rel' ∈ relationships c /\ resolvable c rel'
                     /\ relationshipLine c rel' = Some h).
Proof.
  intros Hd.
  assert (Hnone : relationshipLine c rel = None).
  { apply relationshipLine_None. unfold resolvable. tauto. }
  assert (Hall : forall line,
             line ∈ calculateRelationshipLines c ->
             exists rel', rel' ∈ relationships c /\ resolvable c rel'
                          /\ relationshipLine c rel' = Some line).
  { intros line Hl. apply list_elem_of_omap in Hl as (rel' & Hin & Hl).
    exists rel'. split; [done |]. split; [| done].
    destruct (decide (sourceId rel' ∈ task_id <$> tasks c)) as [H1 | H1];
      destruct (decide (targetId rel' ∈ task_id <$> tasks c)) as [H2 | H2];
      try done;
      (assert (Hn : relationshipLine c rel' = None)
         by (apply relationshipLine_None; unfold resolvable; tauto));
      congruence. }
  split; [done |]. split; [| split; [done |]].
  - intros rels1 rels2 Hrel. rewrite calculateRelationshipLines_set.
    unfold calculateRelationshipLines. rewrite Hrel, !omap_app.
    cbn [omap list_omap]. by rewrite Hnone.
  - intros event x y h Hc Hs Ht Hin Hh.
    apply handleRelationshipHover_hovered in Hh as [Hh _].
    + rewrite relationshipLines_drawChart in Hh; try done.
      * by apply Hall.
      * intros E. rewrite E in Hin. by apply not_elem_of_nil in Hin.
    + unfold drawChart, drawRelationships. rewrite Hc. simpl.
      rewrite Hs, Hc. simpl. by destruct (bool_decide _).
    + unfold drawChart, drawRelationships. rewrite Hc. simpl.
      rewrite Hs, Hc. simpl. by destruct (bool_decide _).
Qed.

(** ** Lag *)

Lemma same_refl a : same a a.
Proof. destruct a; simpl; done. Qed.

Lemma same_Fin_r a q : same a (Fin q) -> exists p, a = Fin p /\ (p == q)%Q.
Proof. destruct a; simpl; try discriminate. intros H. by eexists. Qed.

Lemma add_same_r t a b : same a b -> same (add t a) (add t b).
Proof.
  destruct a as [| | | |p], b as [| | | |q]; simpl; try discriminate;
    intros H; try apply same_refl.
  destruct t; simpl; try done. by rewrite H.
Qed.

Lemma mul_same_Fin a b p q :
  same a (Fin p) -> same b (Fin q) -> ~ (p * q == 0)%Q ->
  same (mul a b) (Fin (p * q)).
Proof.
  intros Ha Hb Hpq.
  apply same_Fin_r in Ha as (p' & -> & Hp), Hb as (q' & -> & Hq).
  pose proof (finite_as_mul _ _ _ _ (finite_as_Fin p') (finite_as_Fin q')) as H.
  apply finite_pos_Fin in H as (m & -> & Hm).
  - simpl. by rewrite Hm, Hp, Hq.
  - by rewrite Hp, Hq.
Qed.

Lemma sub_of_Z_Fin a b : exists q, sub (of_Z a) (of_Z b) = Fin q.
Proof.
  unfold sub, of_Z. simpl. destruct (Qeq_bool (inject_Z b) 0); by eexists.
Qed.

Lemma div_Fin_of_Z q k : 0 < k -> exists r, div (Fin q) (of_Z k) = Fin r.
Proof.
  intros Hk. apply inject_Z_pos in Hk.
  assert (Hk0 : Qeq_bool (inject_Z k) 0 = false)
    by (apply Qeq_bool_false; intros E0; lra).
  assert (Hk1 : Qltb (inject_Z k) 0 = false) by (apply Qltb_ge; lra).
  simpl. rewrite Hk0, Hk1, xorb_false_r.
  destruct (Qeq_bool q 0) eqn:E; [| by eexists].
  apply Qeq_bool_iff in E.
  replace (Qltb q 0) with false by (symmetry; apply Qltb_ge; lra).
  by eexists.
Qed.

Lemma mul_Fin_pos q w : (0 < w)%Q -> exists r, mul (Fin q) (Fin w) = Fin r.
Proof.
  intros Hw.
  assert (Hw0 : Qeq_bool w 0 = false) by (apply Qeq_bool_false; intros E0; lra).
  assert (Hw1 : Qltb w 0 = false) by (apply Qltb_ge; lra).
  simpl. rewrite Hw0, Hw1, xorb_false_r, orb_false_r.
  destruct (Qeq_bool q 0) eqn:E; [| by eexists].
  apply Qeq_bool_iff in E.
  replace (Qltb q 0) with false by (symmetry; apply Qltb_ge; lra).
  by eexists.
Qed.

(** An x position is a finite number, and not a negative zero. *)
Lemma getXPositionForDate_Fin c date :
  exists q, getXPositionForDate c date = Fin q.
Proof.
  destruct (getOptimalUnitWidth_Fin c)
    as (lo & hi & w & _ & _ & Hb & Hw & Hbw & _).
  assert (Hpos : (0 < w)%Q).
  { assert (0 < inject_Z lo)%Q by (apply inject_Z_pos; lia). lra. }
  unfold getXPositionForDate. rewrite Hw.
  destruct (sub_of_Z_Fin date (startDate c)) as [x ->].
  destruct (div_Fin_of_Z x (1000 * 60 * 60 * 24)) as [y ->]; [done |].
  destruct (div_Fin_of_Z y 7) as [z ->]; [done |].
  destruct (viewMode c); by apply mul_Fin_pos.
Qed.

Lemma add_Fin_zero t l w :
  truthy l = false -> l <> NaN -> same (Fin t) (add (Fin t) (mul l (Fin w))).
Proof.
  intros Hl Hn.
  assert (Hz : exists s, mul l (Fin w) = zero s).
  { destruct l as [| | | |q]; try done.
    - eexists. simpl. reflexivity.
    - simpl in Hl. apply negb_false_iff in Hl. simpl. rewrite Hl.
      by eexists. }
  destruct Hz as [[] ->]; simpl; lra.
Qed.

(** C6. The lag of a relationship moves only the target end of its line:
    [toX] is that of the same relationship without lag plus
    [lag * getOptimalUnitWidth()], while [fromX], [fromY] and [toY] are the
    same; with a lag of 2 and a unit width of 30, [toX] is 60 pixels
    further right. *)
Theorem C6_lag_shifts_toX (c : Component) (rel : GanttRelationship)
  (l : number) (line : RelationshipLine) :
  lag rel = Some l -> l <> NaN ->
  relationshipLine c rel = Some line ->
  exists line0,
    relationshipLine c (without_lag rel) = Some line0
    /\ fromX line = fromX line0
    /\ fromY line = fromY line0
    /\ toY line = toY line0
    /\ same (toX line) (add (toX line0) (mul l (getOptimalUnitWidth c)))
    /\ (truthy l = true ->
        toX line = add (toX line0) (mul l (getOptimalUnitWidth c)))
    /\ (same l (of_Z 2) -> same (getOptimalUnitWidth c) (of_Z 30) ->
        same (toX line) (add (toX line0) (of_Z 60))).
Proof.
  intros Hl Hn. unfold relationshipLine. simpl.
  destruct (taskMap (tasks c) !! sourceId rel) as [s |]; [| done].
  destruct (taskMap (tasks c) !! targetId rel) as [t |]; [| done]. simpl.
  destruct (findIndex (task_id s) (tasks c)) as [si |]; [| done].
  destruct (findIndex (task_id t) (tasks c)) as [ti |]; [| done]. simpl.
  rewrite Hl. simpl. intros [= <-]. simpl.
  eexists. split; [reflexivity |]. simpl.
  repeat (split; [reflexivity |]).
  destruct (truthy l) eqn:Ht.
  - split; [apply same_refl |]. split; [done |].
    intros H2 H30. apply add_same_r.
    apply (mul_same_Fin _ _ (inject_Z 2) (inject_Z 30)); done.
  - split; [| split; [done |]].
    + destruct (getOptimalUnitWidth_Fin c) as (_ & _ & w & _ & _ & _ & -> & _).
      destruct (rel_type rel); simpl;
        match goal with
        | |- context [getXPositionForDate c ?d] =>
            destruct (getXPositionForDate_Fin c d) as [q ->]
        end; by apply add_Fin_zero.
    + intros H2. apply same_Fin_r in H2 as (p & -> & Hp).
      simpl in Ht. apply negb_false_iff, Qeq_bool_iff in Ht.
      rewrite Hp in Ht. discriminate.
Qed.

(** ** Dates: years and months *)

Lemma DayFromYear_mono a b : a <= b -> DayFromYear a <= DayFromYear b.
Proof.
  clear_host.
  unfold DayFromYear. intros H. Z.to_euclidean_division_equations. lia.
Qed.

Lemma DayFromYear_succ y : DayFromYear (y + 1) = DayFromYear y + DaysInYear y.
Proof.
  clear_host.
  unfold DayFromYear, DaysInYear.
  destruct (Z.eqb_spec (y mod 4) 0), (Z.eqb_spec (y mod 100) 0),
    (Z.eqb_spec (y mod 400) 0); simpl;
    Z.to_euclidean_division_equations; lia.
Qed.

(** [YearFromTime t] is the year whose days contain the day of [t]. *)
Lemma YearFromTime_spec t :
  DayFromYear (YearFromTime t) <= Day t < DayFromYear (YearFromTime t + 1).
Proof.
  clear_host.
  unfold YearFromTime. generalize (Day t). intros d.
  set (y := 1970 + d * 400 / 146097).
  assert (H1 : DayFromYear (y - 1) <= d).
  { subst y. unfold DayFromYear. Z.to_euclidean_division_equations. lia. }
  assert (H2 : d < DayFromYear (y + 2)).
  { subst y. unfold DayFromYear. Z.to_euclidean_division_equations. lia. }
  destruct (Z.ltb_spec d (DayFromYear y)).
  - replace (y - 1 + 1) with y by lia. lia.
  - destruct (Z.leb_spec (DayFromYear (y + 1)) d).
    + replace (y + 1 + 1) with (y + 2) by lia. lia.
    + lia.
Qed.

Lemma YearFromTime_unique t y :
  DayFromYear y <= Day t < DayFromYear (y + 1) -> YearFromTime t = y.
Proof.
  intros H. pose proof (YearFromTime_spec t) as H'.
  destruct (Z.lt_trichotomy (YearFromTime t) y) as [Hlt | [Heq | Hgt]];
    [| done |].
  - pose proof (DayFromYear_mono (YearFromTime t + 1) y). lia.
  - pose proof (DayFromYear_mono (y + 1) (YearFromTime t)). lia.
Qed.

Lemma Day_mono t1 t2 : t1 <= t2 -> Day t1 <= Day t2.
Proof. intros H. unfold Day, msPerDay. by apply Z.div_le_mono. Qed.

Lemma YearFromTime_mono t1 t2 :
  t1 <= t2 -> YearFromTime t1 <= YearFromTime t2.
Proof.
  intros H. apply Day_mono in H.
  pose proof (YearFromTime_spec t1). pose proof (YearFromTime_spec t2).
  destruct (Z.le_gt_cases (YearFromTime t1) (YearFromTime t2)); [done |].
  pose proof (DayFromYear_mono (YearFromTime t2 + 1) (YearFromTime t1)). lia.
Qed.

Lemma MonthFromTime_range t : 0 <= MonthFromTime t <= 11.
Proof. unfold MonthFromTime. repeat case_match; lia. Qed.

Lemma MonthFromTime_mono t1 t2 :
  t1 <= t2 -> YearFromTime t1 = YearFromTime t2 ->
  MonthFromTime t1 <= MonthFromTime t2.
Proof.
  clear_host.
  intros H Hy. apply Day_mono in H.
  unfold MonthFromTime, DayWithinYear, InLeapYear. rewrite Hy.
  generalize (if DaysInYear (YearFromTime t2) =? 366 then 1 else 0).
  generalize (DayFromYear (YearFromTime t2)). intros y0 l.
  repeat match goal with
         | |- context [?a <? ?b] => destruct (Z.ltb_spec a b)
         end; lia.
Qed.

(** Calendar months since year 0 do not decrease with time. *)
Lemma month_index_mono t1 t2 :
  t1 <= t2 ->
  YearFromTime t1 * 12 + MonthFromTime t1
  <= YearFromTime t2 * 12 + MonthFromTime t2.
Proof.
  intros H. pose proof (YearFromTime_mono _ _ H) as Hy.
  pose proof (MonthFromTime_range t1). pose proof (MonthFromTime_range t2).
  destruct (Z.eq_dec (YearFromTime t1) (YearFromTime t2)) as [E | E].
  - pose proof (MonthFromTime_mono _ _ H E). lia.
  - lia.
Qed.

(** ** The x position of a date *)

Lemma units_from_start_mono c d1 d2 :
  d1 <= d2 -> (units_from_start c d1 <= units_from_start c d2)%Q.
Proof.
  clear_canvas.
  intros H. unfold units_from_start.
  assert (Hq : (inject_Z d1 <= inject_Z d2)%Q) by (by rewrite <- Zle_Qle).
  assert (Hl : LocalTime LocalTZA d1 <= LocalTime LocalTZA d2)
    by (unfold LocalTime; lia).
  destruct (viewMode c).
  - apply Qmult_le_compat_r; [lra | done].
  - apply Qmult_le_compat_r; [| done].
    apply Qmult_le_compat_r; [lra | done].
  - rewrite <- Zle_Qle. unfold getFullYear, getMonth.
    pose proof (month_index_mono _ _ Hl). lia.
  - rewrite <- Zle_Qle. unfold getFullYear.
    pose proof (YearFromTime_mono _ _ Hl). lia.
Qed.

(** The x position of a date is the number of units from the start of
    the range times the unit width. *)
Lemma getXPositionForDate_finite c date :
  exists w, getOptimalUnitWidth c = Fin w /\ (0 < w)%Q
            /\ finite_as (getXPositionForDate c date)
                 (units_from_start c date * w).
Proof.
  destruct (getOptimalUnitWidth_Fin c)
    as (lo & hi & w & _ & _ & Hb & Hw & Hbw & _).
  exists w. split; [done |].
  assert (Hlo : (0 < inject_Z lo)%Q) by (apply inject_Z_pos; lia).
  split; [lra |].
  unfold getXPositionForDate, units_from_start. rewrite Hw.
  assert (Hd : finite_as
                 (div (sub (of_Z date) (of_Z (startDate c)))
                      (of_Z (1000 * 60 * 60 * 24)))
                 ((inject_Z date - inject_Z (startDate c)) / (86400000 # 1))).
  { apply finite_as_div;
      [apply finite_as_sub; apply finite_as_of_Z | apply finite_as_of_Z | done]. }
  destruct (viewMode c).
  - apply finite_as_mul; [done | apply finite_as_Fin].
  - apply finite_as_mul; [| apply finite_as_Fin].
    apply finite_as_div; [done | apply finite_as_of_Z | done].
  - apply finite_as_mul; [apply finite_as_of_Z | apply finite_as_Fin].
  - apply finite_as_mul; [apply finite_as_of_Z | apply finite_as_Fin].
Qed.

(** With a constant offset, [HostZone] is the date scale of this file;
    in the day and week views it is so for every offset. *)
Lemma HostZone_getTotalUnits (zone : Z -> Z) (c : Component) :
  zone = (fun _ => LocalTZA) \/ viewMode c = day \/ viewMode c = week ->
  HostZone.getTotalUnits zone c = getTotalUnits c.
Proof.
  clear_canvas. unfold HostZone.getTotalUnits, getTotalUnits.
  intros [-> | [-> | ->]]; reflexivity.
Qed.

Lemma HostZone_getOptimalUnitWidth (zone : Z -> Z) (c : Component) :
  zone = (fun _ => LocalTZA) \/ viewMode c = day \/ viewMode c = week ->
  HostZone.getOptimalUnitWidth zone c = getOptimalUnitWidth c.
Proof.
  clear_canvas. intros H.
  unfold HostZone.getOptimalUnitWidth, getOptimalUnitWidth. cbv zeta.
  by rewrite (HostZone_getTotalUnits zone c H).
Qed.

Lemma HostZone_getXPositionForDate (zone : Z -> Z) (c : Component) (date : Z) :
  zone = (fun _ => LocalTZA) \/ viewMode c = day \/ viewMode c = week ->
  HostZone.getXPositionForDate zone c date = getXPositionForDate c date.
Proof.
  clear_canvas. intros H.
  unfold HostZone.getXPositionForDate, getXPositionForDate. cbv zeta.
  rewrite (HostZone_getOptimalUnitWidth zone c H).
  destruct H as [-> | [-> | ->]]; reflexivity.
Qed.


(** ** Hit-testing a task *)

Lemma leb_NaN_r a : leb a NaN = false.
Proof. by destruct a. Qed.

Lemma ltb_PInf_l b : ltb PInf b = false.
Proof. by destruct b. Qed.

Lemma ltb_NInf_r a : ltb a NInf = false.
Proof. by destruct a. Qed.

Lemma leb_finite_NInf a : is_finite a = true -> leb a NInf = false.
Proof. by destruct a. Qed.

Lemma leb_PInf_l b : leb PInf b = true -> b = PInf.
Proof. by destruct b. Qed.

Lemma mul_of_Z_infinite n s :
  mul (of_Z n) (inf s) = if (n =? 0) then NaN else inf (xorb (n <? 0) s).
Proof.
  assert (H0 : Qeq_bool (inject_Z n) 0 = (n =? 0)).
  { apply eq_true_iff_eq. rewrite Qeq_bool_iff, Z.eqb_eq.
    unfold Qeq. simpl. lia. }
  assert (H1 : Qltb (inject_Z n) 0 = (n <? 0)).
  { apply eq_true_iff_eq. rewrite Qltb_lt, Z.ltb_lt.
    unfold Qlt. simpl. lia. }
  destruct s; simpl; rewrite H0, H1, orb_false_r; reflexivity.
Qed.

Lemma Qfloor_unique (x : Q) (n : Z) :
  (inject_Z n <= x)%Q -> (x < inject_Z n + 1)%Q -> Qfloor x = n.
Proof.
  intros H1 H2.
  pose proof (Qfloor_le x) as H3. pose proof (Qlt_floor x) as H4.
  rewrite inject_Z_plus in H4. change (inject_Z 1) with 1%Q in H4.
  assert (H5 : (inject_Z n < inject_Z (Qfloor x) + 1)%Q) by lra.
  assert (H6 : (inject_Z (Qfloor x) < inject_Z n + 1)%Q) by lra.
  change 1%Q with (inject_Z 1) in H5, H6.
  rewrite <- inject_Z_plus, <- Zlt_Qlt in H5, H6. lia.
Qed.

Lemma to_integer_finite a n :
  finite_as a (inject_Z n) -> to_integer a = Some n.
Proof.
  intros [Hf Hv]. destruct a as [| | | |x]; try discriminate; simpl in *.
  - f_equal. unfold Qeq in Hv. simpl in Hv. lia.
  - f_equal. unfold Qtrunc.
    destruct (Qle_bool 0 x); rewrite Hv; [apply Qfloor_Z | apply Qceiling_Z].
Qed.

(** A pointer within the band of row [i] forces a positive finite row
    height and a finite ordinate. *)
Lemma row_band (r y : number) (i : nat) :
  leb (add headerHeight (mul (of_Z (Z.of_nat i)) r)) y = true ->
  ltb y (add headerHeight (mul (of_Z (Z.of_nat i + 1)) r)) = true ->
  exists q v, finite_as r q /\ finite_as y v /\ (0 < q)%Q
              /\ (100 + inject_Z (Z.of_nat i) * q <= v)%Q
              /\ (v < 100 + (inject_Z (Z.of_nat i) + 1) * q)%Q.
Proof.
  intros Hlo Hhi.
  destruct (is_finite r) eqn:Hr.
  - assert (Hq : finite_as r (val r)) by (split; [done | reflexivity]).
    pose proof (finite_as_add _ _ _ _ (finite_as_of_Z 100)
                  (finite_as_mul _ _ _ _ (finite_as_of_Z (Z.of_nat i)) Hq))
      as Hl.
    pose proof (finite_as_add _ _ _ _ (finite_as_of_Z 100)
                  (finite_as_mul _ _ _ _ (finite_as_of_Z (Z.of_nat i + 1)) Hq))
      as Hu.
    fold headerHeight in Hl, Hu.
    destruct (is_finite y) eqn:Hy.
    + assert (Hv : finite_as y (val y)) by (split; [done | reflexivity]).
      rewrite (leb_finite_iff _ _ _ _ Hl Hv) in Hlo.
      rewrite (ltb_finite_iff _ _ _ _ Hv Hu) in Hhi.
      rewrite inject_Z_plus in Hhi.
      change (inject_Z 100) with (100 # 1) in Hlo, Hhi.
      change (inject_Z 1) with 1%Q in Hhi.
      exists (val r), (val y). repeat split; try done; try apply Hq; lra.
    + destruct y; try discriminate;
        try (by rewrite leb_NaN_r in Hlo);
        try (by rewrite ltb_PInf_l in Hhi);
        try (rewrite leb_finite_NInf in Hlo; [done | apply Hl]).
  - exfalso. destruct r as [| | | | q0]; try discriminate.
    + change PInf with (inf false) in Hlo, Hhi.
      rewrite mul_of_Z_infinite in Hlo, Hhi.
      destruct (Z.eqb_spec (Z.of_nat i + 1) 0); [lia |].
      destruct (Z.ltb_spec (Z.of_nat i + 1) 0); [lia |].
      destruct (Z.eqb_spec (Z.of_nat i) 0); [simpl in Hlo; discriminate |].
      destruct (Z.ltb_spec (Z.of_nat i) 0); [lia |].
      simpl in Hlo, Hhi. apply leb_PInf_l in Hlo. subst y. discriminate.
    + change NInf with (inf true) in Hhi.
      rewrite mul_of_Z_infinite in Hhi.
      destruct (Z.eqb_spec (Z.of_nat i + 1) 0); [lia |].
      destruct (Z.ltb_spec (Z.of_nat i + 1) 0); [lia |].
      simpl in Hhi. by rewrite ltb_NInf_r in Hhi.
Qed.

(** In exact arithmetic the rows of the hit test are the bands. *)
Lemma row_of_band (r y : number) (i : nat) :
  leb (add headerHeight (mul (of_Z (Z.of_nat i)) r)) y = true ->
  ltb y (add headerHeight (mul (of_Z (Z.of_nat i + 1)) r)) = true ->
  ltb y headerHeight = false
  /\ finite_as (floor (div (sub y headerHeight) r)) (inject_Z (Z.of_nat i)).
Proof.
  intros Hy1 Hy2.
  destruct (row_band _ _ _ Hy1 Hy2) as (q & v & Hq & Hv & Hpos & Hlo & Hhi).
  assert (Hi : (0 <= inject_Z (Z.of_nat i))%Q) by (apply inject_Z_nonneg; lia).
  assert (Hiq : (0 <= inject_Z (Z.of_nat i) * q)%Q)
    by (apply Qmult_le_0_compat; lra).
  assert (Hh : finite_as headerHeight (inject_Z 100)) by apply finite_as_of_Z.
  split.
  - rewrite (ltb_finite _ _ _ _ Hv Hh).
    apply Qltb_ge. change (inject_Z 100) with (100 # 1). lra.
  - eapply finite_as_same.
    + apply finite_as_floor, finite_as_div;
        [apply finite_as_sub; [exact Hv | exact Hh]
        | exact Hq | lra].
    + change (inject_Z 100) with (100 # 1).
      rewrite (Qfloor_unique _ (Z.of_nat i)); [reflexivity | |].
      * apply Qle_shift_div_l; lra.
      * apply Qlt_shift_div_r; lra.
Qed.

(** The hit test returns the task of the row it computes, when [x] is
    within the bar. *)
Lemma hit_of_row (c : Component) (i : nat) (task : GanttTask) (x y : number) :
  tasks c !! i = Some task ->
  ltb y headerHeight = false ->
  finite_as (floor (div (sub y headerHeight) (rowHeight c)))
            (inject_Z (Z.of_nat i)) ->
  leb (getXPositionForDate c (task_start task)) x = true ->
  leb x (getXPositionForDate c (task_end task)) = true ->
  getTaskAtPosition c x y = Some task.
Proof.
  intros Ht Hy Hrow Hx1 Hx2.
  unfold getTaskAtPosition. rewrite Hy.
  unfold geb.
  rewrite (leb_finite _ _ _ _ (finite_as_of_Z 0) Hrow).
  rewrite (ltb_finite _ _ _ _ Hrow (finite_as_of_Z (Z.of_nat (length (tasks c))))).
  replace (Qle_bool (inject_Z 0) (inject_Z (Z.of_nat i))) with true
    by (symmetry; apply Qle_bool_iff; apply inject_Z_nonneg; lia).
  apply lookup_lt_Some in Ht as Hlen.
  replace (Qltb (inject_Z (Z.of_nat i))
             (inject_Z (Z.of_nat (length (tasks c))))) with true
    by (symmetry; apply Qltb_lt; rewrite <- Zlt_Qlt; lia).
  simpl. rewrite (to_integer_finite _ _ Hrow). simpl.
  rewrite Nat2Z.id, Ht, Hx1, Hx2. done.
Qed.


(** ** Dates: setting the day of the month *)

Lemma DaysInYear_cases y : DaysInYear y = 365 \/ DaysInYear y = 366.
Proof. unfold DaysInYear. repeat case_match; auto. Qed.

Lemma MakeDay_of_time (t n : Z) :
  MakeDay (YearFromTime t) (MonthFromTime t) n = Day t - DateFromTime t + n.
Proof.
  clear_host.
  pose proof (MonthFromTime_range t) as Hm.
  unfold MakeDay, DateFromTime, DayWithinYear, InLeapYear.
  rewrite (Z.div_small (MonthFromTime t) 12), (Z.mod_small (MonthFromTime t) 12)
    by lia.
  rewrite Z.add_0_r. lia.
Qed.

(** [MakeDay y m 1] is the day on which month [m] of year [y] begins. *)
Lemma MakeDay_first_of_month (y m : Z) :
  0 <= m <= 11 ->
  let t := MakeDate (MakeDay y m 1) 0 in
  YearFromTime t = y /\ MonthFromTime t = m /\ DateFromTime t = 1.
Proof.
  clear_host.
  intros Hm t.
  assert (Hday : Day t = DayFromYear y
                         + monthStart m (if DaysInYear y =? 366 then 1 else 0)).
  { subst t. unfold MakeDate, MakeDay, Day.
    rewrite (Z.div_small m 12), (Z.mod_small m 12) by lia.
    rewrite Z.add_0_r, Z.add_0_r, Z.div_mul by done. lia. }
  assert (Hyear : YearFromTime t = y).
  { apply YearFromTime_unique. rewrite Hday, DayFromYear_succ.
    destruct (DaysInYear_cases y) as [E | E]; rewrite E; simpl;
      assert (Hc : m = 0 \/ m = 1 \/ m = 2 \/ m = 3 \/ m = 4 \/ m = 5 \/ m = 6
                   \/ m = 7 \/ m = 8 \/ m = 9 \/ m = 10 \/ m = 11) by lia;
      destruct_or!; subst m; simpl; lia. }
  split; [done |].
  unfold DateFromTime, MonthFromTime, InLeapYear, DayWithinYear.
  rewrite Hyear, Hday.
  assert (Hc : m = 0 \/ m = 1 \/ m = 2 \/ m = 3 \/ m = 4 \/ m = 5 \/ m = 6
               \/ m = 7 \/ m = 8 \/ m = 9 \/ m = 10 \/ m = 11) by lia.
  destruct (DaysInYear_cases y) as [E | E]; rewrite E; simpl;
    destruct_or!; subst m; simpl; rewrite !Z.add_simpl_l; split; reflexivity.
Qed.

(** [setDate] moves a date by whole days, keeping the time of day. *)
Lemma setDate_shift (t : Z) (a : number) (n : Z) :
  to_integer a = Some n ->
  setDate LocalTZA t a = TimeClip (t + (n - getDate LocalTZA t) * msPerDay).
Proof.
  clear_canvas.
  intros H. unfold setDate. rewrite H. cbv zeta. f_equal.
  rewrite MakeDay_of_time. unfold UTC, MakeDate, getDate, TimeWithinDay.
  generalize (DateFromTime (LocalTime LocalTZA t)). intros d.
  pose proof (Z.div_mod (LocalTime LocalTZA t) msPerDay) as Hdm.
  unfold Day, LocalTime in *. unfold msPerDay in *. lia.
Qed.

Lemma Qtrunc_comp (p q : Q) : (p == q)%Q -> Qtrunc p = Qtrunc q.
Proof.
  intros H. unfold Qtrunc.
  replace (Qle_bool 0 p) with (Qle_bool 0 q)
    by (apply eq_true_iff_eq; rewrite !Qle_bool_iff; by rewrite H).
  destruct (Qle_bool 0 q); [by apply Qfloor_comp | by apply Qceiling_comp].
Qed.

Lemma to_integer_finite_as a q : finite_as a q -> to_integer a = Some (Qtrunc q).
Proof.
  intros [Hf Hv]. destruct a as [| | | |x]; try discriminate; simpl in *.
  - by rewrite <- (Qtrunc_comp _ _ Hv).
  - by rewrite (Qtrunc_comp _ _ Hv).
Qed.

(** Rounding a day of the month plus or minus a twentieth of a count of
    days. *)
Lemma Qfloor_plus_twentieth (d n : Z) :
  Qfloor (inject_Z d + inject_Z n * (5 # 100)) = d + n / 20.
Proof.
  clear_host.
  replace (d + n / 20) with ((d * 20 + n) / 20)
    by (rewrite Z.div_add_l by lia; done).
  rewrite <- (Qfloor_comp ((d * 20 + n) # 20)); [done |].
  unfold Qeq. simpl. lia.
Qed.

Lemma Qtrunc_plus_twentieth (d n : Z) :
  0 <= n -> 0 <= d ->
  Qtrunc (inject_Z d + inject_Z n * (5 # 100)) = d + n / 20.
Proof.
  intros Hn Hd. unfold Qtrunc.
  replace (Qle_bool 0 (inject_Z d + inject_Z n * (5 # 100))) with true.
  - apply Qfloor_plus_twentieth.
  - symmetry. apply Qle_bool_iff.
    apply inject_Z_nonneg in Hn, Hd. lra.
Qed.

Lemma Qtrunc_minus_twentieth (d n : Z) :
  Qtrunc (inject_Z d - inject_Z n * (5 # 100)) =
  if n <=? 20 * d then d - (n + 19) / 20 else d - n / 20.
Proof.
  clear_host.
  assert (Hq : (inject_Z d - inject_Z n * (5 # 100) == (d * 20 - n) # 20)%Q).
  { unfold Qeq. simpl. lia. }
  rewrite (Qtrunc_comp _ _ Hq). unfold Qtrunc.
  assert (Hs : Qle_bool 0 ((d * 20 - n) # 20) = (n <=? 20 * d)).
  { apply eq_true_iff_eq. rewrite Qle_bool_iff, Z.leb_le.
    unfold Qle. simpl. lia. }
  rewrite Hs. unfold Qceiling. simpl.
  destruct (n <=? 20 * d); Z.to_euclidean_division_equations; lia.
Qed.

Lemma getTotalDaysOf_value (a b : Z) :
  finite_as (getTotalDaysOf a b) (inject_Z (- ((a - b) / msPerDay))).
Proof.
  eapply finite_as_same.
  - unfold getTotalDaysOf.
    apply finite_as_ceil, finite_as_div;
      [apply finite_as_sub; apply finite_as_of_Z | apply finite_as_of_Z | done].
  - unfold Qceiling.
    rewrite <- (Qfloor_comp ((a - b) # 86400000)); [done |].
    unfold Qeq. simpl. lia.
Qed.

(** ** The date range *)

Lemma Math_min_list_spec (l : list Z) (d : Z) :
  Forall (fun x => Math_min_list l d <= x) (d :: l)
  /\ Math_min_list l d ∈ d :: l.
Proof.
  induction l as [| x l [IH1 IH2]]; simpl.
  - split; [by constructor | apply list_elem_of_here].
  - apply Forall_cons in IH1 as [IHd IHl]. split.
    + constructor; [lia |]. constructor; [lia |].
      eapply Forall_impl; [exact IHl |]. simpl. lia.
    + destruct (Z.min_spec x (Math_min_list l d)) as [[_ ->] | [_ ->]].
      * apply list_elem_of_further, list_elem_of_here.
      * apply elem_of_cons in IH2 as [-> | IH2];
          [apply list_elem_of_here | by do 2 apply list_elem_of_further].
Qed.

Lemma Math_max_list_spec (l : list Z) (d : Z) :
  Forall (fun x => x <= Math_max_list l d) (d :: l)
  /\ Math_max_list l d ∈ d :: l.
Proof.
  induction l as [| x l [IH1 IH2]]; simpl.
  - split; [by constructor | apply list_elem_of_here].
  - apply Forall_cons in IH1 as [IHd IHl]. split.
    + constructor; [lia |]. constructor; [lia |].
      eapply Forall_impl; [exact IHl |]. simpl. lia.
    + destruct (Z.max_spec x (Math_max_list l d)) as [[_ ->] | [_ ->]].
      * apply elem_of_cons in IH2 as [-> | IH2];
          [apply list_elem_of_here | by do 2 apply list_elem_of_further].
      * apply list_elem_of_further, list_elem_of_here.
Qed.

Lemma DateFromTime_range t : 1 <= DateFromTime t <= 31.
Proof.
  clear_host.
  pose proof (YearFromTime_spec t) as Hy.
  rewrite DayFromYear_succ in Hy.
  unfold DateFromTime, MonthFromTime, InLeapYear, DayWithinYear.
  destruct (DaysInYear_cases (YearFromTime t)) as [E | E]; rewrite E in *;
    simpl;
    repeat match goal with
           | |- context [?a <? ?b] => destruct (Z.ltb_spec a b)
           end; simpl; lia.
Qed.

(** ** The empty task list *)

Lemma newDate_first_of_year (y : Z) :
  ~ 0 <= y <= 99 ->
  newDate LocalTZA y 0 1 = TimeFromYear y - LocalTZA.
Proof.
  clear_canvas.
  intros Hy. unfold newDate, MakeDay, MakeDate, UTC, TimeFromYear.
  replace ((0 <=? y) && (y <=? 99)) with false
    by (symmetry; apply andb_false_iff; lia).
  change (0 / 12) with 0. change (0 mod 12) with 0.
  replace (y + 0) with y by lia. cbn [monthStart]. unfold msPerDay. lia.
Qed.

Lemma TimeFromYear_first_instant (y : Z) :
  first_instant_of_year y (TimeFromYear y - LocalTZA).
Proof.
  clear_canvas.
  pose proof (DayFromYear_succ y) as H1.
  pose proof (DayFromYear_succ (y - 1)) as H2.
  replace (y - 1 + 1) with y in H2 by lia.
  pose proof (DaysInYear_cases y). pose proof (DaysInYear_cases (y - 1)).
  unfold first_instant_of_year, getFullYear, LocalTime, TimeFromYear.
  split; apply YearFromTime_unique; unfold Day, msPerDay.
  - replace (86400000 * DayFromYear y - LocalTZA + LocalTZA)
      with (DayFromYear y * 86400000) by lia.
    rewrite Z.div_mul by done. lia.
  - replace (86400000 * DayFromYear y - LocalTZA - 1 + LocalTZA)
      with (86399999 + (DayFromYear y - 1) * 86400000) by lia.
    rewrite Z.div_add by done. change (86399999 / 86400000) with 0.
    replace (y - 1 + 1) with y by lia. lia.
Qed.

(** C3 (amended). For an empty task list, with a clock that reads a year
    after 99, the range starts at the first instant of the current
    calendar year and ends at the first instant of the next one, one
    millisecond after the last instant of the current year; it contains
    the current time and depends on the clock through the year only. *)
Theorem C3_empty_list_current_year (now : Z) :
  99 < getFullYear LocalTZA now ->
  exists s e,
    initializeDateRange now [] = Some (s, e)
    /\ first_instant_of_year (getFullYear LocalTZA now) s
    /\ first_instant_of_year (getFullYear LocalTZA now + 1) e
    /\ last_instant_of_year (getFullYear LocalTZA now) (e - 1)
    /\ s <= now < e
    /\ (forall now',
          getFullYear LocalTZA now' = getFullYear LocalTZA now ->
          initializeDateRange now' [] = Some (s, e)).
Proof.
  clear_canvas.
  intros Hy. set (y := getFullYear LocalTZA now) in *.
  exists (TimeFromYear y - LocalTZA), (TimeFromYear (y + 1) - LocalTZA).
  pose proof (TimeFromYear_first_instant y) as Hs.
  pose proof (TimeFromYear_first_instant (y + 1)) as He.
  assert (Hinit : forall now',
             getFullYear LocalTZA now' = y ->
             initializeDateRange now' []
             = Some (TimeFromYear y - LocalTZA, TimeFromYear (y + 1) - LocalTZA)).
  { intros now' Hn. unfold initializeDateRange. rewrite Hn.
    by rewrite !newDate_first_of_year by lia. }
  split; [by apply Hinit |]. split; [done |]. split; [done |].
  split; [| split; [| done]].
  - destruct He as [He1 He2].
    split; [by replace (y + 1 - 1) with y in He2 by lia |].
    by replace (TimeFromYear (y + 1) - LocalTZA - 1 + 1)
      with (TimeFromYear (y + 1) - LocalTZA) by lia.
  - pose proof (YearFromTime_spec (LocalTime LocalTZA now)) as Hsp.
    fold (getFullYear LocalTZA now) in Hsp. fold y in Hsp.
    unfold TimeFromYear, Day, LocalTime, msPerDay in *.
    Z.to_euclidean_division_equations. lia.
Qed.


(** * Further properties of the component *)

(** ** Positions within the chart *)

Lemma Qceiling_div_nonneg (x : Q) (k : Z) :
  0 < k -> (x / inject_Z k <= inject_Z (Qceiling (inject_Z (Qceiling x) / inject_Z k)))%Q.
Proof.
  clear_host. intros Hk. apply inject_Z_pos in Hk.
  eapply Qle_trans; [| apply Qle_ceiling].
  apply Qmult_le_compat_r; [apply Qle_ceiling |].
  apply Qlt_le_weak, Qinv_lt_0_compat, Hk.
Qed.

(** The count of units of the range is a finite number that is not below
    the units from the start of the range to its end. *)
Lemma getTotalUnits_covers_range (c : Component) :
  exists u, finite_as (getTotalUnits c) u
            /\ (units_from_start c (endDate c) <= u)%Q.
Proof.
  clear_canvas.
  assert (Hd : finite_as (getTotalDays c)
                 (inject_Z (Qceiling ((inject_Z (endDate c)
                                       - inject_Z (startDate c))
                                      / (86400000 # 1))))).
  { unfold getTotalDays, getTotalDaysOf.
    apply finite_as_ceil, finite_as_div;
      [apply finite_as_sub; apply finite_as_of_Z | apply finite_as_of_Z | done]. }
  unfold getTotalUnits, units_from_start. destruct (viewMode c).
  - eexists. split; [exact Hd | apply Qle_ceiling].
  - eexists. split.
    + apply finite_as_ceil, finite_as_div;
        [exact Hd | apply finite_as_of_Z | done].
    + apply (Qceiling_div_nonneg _ 7). lia.
  - eexists. split; [apply finite_as_of_Z |]. rewrite <- Zle_Qle. lia.
  - eexists. split; [apply finite_as_of_Z |]. rewrite <- Zle_Qle. lia.
Qed.

Lemma units_from_start_origin (c : Component) :
  (units_from_start c (startDate c) == 0)%Q.
Proof.
  clear_canvas. unfold units_from_start.
  assert (E : (inject_Z (startDate c) - inject_Z (startDate c) == 0)%Q) by lra.
  destruct (viewMode c).
  - by rewrite E.
  - by rewrite E.
  - by rewrite !Z.sub_diag.
  - by rewrite Z.sub_diag.
Qed.

Lemma dates_within_chart (c : Component) (d : Z) :
  startDate c <= d <= endDate c ->
  same (getXPositionForDate c (startDate c)) (of_Z 0)
  /\ leb (of_Z 0) (getXPositionForDate c d) = true
  /\ leb (getXPositionForDate c d)
         (mul (getTotalUnits c) (getOptimalUnitWidth c)) = true.
Proof.
  clear_canvas. intros [Hs He].
  destruct (getXPositionForDate_finite c d) as (w & Hw & Hpos & Hd).
  destruct (getXPositionForDate_finite c (startDate c)) as (w0 & Hw0 & _ & H0).
  assert (w0 = w) by congruence. subst w0.
  destruct (getTotalUnits_covers_range c) as (u & Hu & Hcov).
  pose proof (units_from_start_mono c _ _ Hs) as H1.
  pose proof (units_from_start_mono c _ _ He) as H2.
  pose proof (units_from_start_origin c) as Ho.
  split; [| split].
  - destruct (getXPositionForDate_Fin c (startDate c)) as [q Hq].
    rewrite Hq in *. destruct H0 as [_ H0]. simpl in *.
    rewrite H0, Ho. change (inject_Z 0) with 0%Q. lra.
  - rewrite (leb_finite_iff _ _ _ _ (finite_as_of_Z 0) Hd).
    change (inject_Z 0) with 0%Q. apply Qmult_le_0_compat; lra.
  - rewrite Hw.
    rewrite (leb_finite_iff _ _ _ _ Hd
               (finite_as_mul _ _ _ _ Hu (finite_as_Fin w))).
    apply Qmult_le_compat_r; lra.
Qed.


(** ** The unit width, clamped or not *)

Lemma clamp_cases (lo hi : Z) (x : number) :
  0 < lo <= hi -> x <> NaN ->
  let r := JsNum.max (of_Z lo) (JsNum.min (of_Z hi) x) in
  (ltb x (of_Z lo) = true -> same r (of_Z lo))
  /\ (ltb (of_Z hi) x = true -> same r (of_Z hi))
  /\ (leb (of_Z lo) x = true -> leb x (of_Z hi) = true -> same r x).
Proof.
  clear_host. intros Hb Hx r.
  destruct (clamp_bounds lo hi x Hb Hx) as (w & Hw & Hbw & Hp & Hn).
  fold r in Hw. rewrite Hw.
  assert (Hlo : (0 < inject_Z lo)%Q) by (apply inject_Z_pos; lia).
  destruct (is_finite x) eqn:Hf.
  - assert (Hv : finite_as x (val x)) by (split; [done | reflexivity]).
    pose proof (max_finite _ _ _ _ (finite_as_of_Z lo)
                  (min_finite _ _ _ _ (finite_as_of_Z hi) Hv)) as Hr.
    fold r in Hr. rewrite Hw in Hr. destruct Hr as [_ Hr]. simpl in Hr.
    rewrite (ltb_finite_iff _ _ _ _ Hv (finite_as_of_Z lo)).
    rewrite (ltb_finite_iff _ _ _ _ (finite_as_of_Z hi) Hv).
    rewrite (leb_finite_iff _ _ _ _ (finite_as_of_Z lo) Hv).
    rewrite (leb_finite_iff _ _ _ _ Hv (finite_as_of_Z hi)).
    destruct (Qltb (inject_Z hi) (val x)) eqn:E1;
      [apply Qltb_lt in E1 | apply Qltb_ge in E1];
      destruct (Qltb (inject_Z lo) _) eqn:E2;
      try apply Qltb_lt in E2; try apply Qltb_ge in E2; simpl.
    all: split; [intros ?; lra |]; split; [intros ?; lra |]; intros ? ?.
    all: destruct (finite_pos_Fin x (val x) Hv) as (v & -> & Hv'); [lra |];
      simpl in *; lra.
  - destruct x; try done; simpl.
    + split; [discriminate |]. split; [intros _; by apply Hp | discriminate].
    + split; [intros _; by apply Hn |]. split; discriminate.
Qed.

(** ** The range computed from the tasks *)

Lemma TimeClip_Some (t r : Z) : TimeClip t = Some r -> r = t.
Proof.
  clear_host. unfold TimeClip. destruct (_ <=? _); [| discriminate].
  by intros [= <-].
Qed.

Lemma initializeDateRange_cons (now : Z) (t : GanttTask) (ts : list GanttTask)
  (s e : Z) :
  Math_min_list (task_start <$> ts) (task_start t)
  <= Math_max_list (task_end <$> ts) (task_end t) ->
  initializeDateRange now (t :: ts) = Some (s, e) ->
  exists before after,
    0 <= before /\ 0 <= after
    /\ s = Math_min_list (task_start <$> ts) (task_start t)
           - before * msPerDay
    /\ e = Math_max_list (task_end <$> ts) (task_end t)
           + after * msPerDay.
Proof.
  clear_canvas.
  set (s0 := Math_min_list (task_start <$> ts) (task_start t)).
  set (e0 := Math_max_list (task_end <$> ts) (task_end t)).
  intros Hse Hinit.
  set (totalDays := - ((s0 - e0) / msPerDay)).
  set (before := if totalDays <=? 20 * getDate LocalTZA s0
                 then (totalDays + 19) / 20 else totalDays / 20).
  set (after := totalDays / 20).
  assert (Hn : 0 <= totalDays).
  { subst totalDays. unfold msPerDay. Z.to_euclidean_division_equations. lia. }
  assert (Hb : 0 <= before).
  { subst before. destruct (_ <=? _); Z.to_euclidean_division_equations; lia. }
  assert (Ha : 0 <= after).
  { subst after. Z.to_euclidean_division_equations. lia. }
  exists before, after. split; [done |]. split; [done |].
  pose proof (getTotalDaysOf_value s0 e0) as Htd. fold totalDays in Htd.
  pose proof (finite_as_mul _ _ _ _ Htd (finite_as_Fin (5 # 100))) as Hpad.
  pose proof (DateFromTime_range (LocalTime LocalTZA e0)) as Hde.
  fold (getDate LocalTZA e0) in Hde.
  unfold initializeDateRange in Hinit. fold s0 e0 in Hinit.
  cbv zeta in Hinit.
  rewrite (setDate_shift s0 _ (getDate LocalTZA s0 - before)) in Hinit.
  2: { rewrite (to_integer_finite_as _ _
                  (finite_as_sub _ _ _ _ (finite_as_of_Z _) Hpad)).
       f_equal. rewrite Qtrunc_minus_twentieth. subst before.
       by destruct (_ <=? _). }
  rewrite (setDate_shift e0 _ (getDate LocalTZA e0 + after)) in Hinit.
  2: { rewrite (to_integer_finite_as _ _
                  (finite_as_add _ _ _ _ (finite_as_of_Z _) Hpad)).
       f_equal. apply Qtrunc_plus_twentieth; lia. }
  destruct (TimeClip (s0 + _)) as [s1 |] eqn:Es; [| discriminate].
  destruct (TimeClip (e0 + _)) as [e1 |] eqn:Ee; [| discriminate].
  cbn in Hinit. injection Hinit as <- <-.
  apply TimeClip_Some in Es, Ee. lia.
Qed.

Lemma well_formed_extremes (t : GanttTask) (ts : list GanttTask) :
  Forall (fun u => task_start u <= task_end u) (t :: ts) ->
  let s0 := Math_min_list (task_start <$> ts) (task_start t) in
  let e0 := Math_max_list (task_end <$> ts) (task_end t) in
  s0 <= e0
  /\ Forall (fun u => s0 <= task_start u /\ task_end u <= e0) (t :: ts).
Proof.
  clear_host. intros Hwf s0 e0.
  destruct (Math_min_list_spec (task_start <$> ts) (task_start t)) as [Hmin1 Hmin2].
  destruct (Math_max_list_spec (task_end <$> ts) (task_end t)) as [Hmax1 _].
  fold s0 in Hmin1, Hmin2. fold e0 in Hmax1.
  change (task_start t :: (task_start <$> ts))
    with (task_start <$> t :: ts) in Hmin1, Hmin2.
  change (task_end t :: (task_end <$> ts))
    with (task_end <$> t :: ts) in Hmax1.
  rewrite Forall_fmap in Hmin1, Hmax1.
  assert (Hall : Forall (fun u => s0 <= task_start u /\ task_end u <= e0)
                   (t :: ts)).
  { rewrite Forall_forall in *. intros u Hu.
    split; [by apply Hmin1 | by apply Hmax1]. }
  split; [| done].
  apply list_elem_of_fmap in Hmin2 as (u & -> & Hu).
  rewrite Forall_forall in Hwf, Hall.
  specialize (Hwf u Hu). destruct (Hall u Hu) as [_ He]. lia.
Qed.


(** X4. In a time zone of constant offset, when the padded range of
    tasks that start no later than they end is a range of valid dates,
    its ends are whole days away from the least start and the greatest
    end, it counts as many days as the span of the tasks plus the days
    added before and after it, and its start is not after its end. *)
Theorem X4_padded_day_count (now : Z) (t : GanttTask) (ts : list GanttTask)
  (s e : Z) :
  Forall (fun u => task_start u <= task_end u) (t :: ts) ->
  initializeDateRange now (t :: ts) = Some (s, e) ->
  let s0 := Math_min_list (task_start <$> ts) (task_start t) in
  let e0 := Math_max_list (task_end <$> ts) (task_end t) in
  let totalDays := - ((s0 - e0) / msPerDay) in
  s <= e
  /\ (s0 - s) mod msPerDay = 0
  /\ (e - e0) mod msPerDay = 0
  /\ finite_as (getTotalDaysOf s e)
       (inject_Z (totalDays + (s0 - s) / msPerDay + (e - e0) / msPerDay)).
Proof.
  clear_canvas. intros Hwf Hinit s0 e0 totalDays.
  destruct (well_formed_extremes t ts Hwf) as [Hse _].
  destruct (initializeDateRange_cons now t ts _ _ Hse Hinit)
    as (before & after & Hb & Ha & -> & ->).
  fold s0 e0 in Hse |- *.
  replace (s0 - (s0 - before * msPerDay)) with (before * msPerDay) by lia.
  replace (e0 + after * msPerDay - e0) with (after * msPerDay) by lia.
  rewrite !Z.mod_mul, !Z.div_mul by done.
  split; [unfold msPerDay; lia |]. split; [done |]. split; [done |].
  eapply finite_as_same; [apply getTotalDaysOf_value |].
  replace (s0 - before * msPerDay - (e0 + after * msPerDay))
    with (s0 - e0 + (- before - after) * msPerDay) by lia.
  rewrite Z.div_add by done. subst totalDays.
  replace (- ((s0 - e0) / msPerDay + (- before - after)))
    with (- ((s0 - e0) / msPerDay) + before + after) by lia.
  reflexivity.
Qed.

(** ** Hit-testing a task: what a hit implies *)

Lemma leb_negb_ltb (a b : number) :
  a <> NaN -> b <> NaN -> leb a b = negb (ltb b a).
Proof. clear_host. by destruct a, b. Qed.

(** X5. A hit of the task hit test is a task of some row [i], at or below
    the header, with [x] between the x positions of the start and of the
    end of the task; when the row height and [y] are whole numbers, [y]
    is in the band of row [i], which ends at least 50 pixels above the
    bottom of a canvas of height [calculateCanvasHeight()].  The bar
    height plays no part. *)
Theorem X5_hit_is_in_row_band (c : Component) (x y : number)
  (task : GanttTask) :
  getTaskAtPosition c x y = Some task ->
  exists i : nat,
    tasks c !! i = Some task
    /\ leb headerHeight y = true
    /\ leb (getXPositionForDate c (task_start task)) x = true
    /\ leb x (getXPositionForDate c (task_end task)) = true
    /\ (forall rz yv : Z,
        rowHeight c = of_Z rz -> y = of_Z yv -> 0 < rz ->
        safe_integer rz -> safe_integer yv ->
        leb (add headerHeight (mul (of_Z (Z.of_nat i)) (rowHeight c))) y = true
        /\ ltb y (add headerHeight (mul (of_Z (Z.of_nat i + 1)) (rowHeight c)))
           = true
        /\ leb (add y (of_Z 50)) (calculateCanvasHeight c) = true).
Proof.
  clear_canvas. unfold getTaskAtPosition.
  destruct (ltb y headerHeight) eqn:Hy; [done |].
  destruct (geb _ _ && ltb _ _) eqn:Hrow; [| done].
  apply andb_true_iff in Hrow as [Hge Hlt].
  destruct (to_integer _) as [k |] eqn:Hk; [| done]. cbn [mbind option_bind].
  destruct (tasks c !! Z.to_nat k) as [task' |] eqn:Ht; [| done].
  destruct (geb x _ && leb x _) eqn:Hx; [| done].
  intros [= ->]. apply andb_true_iff in Hx as [Hx1 Hx2].
  assert (Hnan : y <> NaN).
  { intros ->. unfold geb in Hge. simpl in Hge. discriminate. }
  exists (Z.to_nat k). split; [done |].
  split; [rewrite leb_negb_ltb, Hy; done |].
  split; [exact Hx1 |]. split; [exact Hx2 |].
  intros rz yv Hrz _ Hrz0 _ _.
  assert (Hr : finite_as (rowHeight c) (inject_Z rz))
    by (rewrite Hrz; apply finite_as_of_Z).
  assert (Hpos : (0 < inject_Z rz)%Q) by (by apply inject_Z_pos).
  clear Hrz Hrz0. generalize dependent (inject_Z rz). intros r Hr Hpos.
  assert (Hh : finite_as headerHeight (inject_Z 100)) by apply finite_as_of_Z.
  assert (Hr0 : ~ (r == 0)%Q) by lra.
  destruct (is_finite y) eqn:Hfy.
  2: { exfalso. destruct y; try done.
       destruct Hr as [Hf Hv].
       destruct (rowHeight c) as [| | | | q]; try discriminate.
       simpl in Hv. unfold sub in Hlt. simpl in Hlt.
       replace (Qltb q 0) with false in Hlt
         by (symmetry; apply Qltb_ge; lra).
       simpl in Hlt. discriminate. }
  assert (Hv : finite_as y (val y)) by (split; [done | reflexivity]).
  set (v := val y) in *.
  pose proof (finite_as_floor _ _
                (finite_as_div _ _ _ _ (finite_as_sub _ _ _ _ Hv Hh) Hr Hr0))
    as Hfl.
  set (n := Qfloor ((v - inject_Z 100) / r)) in *.
  rewrite (to_integer_finite_as _ _ Hfl) in Hk. injection Hk as Hk.
  assert (Hkn : k = n).
  { rewrite <- Hk. unfold Qtrunc.
    destruct (Qle_bool 0 (inject_Z n)); [apply Qfloor_Z | apply Qceiling_Z]. }
  unfold geb in Hge.
  rewrite (leb_finite_iff _ _ _ _ (finite_as_of_Z 0) Hfl) in Hge.
  rewrite (ltb_finite_iff _ _ _ _ Hfl (finite_as_of_Z _)) in Hlt.
  rewrite <- Zle_Qle in Hge. rewrite <- Zlt_Qlt in Hlt.
  assert (Hi : Z.of_nat (Z.to_nat k) = n) by lia. rewrite Hi.
  pose proof (Qfloor_le ((v - inject_Z 100) / r)) as Hf1.
  pose proof (Qlt_floor ((v - inject_Z 100) / r)) as Hf2.
  fold n in Hf1, Hf2. rewrite inject_Z_plus in Hf2.
  change (inject_Z 1) with 1%Q in Hf2.
  change (inject_Z 100) with (100 # 1) in Hf1, Hf2.
  assert (Hq1 : (inject_Z n * r <= v - (100 # 1))%Q).
  { apply (Qmult_le_r _ _ (/ r)); [by apply Qinv_lt_0_compat |].
    rewrite <- Qmult_assoc, Qmult_inv_r, Qmult_1_r by done. exact Hf1. }
  assert (Hq2 : (v - (100 # 1) < (inject_Z n + 1) * r)%Q).
  { apply (Qmult_lt_r _ _ (/ r)); [by apply Qinv_lt_0_compat |].
    rewrite <- (Qmult_assoc (inject_Z n + 1)), Qmult_inv_r, Qmult_1_r by done.
    exact Hf2. }
  pose proof (finite_as_add _ _ _ _ Hh
                (finite_as_mul _ _ _ _ (finite_as_of_Z n) Hr)) as Hlo.
  pose proof (finite_as_add _ _ _ _ Hh
                (finite_as_mul _ _ _ _ (finite_as_of_Z (n + 1)) Hr)) as Hhi.
  pose proof (finite_as_add _ _ _ _
                (finite_as_add _ _ _ _ Hh
                   (finite_as_mul _ _ _ _
                      (finite_as_of_Z (Z.of_nat (length (tasks c)))) Hr))
                (finite_as_of_Z 50)) as Hht.
  fold (calculateCanvasHeight c) in Hht.
  rewrite (leb_finite_iff _ _ _ _ Hlo Hv).
  rewrite (ltb_finite_iff _ _ _ _ Hv Hhi).
  rewrite (leb_finite_iff _ _ _ _
             (finite_as_add _ _ _ _ Hv (finite_as_of_Z 50)) Hht).
  rewrite inject_Z_plus.
  change (inject_Z 1) with 1%Q. change (inject_Z 100) with (100 # 1).
  change (inject_Z 50) with (50 # 1).
  split; [lra |]. split; [lra |].
  assert (Hlen : (inject_Z n + 1 <= inject_Z (Z.of_nat (length (tasks c))))%Q).
  { change 1%Q with (inject_Z 1). rewrite <- inject_Z_plus, <- Zle_Qle. lia. }
  assert (Hm : ((inject_Z n + 1) * r
                <= inject_Z (Z.of_nat (length (tasks c))) * r)%Q)
    by (apply Qmult_le_compat_r; lra).
  lra.
Qed.

(** ** The progress overlay *)


(** ** What the pointer handlers leave alone *)

Lemma same_layout_refl c : same_layout c c.
Proof. by repeat split. Qed.

Lemma same_layout_trans c1 c2 c3 :
  same_layout c1 c2 -> same_layout c2 c3 -> same_layout c1 c3.
Proof.
  unfold same_layout. intros H1 H2.
  repeat match goal with H : _ /\ _ |- _ => destruct H as [? H] end.
  repeat split; congruence.
Qed.

Lemma same_layout_set_repaints n c : same_layout (set_repaints n c) c.
Proof. by repeat split. Qed.

Lemma same_layout_set_relationshipLines v c :
  same_layout (set_relationshipLines v c) c.
Proof. by repeat split. Qed.

Lemma same_layout_set_hoveredRelationship v c :
  same_layout (set_hoveredRelationship v c) c.
Proof. by repeat split. Qed.

Lemma same_layout_set_relationshipTooltip v c :
  same_layout (set_relationshipTooltip v c) c.
Proof. by repeat split. Qed.

Lemma same_layout_set_tooltip v c : same_layout (set_tooltip v c) c.
Proof. by repeat split. Qed.

Lemma same_layout_set_hoveredTask v c : same_layout (set_hoveredTask v c) c.
Proof. by repeat split. Qed.

Lemma same_layout_assign_cursor v c : same_layout (assign_cursor v c) c.
Proof.
  unfold assign_cursor. destruct (canvasRef c) as [cv |] eqn:E;
    [| apply same_layout_refl].
  unfold same_layout. cbn. rewrite E. by repeat split.
Qed.

Lemma same_layout_drawChart c : same_layout (drawChart c) c.
Proof.
  unfold drawChart, drawRelationships.
  destruct (ctx c) eqn:E; cbn [negb]; [| apply same_layout_refl].
  cbn [showRelationships ctx set_repaints relationships].
  destruct (showRelationships c); [| apply same_layout_set_repaints].
  rewrite E. cbn [negb orb].
  case_bool_decide; [apply same_layout_set_repaints |].
  eapply same_layout_trans;
    [apply same_layout_set_relationshipLines | apply same_layout_set_repaints].
Qed.

Lemma same_layout_hideTooltip c : same_layout (hideTooltip c) c.
Proof.
  unfold hideTooltip.
  destruct (tooltip c); [apply same_layout_set_tooltip | apply same_layout_refl].
Qed.

Lemma same_layout_hideRelationshipTooltip c :
  same_layout (hideRelationshipTooltip c) c.
Proof.
  unfold hideRelationshipTooltip. destruct (relationshipTooltip c);
    [apply same_layout_set_relationshipTooltip | apply same_layout_refl].
Qed.

Lemma same_layout_showRelationshipTooltip event h c :
  same_layout (showRelationshipTooltip event h c) c.
Proof.
  unfold showRelationshipTooltip.
  assert (H : same_layout (createRelationshipTooltipElement c) c).
  { unfold createRelationshipTooltipElement. destruct (relationshipTooltip c);
      [apply same_layout_refl | apply same_layout_set_relationshipTooltip]. }
  cbv zeta. destruct (relationshipTooltip (createRelationshipTooltipElement c));
    [| exact H].
  eapply same_layout_trans; [apply same_layout_set_relationshipTooltip | exact H].
Qed.

Lemma same_layout_positionTooltip event c :
  same_layout (positionTooltip event c) c.
Proof.
  unfold positionTooltip.
  destruct (tooltip c); [apply same_layout_set_tooltip | apply same_layout_refl].
Qed.

Lemma same_layout_createTooltipElement c :
  same_layout (createTooltipElement c) c.
Proof.
  unfold createTooltipElement.
  destruct (tooltip c); [apply same_layout_refl | apply same_layout_set_tooltip].
Qed.

Lemma same_layout_showTooltip event task c :
  same_layout (showTooltip event task c) c.
Proof.
  unfold showTooltip. destruct (_ || _); [apply same_layout_refl |].
  cbv zeta.
  assert (H : same_layout (createTooltipElement (set_hoveredTask (Some task) c)) c).
  { eapply same_layout_trans;
      [apply same_layout_createTooltipElement | apply same_layout_set_hoveredTask]. }
  destruct (tooltip (createTooltipElement (set_hoveredTask (Some task) c)));
    [| exact H].
  eapply same_layout_trans; [apply same_layout_positionTooltip |].
  eapply same_layout_trans; [apply same_layout_set_tooltip | exact H].
Qed.

Lemma same_layout_handleRelationshipHover event x y c :
  same_layout (handleRelationshipHover event x y c) c.
Proof.
  unfold handleRelationshipHover.
  destruct (_ || _); [apply same_layout_refl |]. cbv zeta.
  destruct (List.find _ _) as [h |].
  - eapply same_layout_trans; [apply same_layout_assign_cursor |].
    eapply same_layout_trans; [apply same_layout_showRelationshipTooltip |].
    eapply same_layout_trans; [apply same_layout_drawChart |].
    apply same_layout_set_hoveredRelationship.
  - eapply same_layout_trans; [apply same_layout_hideRelationshipTooltip |].
    destruct (hoveredRelationship c); [| apply same_layout_refl].
    eapply same_layout_trans; [apply same_layout_drawChart |].
    apply same_layout_set_hoveredRelationship.
Qed.

Lemma same_layout_handleTaskHover event x y c :
  same_layout (handleTaskHover event x y c) c.
Proof.
  unfold handleTaskHover. destruct (negb _); [apply same_layout_refl |].
  destruct (getTaskAtPosition c x y).
  - eapply same_layout_trans;
      [apply same_layout_assign_cursor | apply same_layout_showTooltip].
  - eapply same_layout_trans;
      [apply same_layout_assign_cursor | apply same_layout_hideTooltip].
Qed.

Lemma same_layout_onMouseMove event c : same_layout (onMouseMove event c) c.
Proof.
  unfold onMouseMove. destruct (canvasRef c); [| apply same_layout_refl].
  cbv zeta.
  eapply same_layout_trans;
    [apply same_layout_handleTaskHover | apply same_layout_handleRelationshipHover].
Qed.

Lemma same_layout_onMouseLeave c : same_layout (onMouseLeave c) c.
Proof.
  unfold onMouseLeave. cbv zeta.
  assert (H : same_layout (hideRelationshipTooltip (hideTooltip c)) c).
  { eapply same_layout_trans;
      [apply same_layout_hideRelationshipTooltip | apply same_layout_hideTooltip]. }
  destruct (canvasRef (hideRelationshipTooltip (hideTooltip c))); [| exact H].
  eapply same_layout_trans; [apply same_layout_assign_cursor | exact H].
Qed.

(** X7. No sequence of pointer moves and leaves changes the inputs of the
    component (tasks, relationships, view mode, theme, row and bar height,
    the two switches), its date range, its drawing context or the width
    and place of its canvas. *)
Theorem X7_pointer_events_keep_layout (evs : list PointerEvent)
  (c : Component) :
  same_layout (run evs c) c.
Proof.
  revert c. induction evs as [| ev evs IH]; intros c.
  - apply same_layout_refl.
  - unfold run. cbn [foldl]. eapply same_layout_trans; [apply IH |].
    destruct ev; [apply same_layout_onMouseMove | apply same_layout_onMouseLeave].
Qed.

(** Positions and hits depend on the component through its layout only. *)
Lemma getTotalUnits_layout c1 c2 :
  same_layout c1 c2 -> getTotalUnits c1 = getTotalUnits c2.
Proof.
  clear_canvas. intros (_ & _ & Hv & _ & _ & _ & _ & _ & _ & Hs & He & _).
  unfold getTotalUnits, getTotalDays. by rewrite Hv, Hs, He.
Qed.

Lemma calculateCanvasWidth_layout c1 c2 :
  same_layout c1 c2 -> calculateCanvasWidth c1 = calculateCanvasWidth c2.
Proof.
  clear_host. intros (_ & _ & _ & _ & _ & _ & _ & _ & _ & _ & _ & Hw & _).
  unfold calculateCanvasWidth.
  destruct (canvasRef c1), (canvasRef c2); try discriminate; [| done].
  injection Hw as ->. reflexivity.
Qed.

Lemma getOptimalUnitWidth_layout c1 c2 :
  same_layout c1 c2 -> getOptimalUnitWidth c1 = getOptimalUnitWidth c2.
Proof.
  clear_canvas. intros H. unfold getOptimalUnitWidth.
  rewrite (getTotalUnits_layout _ _ H), (calculateCanvasWidth_layout _ _ H).
  destruct H as (_ & _ & -> & _). reflexivity.
Qed.

Lemma getXPositionForDate_layout c1 c2 date :
  same_layout c1 c2 ->
  getXPositionForDate c1 date = getXPositionForDate c2 date.
Proof.
  clear_canvas. intros H. pose proof (getOptimalUnitWidth_layout _ _ H) as Hw.
  destruct H as (_ & _ & Hv & _ & _ & _ & _ & _ & _ & Hs & _).
  unfold getXPositionForDate. by rewrite Hv, Hs, Hw.
Qed.

Lemma getTaskAtPosition_layout c1 c2 x y :
  same_layout c1 c2 -> getTaskAtPosition c1 x y = getTaskAtPosition c2 x y.
Proof.
  clear_canvas. intros H.
  pose proof (fun d => getXPositionForDate_layout _ _ d H) as Hx.
  destruct H as (Ht & _ & _ & _ & Hr & _).
  unfold getTaskAtPosition. rewrite Ht, Hr.
  destruct (ltb y headerHeight); [done |].
  destruct (_ && _); [| done].
  destruct (_ ≫= _) as [task |]; [| done].
  by rewrite !Hx.
Qed.

Lemma is_Some_canvasRef_layout c1 c2 :
  same_layout c1 c2 -> is_Some (canvasRef c2) -> is_Some (canvasRef c1).
Proof.
  clear_host. intros (_ & _ & _ & _ & _ & _ & _ & _ & _ & _ & _ & Hw & _).
  intros [cv Hc]. destruct (canvasRef c1); [by eexists |].
  rewrite Hc in Hw. discriminate.
Qed.

Lemma cursor_assign_cursor v c :
  is_Some (canvasRef c) -> cursor <$> canvasRef (assign_cursor v c) = Some v.
Proof.
  clear_host. intros [cv H]. unfold assign_cursor. by rewrite H.
Qed.

Lemma canvasRef_showTooltip event task c :
  canvasRef (showTooltip event task c) = canvasRef c.
Proof.
  clear_host. unfold showTooltip, createTooltipElement, positionTooltip.
  destruct c; cbn. repeat case_match; simplify_eq /=; reflexivity.
Qed.

Lemma canvasRef_hideTooltip c : canvasRef (hideTooltip c) = canvasRef c.
Proof. clear_host. unfold hideTooltip. by destruct (tooltip c). Qed.

(** X8. With tooltips on and a canvas, the cursor after a pointer move is
    "pointer" when a task is under the pointer and "default" when none
    is, whether a relationship line is under the pointer or not. *)
Theorem X8_cursor_follows_tasks_only (event : MouseEvent) (c : Component)
  (cv : Canvas) :
  showTooltips c = true -> canvasRef c = Some cv ->
  let p := getMousePosition event cv in
  cursor <$> canvasRef (onMouseMove event c)
  = Some (match getTaskAtPosition c p.1 p.2 with
          | Some _ => "pointer"
          | None => "default"
          end).
Proof.
  intros Ht Hc p. unfold onMouseMove. rewrite Hc. cbv zeta. fold p.
  set (c' := handleRelationshipHover event p.1 p.2 c).
  assert (Hl : same_layout c' c) by apply same_layout_handleRelationshipHover.
  assert (Hs : is_Some (canvasRef c'))
    by (apply (is_Some_canvasRef_layout _ _ Hl); rewrite Hc; by eexists).
  unfold handleTaskHover.
  replace (showTooltips c') with true by (symmetry; rewrite <- Ht; apply Hl).
  cbn [negb]. rewrite (getTaskAtPosition_layout _ _ _ _ Hl).
  destruct (getTaskAtPosition c p.1 p.2) as [task |].
  - apply cursor_assign_cursor. by rewrite canvasRef_showTooltip.
  - apply cursor_assign_cursor. by rewrite canvasRef_hideTooltip.
Qed.

(** ** The two hover channels *)

Lemma same_relationship_channel_refl c : same_relationship_channel c c.
Proof. by repeat split. Qed.

Lemma same_relationship_channel_trans c1 c2 c3 :
  same_relationship_channel c1 c2 -> same_relationship_channel c2 c3 ->
  same_relationship_channel c1 c3.
Proof.
  intros (? & ? & ? & ?) (? & ? & ? & ?). repeat split; congruence.
Qed.

Lemma same_task_channel_refl c : same_task_channel c c.
Proof. by repeat split. Qed.

Lemma same_task_channel_trans c1 c2 c3 :
  same_task_channel c1 c2 -> same_task_channel c2 c3 -> same_task_channel c1 c3.
Proof. intros (? & ?) (? & ?). split; congruence. Qed.

Lemma relationship_channel_assign_cursor v c :
  same_relationship_channel (assign_cursor v c) c.
Proof.
  unfold assign_cursor.
  destruct (canvasRef c); by repeat split.
Qed.

Lemma task_channel_assign_cursor v c : same_task_channel (assign_cursor v c) c.
Proof.
  unfold assign_cursor.
  destruct (canvasRef c); by repeat split.
Qed.

Lemma relationship_channel_hideTooltip c :
  same_relationship_channel (hideTooltip c) c.
Proof. unfold hideTooltip. destruct (tooltip c); by repeat split. Qed.

Lemma relationship_channel_showTooltip event task c :
  same_relationship_channel (showTooltip event task c) c.
Proof.
  unfold showTooltip. destruct (_ || _); [apply same_relationship_channel_refl |].
  cbv zeta.
  assert (Hc : forall c', same_relationship_channel (createTooltipElement c') c').
  { intros c'. unfold createTooltipElement. destruct (tooltip c'); by repeat split. }
  assert (Hp : forall c', same_relationship_channel (positionTooltip event c') c').
  { intros c'. unfold positionTooltip. destruct (tooltip c'); by repeat split. }
  assert (H : same_relationship_channel
                (createTooltipElement (set_hoveredTask (Some task) c)) c).
  { eapply same_relationship_channel_trans; [apply Hc | by repeat split]. }
  destruct (tooltip (createTooltipElement (set_hoveredTask (Some task) c)));
    [| exact H].
  eapply same_relationship_channel_trans; [apply Hp |].
  eapply same_relationship_channel_trans; [| exact H]. by repeat split.
Qed.

Lemma task_channel_drawChart c : same_task_channel (drawChart c) c.
Proof.
  unfold drawChart, drawRelationships.
  destruct (ctx c) eqn:E; cbn [negb]; [| apply same_task_channel_refl].
  cbn [showRelationships ctx set_repaints relationships].
  destruct (showRelationships c); [| by split].
  rewrite E. cbn [negb orb]. case_bool_decide; by split.
Qed.

Lemma task_channel_hideRelationshipTooltip c :
  same_task_channel (hideRelationshipTooltip c) c.
Proof.
  unfold hideRelationshipTooltip. destruct (relationshipTooltip c); by split.
Qed.

Lemma task_channel_showRelationshipTooltip event h c :
  same_task_channel (showRelationshipTooltip event h c) c.
Proof.
  unfold showRelationshipTooltip. cbv zeta.
  assert (H : same_task_channel (createRelationshipTooltipElement c) c).
  { unfold createRelationshipTooltipElement.
    destruct (relationshipTooltip c); by split. }
  destruct (relationshipTooltip (createRelationshipTooltipElement c));
    [| exact H].
  eapply same_task_channel_trans; [| exact H]. by split.
Qed.

Lemma handleTaskHover_relationship_channel event x y c :
  same_relationship_channel (handleTaskHover event x y c) c.
Proof.
  unfold handleTaskHover.
  destruct (negb _); [apply same_relationship_channel_refl |].
  destruct (getTaskAtPosition c x y).
  - eapply same_relationship_channel_trans;
      [apply relationship_channel_assign_cursor
      | apply relationship_channel_showTooltip].
  - eapply same_relationship_channel_trans;
      [apply relationship_channel_assign_cursor
      | apply relationship_channel_hideTooltip].
Qed.

Lemma handleRelationshipHover_task_channel event x y c :
  same_task_channel (handleRelationshipHover event x y c) c.
Proof.
  unfold handleRelationshipHover.
  destruct (_ || _); [apply same_task_channel_refl |]. cbv zeta.
  destruct (List.find _ _) as [h |].
  - eapply same_task_channel_trans; [apply task_channel_assign_cursor |].
    eapply same_task_channel_trans;
      [apply task_channel_showRelationshipTooltip |].
    eapply same_task_channel_trans; [apply task_channel_drawChart |].
    by split.
  - eapply same_task_channel_trans;
      [apply task_channel_hideRelationshipTooltip |].
    destruct (hoveredRelationship c); [| apply same_task_channel_refl].
    eapply same_task_channel_trans; [apply task_channel_drawChart |].
    by split.
Qed.

(** X9. The two hover channels do not touch each other: the task handler
    leaves the hovered relationship, its tooltip, the cache of lines and
    the count of repaints as they were, and the relationship handler
    leaves the hovered task and its tooltip as they were. *)
Theorem X9_hover_channels_independent (event : MouseEvent) (x y : number)
  (c : Component) :
  same_relationship_channel (handleTaskHover event x y c) c
  /\ same_task_channel (handleRelationshipHover event x y c) c.
Proof.
  split;
    [apply handleTaskHover_relationship_channel
    | apply handleRelationshipHover_task_channel].
Qed.

(** ** The relationship channel *)

Lemma repaints_drawChart c :
  repaints (drawChart c) = if ctx c then S (repaints c) else repaints c.
Proof.
  unfold drawChart, drawRelationships.
  destruct (ctx c) eqn:E; cbn [negb]; [| done].
  cbn [showRelationships ctx set_repaints relationships].
  destruct (showRelationships c); [| done].
  rewrite E. cbn [negb orb]. by case_bool_decide.
Qed.

Lemma ctx_set_hoveredRelationship v c : ctx (set_hoveredRelationship v c) = ctx c.
Proof. done. Qed.

Lemma repaints_showRelationshipTooltip event h c :
  repaints (showRelationshipTooltip event h c) = repaints c.
Proof.
  unfold showRelationshipTooltip. cbv zeta.
  assert (H : repaints (createRelationshipTooltipElement c) = repaints c).
  { unfold createRelationshipTooltipElement. by destruct (relationshipTooltip c). }
  by destruct (relationshipTooltip (createRelationshipTooltipElement c)).
Qed.

Lemma repaints_hideRelationshipTooltip c :
  repaints (hideRelationshipTooltip c) = repaints c.
Proof. unfold hideRelationshipTooltip. by destruct (relationshipTooltip c). Qed.

(** X10. With tooltips and relationships shown, a pointer move leaves
    hovered the first line of the cache, in its order, that the canvas
    reports under the pointer, or nothing; it repaints once whenever a
    line is under the pointer, even the one already hovered, and once
    when the pointer has just left a hovered line; otherwise it does not
    repaint. *)
Theorem X10_relationship_hover_and_repaints (event : MouseEvent)
  (c : Component) (cv : Canvas) :
  canvasRef c = Some cv ->
  showTooltips c = true -> showRelationships c = true ->
  let p := getMousePosition event cv in
  let hit :=
    List.find (fun line => ctx c && isPointInStroke (path line) p.1 p.2)
              (relationshipLines c) in
  let c' := onMouseMove event c in
  hoveredRelationship c' = hit
  /\ repaints c'
     = match hit, hoveredRelationship c with
       | None, None => repaints c
       | _, _ => if ctx c then S (repaints c) else repaints c
       end.
Proof.
  intros Hc Ht Hs p hit c'. subst c'. unfold onMouseMove.
  rewrite Hc. cbv zeta. fold p.
  destruct (handleTaskHover_relationship_channel event p.1 p.2
              (handleRelationshipHover event p.1 p.2 c))
    as (-> & _ & _ & ->).
  unfold handleRelationshipHover. rewrite Hs, Ht. cbn [negb orb]. cbv zeta.
  fold hit. destruct hit as [h |] eqn:Eh.
  - rewrite hoveredRelationship_assign_cursor,
      hoveredRelationship_showRelationshipTooltip,
      hoveredRelationship_drawChart.
    split; [done |].
    destruct (relationship_channel_assign_cursor "pointer"
                (showRelationshipTooltip event h
                   (drawChart (set_hoveredRelationship (Some h) c))))
      as (_ & _ & _ & ->).
    by rewrite repaints_showRelationshipTooltip, repaints_drawChart.
  - rewrite hoveredRelationship_hideRelationshipTooltip,
      repaints_hideRelationshipTooltip.
    destruct (hoveredRelationship c) eqn:Eh'.
    + by rewrite hoveredRelationship_drawChart, repaints_drawChart.
    + by rewrite Eh'.
Qed.

Lemma relationshipTooltip_drawChart c :
  relationshipTooltip (drawChart c) = relationshipTooltip c.
Proof.
  unfold drawChart, drawRelationships.
  destruct (ctx c) eqn:E; cbn [negb]; [| done].
  cbn [showRelationships ctx set_repaints relationships].
  destruct (showRelationships c); [| done].
  rewrite E. cbn [negb orb]. by case_bool_decide.
Qed.

(** [c] has a relationship tooltip, and it is hidden. *)
Lemma handleRelationshipHover_keeps_hidden event x y c e :
  relationshipTooltip c = Some e -> style_display e = "none" ->
  exists e', relationshipTooltip (handleRelationshipHover event x y c) = Some e'
             /\ style_display e' = "none".
Proof.
  intros He Hd. unfold handleRelationshipHover.
  destruct (_ || _); [by eexists |]. cbv zeta.
  destruct (List.find _ _) as [h |].
  - destruct (relationship_channel_assign_cursor "pointer"
                (showRelationshipTooltip event h
                   (drawChart (set_hoveredRelationship (Some h) c))))
      as (_ & -> & _).
    unfold showRelationshipTooltip, createRelationshipTooltipElement.
    rewrite relationshipTooltip_drawChart.
    cbn [relationshipTooltip set_hoveredRelationship]. rewrite He. cbv zeta.
    rewrite relationshipTooltip_drawChart.
    cbn [relationshipTooltip set_hoveredRelationship set_relationshipTooltip].
    rewrite He. cbn. by eexists.
  - assert (H : relationshipTooltip
                  (match hoveredRelationship c with
                   | Some _ => drawChart (set_hoveredRelationship None c)
                   | None => c
                   end) = Some e).
    { destruct (hoveredRelationship c); [| done].
      by rewrite relationshipTooltip_drawChart. }
    unfold hideRelationshipTooltip. rewrite H. cbn. by eexists.
Qed.

(** X11. Once the relationship tooltip is hidden it is never displayed
    again: whatever pointer moves and leaves follow, also over lines, the
    tooltip element stays and its display stays "none". *)
Theorem X11_relationship_tooltip_stays_hidden (evs : list PointerEvent)
  (c : Component) (e : Element) :
  relationshipTooltip c = Some e -> style_display e = "none" ->
  exists e', relationshipTooltip (run evs c) = Some e'
             /\ style_display e' = "none".
Proof.
  revert c e. induction evs as [| ev evs IH]; intros c e He Hd.
  - by exists e.
  - unfold run. cbn [foldl].
    assert (H : exists e', relationshipTooltip (handle ev c) = Some e'
                           /\ style_display e' = "none").
    { destruct ev as [event |]; cbn [handle].
      - unfold onMouseMove. destruct (canvasRef c) as [cv |]; [| by exists e].
        cbv zeta.
        destruct (handleTaskHover_relationship_channel event
                    (getMousePosition event cv).1 (getMousePosition event cv).2
                    (handleRelationshipHover event
                       (getMousePosition event cv).1
                       (getMousePosition event cv).2 c))
          as (_ & -> & _).
        by apply (handleRelationshipHover_keeps_hidden _ _ _ _ e).
      - unfold onMouseLeave. cbv zeta.
        assert (H1 : relationshipTooltip (hideTooltip c) = Some e).
        { destruct (relationship_channel_hideTooltip c) as (_ & -> & _). done. }
        assert (H2 : exists e', relationshipTooltip
                                  (hideRelationshipTooltip (hideTooltip c))
                                = Some e' /\ style_display e' = "none").
        { unfold hideRelationshipTooltip. rewrite H1. cbn. by eexists. }
        destruct (canvasRef _); [| exact H2].
        by destruct (relationship_channel_assign_cursor "default"
                       (hideRelationshipTooltip (hideTooltip c)))
          as (_ & -> & _). }
    destruct H as (e' & He' & Hd'). by apply (IH _ e').
Qed.

(** ** The task channel *)

Lemma showTooltip_same_task event task c :
  hoveredTask c = Some task -> showTooltip event task c = c.
Proof.
  intros H. unfold showTooltip.
  rewrite (bool_decide_eq_true_2 _ H). by rewrite orb_true_r.
Qed.

(** A task that is not the hovered one gets the tooltip, placed by the
    pointer and displayed. *)
Lemma showTooltip_other_task event task c :
  showTooltips c = true -> hoveredTask c <> Some task ->
  exists e0 e,
    tooltip (showTooltip event task c) = Some e
    /\ hoveredTask (showTooltip event task c) = Some task
    /\ innerHTML e0
       = TaskHtml (task_name task) (task_start task) (task_end task)
           (ceil (div (sub (of_Z (task_end task)) (of_Z (task_start task)))
                      (of_Z (1000 * 60 * 60 * 24))))
           (keep_truthy (task_progress task))
    /\ innerHTML e = innerHTML e0
    /\ style_display e = "block"
    /\ style_top e = Some (sub (clientY event) (of_Z 15))
    /\ style_left e
       = Some (JsNum.min (add (clientX event) (of_Z 15))
                 (sub (sub innerWidth (offsetWidth e0)) (of_Z 20))).
Proof.
  intros Ht Hh. unfold showTooltip.
  rewrite Ht, (bool_decide_eq_false_2 _ Hh). cbn [negb orb]. cbv zeta.
  set (html := TaskHtml _ _ _ _ _).
  assert (Hcreate : exists e1,
             tooltip (createTooltipElement (set_hoveredTask (Some task) c))
             = Some e1).
  { unfold createTooltipElement. cbn [tooltip set_hoveredTask].
    destruct (tooltip c) as [e1 |] eqn:E; by eexists. }
  destruct Hcreate as [e1 ->].
  exists {| className := className e1; innerHTML := html;
            style_left := style_left e1; style_top := style_top e1;
            style_display := style_display e1 |}.
  unfold positionTooltip. cbn [tooltip set_tooltip].
  eexists. split; [reflexivity |].
  split; [| by repeat split].
  cbn [hoveredTask set_tooltip].
  unfold createTooltipElement. cbn [tooltip set_hoveredTask].
  by destruct (tooltip c).
Qed.

Lemma hideTooltip_hidden c :
  hidden (tooltip (hideTooltip c)) /\ hoveredTask (hideTooltip c) = hoveredTask c.
Proof.
  unfold hideTooltip. destruct (tooltip c) eqn:E; [by split |].
  rewrite E. by split.
Qed.

(** X12. Moving the pointer onto a task, off it, and back onto the same
    task does not bring the tooltip back: the first move displays it
    (when the task was not the hovered one), the second hides it without
    clearing the hovered task, and for the third the task is still the
    hovered one, so that nothing is shown. *)
Theorem X12_tooltip_not_shown_again (e1 e2 e3 : MouseEvent)
  (x1 y1 x2 y2 : number) (c : Component) (task : GanttTask) :
  showTooltips c = true ->
  getTaskAtPosition c x1 y1 = Some task ->
  getTaskAtPosition c x2 y2 = None ->
  let c1 := handleTaskHover e1 x1 y1 c in
  let c2 := handleTaskHover e2 x2 y2 c1 in
  let c3 := handleTaskHover e3 x1 y1 c2 in
  (hoveredTask c <> Some task ->
   exists e, tooltip c1 = Some e /\ style_display e = "block")
  /\ hoveredTask c3 = Some task
  /\ hidden (tooltip c3).
Proof.
  intros Ht H1 H2 c1 c2 c3.
  assert (Hl1 : same_layout c1 c) by apply same_layout_handleTaskHover.
  assert (Hl2 : same_layout c2 c).
  { eapply same_layout_trans; [apply same_layout_handleTaskHover | exact Hl1]. }
  assert (Ht1 : showTooltips c1 = true) by (rewrite <- Ht; apply Hl1).
  assert (Ht2 : showTooltips c2 = true) by (rewrite <- Ht; apply Hl2).
  assert (Hc1 : c1 = assign_cursor "pointer" (showTooltip e1 task c)).
  { subst c1. unfold handleTaskHover. by rewrite Ht, H1. }
  assert (Hh1 : hoveredTask c1 = Some task).
  { rewrite Hc1.
    destruct (task_channel_assign_cursor "pointer" (showTooltip e1 task c))
      as [-> _].
    destruct (decide (hoveredTask c = Some task)) as [E | E].
    - by rewrite showTooltip_same_task.
    - by destruct (showTooltip_other_task e1 task c Ht E)
        as (? & ? & _ & ? & _). }
  assert (Hc2 : c2 = assign_cursor "default" (hideTooltip c1)).
  { subst c2. unfold handleTaskHover.
    by rewrite Ht1, (getTaskAtPosition_layout _ _ _ _ Hl1), H2. }
  destruct (hideTooltip_hidden c1) as [Hhid Hkeep].
  assert (Hh2 : hoveredTask c2 = Some task /\ hidden (tooltip c2)).
  { rewrite Hc2.
    destruct (task_channel_assign_cursor "default" (hideTooltip c1))
      as [-> ->].
    split; [congruence | done]. }
  assert (Hc3 : c3 = assign_cursor "pointer" c2).
  { subst c3. unfold handleTaskHover.
    rewrite Ht2, (getTaskAtPosition_layout _ _ _ _ Hl2), H1. cbn [negb].
    by rewrite showTooltip_same_task by apply Hh2. }
  split; [| rewrite Hc3;
            destruct (task_channel_assign_cursor "pointer" c2) as [-> ->];
            exact Hh2].
  intros Hne. rewrite Hc1.
  destruct (task_channel_assign_cursor "pointer" (showTooltip e1 task c))
    as [_ ->].
  destruct (showTooltip_other_task e1 task c Ht Hne)
    as (e0 & e & He & _ & _ & _ & Hd & _).
  by exists e.
Qed.


(** ** The cache of lines *)

Lemma relationshipLines_drawChart_kept c :
  ctx c = false \/ showRelationships c = false \/ relationships c = [] ->
  relationshipLines (drawChart c) = relationshipLines c.
Proof.
  intros H. unfold drawChart, drawRelationships.
  destruct (ctx c) eqn:Ec; cbn [negb]; [| done].
  cbn [showRelationships ctx set_repaints relationships].
  destruct (showRelationships c) eqn:Es; [| done].
  rewrite Ec. cbn [negb orb].
  destruct H as [H | [H | H]]; try discriminate.
  rewrite H. by rewrite bool_decide_eq_true_2.
Qed.

(** X14. A repaint rebuilds the cache of lines only when there is a
    drawing context, relationships are shown and the list of
    relationships is not empty; otherwise the cache is left as it was.
    After the relationships are emptied, the lines of the old ones stay
    in the cache through a repaint, and the hover handler still matches
    them. *)
Theorem X14_cache_survives_empty_relationships (event : MouseEvent)
  (x y : number) (c : Component) (line : RelationshipLine) :
  (ctx c = false \/ showRelationships c = false \/ relationships c = [] ->
   relationshipLines (drawChart c) = relationshipLines c)
  /\ (relationships c = [] -> ctx c = true ->
      showRelationships c = true -> showTooltips c = true ->
      line ∈ relationshipLines c -> isPointInStroke (path line) x y = true ->
      exists h,
        hoveredRelationship (handleRelationshipHover event x y (drawChart c))
        = Some h
        /\ h ∈ relationshipLines c
        /\ isPointInStroke (path h) x y = true).
Proof.
  split; [apply relationshipLines_drawChart_kept |].
  intros Hr Hc Hs Ht Hin Hp.
  assert (Hl : same_layout (drawChart c) c) by apply same_layout_drawChart.
  assert (Hc' : ctx (drawChart c) = true) by (rewrite <- Hc; apply Hl).
  assert (Hs' : showRelationships (drawChart c) = true)
    by (rewrite <- Hs; apply Hl).
  assert (Ht' : showTooltips (drawChart c) = true) by (rewrite <- Ht; apply Hl).
  assert (Hlines : relationshipLines (drawChart c) = relationshipLines c)
    by (apply relationshipLines_drawChart_kept; auto).
  destruct (List.find (fun l => ctx (drawChart c) && isPointInStroke (path l) x y)
              (relationshipLines (drawChart c))) as [h |] eqn:E.
  - exists h.
    assert (Hh : hoveredRelationship
                   (handleRelationshipHover event x y (drawChart c)) = Some h).
    { unfold handleRelationshipHover. rewrite Hs', Ht'. cbn [negb orb].
      cbv zeta. rewrite E.
      by rewrite hoveredRelationship_assign_cursor,
        hoveredRelationship_showRelationshipTooltip,
        hoveredRelationship_drawChart. }
    split; [exact Hh |].
    apply find_some in E as [E1 E2]. apply andb_true_iff in E2 as [_ E2].
    rewrite Hlines in E1. split; [by apply list_elem_of_In | done].
  - exfalso. rewrite Hlines in E.
    assert (Hf := find_none _ _ E line).
    cbv beta in Hf. rewrite Hc', Hp in Hf.
    specialize (Hf ltac:(by apply list_elem_of_In)). discriminate.
Qed.

(** ** Lines and rows *)

Lemma taskMap_fold_lookup_last (ts : list GanttTask)
  (m : gmap string GanttTask) (t : GanttTask) :
  t ∈ ts -> NoDup (task_id <$> ts) ->
  foldl (fun m t => <[task_id t := t]> m) m ts !! task_id t = Some t.
Proof.
  clear_host. revert m. induction ts as [| t' ts IH]; intros m Hin Hnd.
  - by apply not_elem_of_nil in Hin.
  - cbn [foldl]. rewrite fmap_cons in Hnd. apply NoDup_cons in Hnd as [Hni Hnd].
    apply elem_of_cons in Hin as [-> | Hin].
    + destruct (foldl _ _ ts !! task_id t') as [u |] eqn:E.
      * apply taskMap_fold_Some in E as [E | [E1 E2]].
        -- rewrite lookup_insert_eq in E. congruence.
        -- exfalso. apply Hni. rewrite <- E2. by apply list_elem_of_fmap_2.
      * apply taskMap_fold_None in E as [E _].
        by rewrite lookup_insert_eq in E.
    + by apply IH.
Qed.

Lemma findIndex_unique (ts : list GanttTask) (i : nat) (t : GanttTask) :
  ts !! i = Some t -> NoDup (task_id <$> ts) ->
  findIndex (task_id t) ts = Some i.
Proof.
  clear_host. intros Hi Hnd. unfold findIndex.
  destruct (list_find _ ts) as [[j u] |] eqn:E.
  - apply list_find_Some in E as (Hj & Hu & _). cbn. f_equal.
    apply (NoDup_lookup _ _ _ (task_id t) Hnd);
      rewrite list_lookup_fmap; [by rewrite Hj, <- Hu | by rewrite Hi].
  - exfalso. apply list_find_None in E. rewrite Forall_forall in E.
    apply (E t); [by eapply list_elem_of_lookup_2 | done].
Qed.

(** X15. When the ids of the tasks are distinct, the map of tasks by id
    returns each task of the list under its id, and the line of a
    relationship between the tasks of rows [i] and [j] carries these two
    tasks and runs from the middle of row [i] to the middle of row [j]. *)
Theorem X15_line_joins_row_centres (c : Component) (rel : GanttRelationship)
  (i j : nat) (s t : GanttTask) :
  NoDup (task_id <$> tasks c) ->
  tasks c !! i = Some s -> tasks c !! j = Some t ->
  sourceId rel = task_id s -> targetId rel = task_id t ->
  taskMap (tasks c) !! task_id s = Some s
  /\ exists line,
       relationshipLine c rel = Some line
       /\ sourceTask line = s /\ targetTask line = t
       /\ fromY line
          = add (add headerHeight (mul (of_Z (Z.of_nat i)) (rowHeight c)))
                (div (rowHeight c) (of_Z 2))
       /\ toY line
          = add (add headerHeight (mul (of_Z (Z.of_nat j)) (rowHeight c)))
                (div (rowHeight c) (of_Z 2))
       /\ path_moveTo (path line) = (fromX line, fromY line)
       /\ path_end (path line) = (toX line, toY line).
Proof.
  clear_canvas. intros Hnd Hi Hj Hs Ht.
  assert (Hms : taskMap (tasks c) !! task_id s = Some s).
  { apply taskMap_fold_lookup_last; [by eapply list_elem_of_lookup_2 | done]. }
  assert (Hmt : taskMap (tasks c) !! task_id t = Some t).
  { apply taskMap_fold_lookup_last; [by eapply list_elem_of_lookup_2 | done]. }
  split; [exact Hms |].
  unfold relationshipLine. rewrite Hs, Ht, Hms, Hmt. cbn [mbind option_bind].
  rewrite (findIndex_unique _ _ _ Hi Hnd), (findIndex_unique _ _ _ Hj Hnd).
  cbn [mbind option_bind]. eexists. split; [reflexivity |].
  by repeat split.
Qed.

(** ** Stepping through the calendar *)

Lemma Day_of_time (t : Z) :
  Day t = DayFromYear (YearFromTime t)
          + monthStart (MonthFromTime t) (InLeapYear t) + DateFromTime t - 1.
Proof. clear_host. unfold DateFromTime, DayWithinYear. lia. Qed.

Lemma shift_days (t k day' : Z) :
  day' = Day (LocalTime LocalTZA t) + k ->
  UTC LocalTZA (MakeDate day' (TimeWithinDay (LocalTime LocalTZA t)))
  = t + k * msPerDay.
Proof.
  clear_canvas. intros ->. unfold UTC, MakeDate, TimeWithinDay.
  pose proof (Z.div_mod (LocalTime LocalTZA t) msPerDay) as Hdm.
  unfold Day, LocalTime in *. unfold msPerDay in *. lia.
Qed.

Lemma setDateZ_shift (t n : Z) :
  setDateZ t n = t + (n - getDate LocalTZA t) * msPerDay.
Proof.
  clear_canvas. unfold setDateZ. cbv zeta. apply shift_days.
  rewrite MakeDay_of_time. unfold getDate. lia.
Qed.

(** [setDate] with an integral number is [setDateZ], within the range
    of the time values. *)
Lemma setDate_of_Z (t n : Z) :
  setDate LocalTZA t (of_Z n) = TimeClip (setDateZ t n).
Proof.
  clear_canvas. rewrite setDateZ_shift. apply setDate_shift.
  apply to_integer_finite, finite_as_of_Z.
Qed.

Lemma monthStart_next (m l : Z) :
  0 <= m <= 10 -> 0 <= l <= 1 ->
  28 <= monthStart (m + 1) l - monthStart m l <= 31.
Proof.
  clear_host. intros Hm Hl.
  assert (Hc : m = 0 \/ m = 1 \/ m = 2 \/ m = 3 \/ m = 4 \/ m = 5 \/ m = 6
               \/ m = 7 \/ m = 8 \/ m = 9 \/ m = 10) by lia.
  destruct_or!; subst m;
    match goal with
    | |- context [monthStart (?a + 1) _] =>
        let v := eval vm_compute in (a + 1) in change (a + 1) with v
    end; cbn [monthStart]; lia.
Qed.

Lemma monthStart_leap (m l l' : Z) :
  0 <= m <= 11 ->
  monthStart m l' - monthStart m l = if m <? 2 then 0 else l' - l.
Proof.
  clear_host. intros Hm.
  assert (Hc : m = 0 \/ m = 1 \/ m = 2 \/ m = 3 \/ m = 4 \/ m = 5 \/ m = 6
               \/ m = 7 \/ m = 8 \/ m = 9 \/ m = 10 \/ m = 11) by lia.
  destruct_or!; subst m; cbn; lia.
Qed.

Lemma leap_days (y : Z) :
  DaysInYear y = 365 + (if DaysInYear y =? 366 then 1 else 0)
  /\ 0 <= (if DaysInYear y =? 366 then 1 else 0) <= 1.
Proof.
  clear_host. destruct (DaysInYear_cases y) as [E | E]; rewrite E; cbn; lia.
Qed.

Lemma setMonth_next (t : Z) :
  exists k, setMonth t (getMonth LocalTZA t + 1) = t + k * msPerDay
            /\ 28 <= k <= 31.
Proof.
  clear_canvas. unfold setMonth, getMonth. cbv zeta.
  set (lt := LocalTime LocalTZA t).
  pose proof (MonthFromTime_range lt) as Hm.
  pose proof (Day_of_time lt) as Hd.
  pose proof (DayFromYear_succ (YearFromTime lt)) as Hy.
  pose proof (leap_days (YearFromTime lt)) as [Hl Hl'].
  unfold InLeapYear in Hd.
  exists (MakeDay (YearFromTime lt) (MonthFromTime lt + 1) (DateFromTime lt)
          - Day lt).
  split; [apply shift_days; fold lt; lia |].
  unfold MakeDay. cbv zeta. rewrite Hd.
  destruct (decide (MonthFromTime lt = 11)) as [E | E].
  - rewrite E. change ((11 + 1) / 12) with 1. change ((11 + 1) mod 12) with 0.
    rewrite Hy. cbn [monthStart]. lia.
  - rewrite Z.div_small, Z.mod_small, Z.add_0_r by lia.
    pose proof (monthStart_next (MonthFromTime lt)
                  (if DaysInYear (YearFromTime lt) =? 366 then 1 else 0)
                  ltac:(lia) Hl').
    lia.
Qed.

Lemma setFullYear_next (t : Z) :
  exists k, setFullYear t (getFullYear LocalTZA t + 1) = t + k * msPerDay
            /\ 365 <= k <= 366.
Proof.
  clear_canvas. unfold setFullYear, getFullYear. cbv zeta.
  set (lt := LocalTime LocalTZA t).
  pose proof (MonthFromTime_range lt) as Hm.
  pose proof (Day_of_time lt) as Hd.
  pose proof (DayFromYear_succ (YearFromTime lt)) as Hy.
  pose proof (leap_days (YearFromTime lt)) as [Hl Hl'].
  pose proof (leap_days (YearFromTime lt + 1)) as [Hn Hn'].
  unfold InLeapYear in Hd.
  exists (MakeDay (YearFromTime lt + 1) (MonthFromTime lt) (DateFromTime lt)
          - Day lt).
  split; [apply shift_days; fold lt; lia |].
  unfold MakeDay. cbv zeta. rewrite Hd.
  rewrite Z.div_small, Z.mod_small, Z.add_0_r by lia.
  rewrite Hy.
  pose proof (monthStart_leap (MonthFromTime lt)
                (if DaysInYear (YearFromTime lt) =? 366 then 1 else 0)
                (if DaysInYear (YearFromTime lt + 1) =? 366 then 1 else 0)
                Hm) as Hs.
  destruct (MonthFromTime lt <? 2); lia.
Qed.

Lemma getNextDate_step (c : Component) (current : Z) :
  exists k,
    getNextDate c current = current + k * msPerDay
    /\ match viewMode c with
       | day => k = 1
       | week => k = 7
       | month => 28 <= k <= 31
       | year => 365 <= k <= 366
       end.
Proof.
  clear_canvas. unfold getNextDate. destruct (viewMode c).
  - exists 1. rewrite setDateZ_shift. split; [lia | done].
  - exists 7. rewrite setDateZ_shift. split; [lia | done].
  - apply setMonth_next.
  - apply setFullYear_next.
Qed.

(** X16. The next date of the header is later than the current one by a
    whole number of days: 1 in the day view, 7 in the week view, 28 to 31
    in the month view and 365 or 366 in the year view; the time of day is
    kept. *)
Theorem X16_getNextDate_advances (c : Component) (current : Z) :
  exists k,
    getNextDate c current = current + k * msPerDay
    /\ match viewMode c with
       | day => k = 1
       | week => k = 7
       | month => 28 <= k <= 31
       | year => 365 <= k <= 366
       end
    /\ current < getNextDate c current.
Proof.
  clear_canvas. destruct (getNextDate_step c current) as (k & Hk & Hm).
  exists k. split; [done |]. split; [done |].
  rewrite Hk. unfold msPerDay. destruct (viewMode c); lia.
Qed.

(** ** The header *)

Lemma inject_Z_succ (k : nat) :
  (inject_Z (Z.of_nat (S k)) == inject_Z (Z.of_nat k) + 1)%Q.
Proof. clear_host. by rewrite Nat2Z.inj_succ, <- Z.add_1_r, inject_Z_plus. Qed.

Lemma headerIterations_ticks (c : Component) (w : Q) (fuel : nat) :
  forall x xv current its x',
    finite_as x xv ->
    headerIterations fuel c (Fin w) x current = Some (its, x') ->
    (forall k d xk,
        its !! k = Some (d, xk) ->
        d = Nat.iter k (getNextDate c) current
        /\ d <= endDate c
        /\ finite_as xk (xv + inject_Z (Z.of_nat k) * w))
    /\ finite_as x' (xv + inject_Z (Z.of_nat (length its)) * w)
    /\ endDate c < Nat.iter (length its) (getNextDate c) current.
Proof.
  clear_canvas.
  induction fuel as [| fuel IH]; intros x xv current its x' Hx H;
    [discriminate |].
  cbn [headerIterations] in H.
  destruct (Z.leb_spec current (endDate c)) as [E | E].
  - destruct (headerIterations fuel c (Fin w) (add x (Fin w))
                (getNextDate c current)) as [[its0 x0] |] eqn:R;
      [| discriminate].
    injection H as <- <-.
    destruct (IH _ (xv + w)%Q _ _ _
                (finite_as_add _ _ _ _ Hx (finite_as_Fin w)) R)
      as (Ht & Hx' & He).
    split; [| split].
    + intros [| k] d xk Hk; cbn in Hk.
      * injection Hk as <- <-. split; [done |]. split; [done |].
        eapply finite_as_same; [exact Hx |].
        change (inject_Z (Z.of_nat 0)) with (0 # 1). lra.
      * apply Ht in Hk as (-> & Hle & Hf).
        split; [by rewrite Nat.iter_succ_r |]. split; [done |].
        eapply finite_as_same; [exact Hf |]. rewrite inject_Z_succ. lra.
    + eapply finite_as_same; [exact Hx' |].
      cbn [length]. rewrite inject_Z_succ. lra.
    + cbn [length]. by rewrite Nat.iter_succ_r.
  - injection H as <- <-. split; [| split].
    + intros k d xk Hk. by destruct k.
    + eapply finite_as_same; [exact Hx |].
      change (inject_Z (Z.of_nat (length (@nil (Z * number))))) with (0 # 1).
      lra.
    + cbn. lia.
Qed.

Lemma headerIterations_terminates (c : Component) (w : number) (fuel : nat) :
  forall x current,
    Z.max 1 ((endDate c - current) / msPerDay + 2) <= Z.of_nat fuel ->
    exists its x',
      headerIterations fuel c w x current = Some (its, x')
      /\ Z.of_nat (length its)
         <= Z.max 0 ((endDate c - current) / msPerDay + 1).
Proof.
  clear_canvas.
  induction fuel as [| fuel IH]; intros x current H; [lia |].
  cbn [headerIterations].
  destruct (Z.leb_spec current (endDate c)) as [E | E].
  - destruct (getNextDate_step c current) as (k & Hk & Hm).
    assert (Hk1 : 1 <= k) by (destruct (viewMode c); lia).
    destruct (IH (add x w) (getNextDate c current)) as (its & x' & -> & Hl).
    { rewrite Hk. unfold msPerDay in *.
      Z.to_euclidean_division_equations; lia. }
    eexists _, _. split; [done |]. cbn [length].
    rewrite Hk in Hl. unfold msPerDay in *.
    Z.to_euclidean_division_equations; lia.
  - exists [], x. split; [done |]. cbn. lia.
Qed.

Lemma labels_header (c : Component) (bg fg font : string)
      (w box h half : number) (its : list (Z * number)) (closing : list PaintCmd) :
  labels closing = [] ->
  labels (FillBox bg (of_Z 0) (of_Z 0) box h
          :: flat_map
               (fun it =>
                  [FillLabel fg font (getDateLabel c it.1) (add it.2 w) half;
                   StrokeLine false it.2 (of_Z 0) it.2 h]) its
          ++ closing)
  = (fun it => (getDateLabel c it.1, add it.2 w)) <$> its.
Proof.
  clear_canvas. intros Hc. unfold labels. cbn [omap list_omap].
  induction its as [| it its IH]; cbn; [exact Hc |].
  by rewrite <- IH.
Qed.

Lemma last_closing {A} (a : A) (l : list A) (p q : A) :
  last (a :: l ++ [p; q]) = Some q.
Proof.
  clear_host.
  replace (a :: l ++ [p; q]) with ((a :: l ++ [p]) ++ [q])
    by (by rewrite app_comm_cons, <- app_assoc).
  apply last_snoc.
Qed.


Lemma Day_MakeDate (d t : Z) :
  Day (MakeDate d (TimeWithinDay t)) = d.
Proof.
  clear_host. unfold Day, MakeDate, TimeWithinDay, msPerDay.
  Z.to_euclidean_division_equations; lia.
Qed.

Lemma monthStart_bound (m l : Z) :
  0 <= m <= 11 -> 0 <= l <= 1 -> 0 <= monthStart m l <= 334 + l.
Proof.
  clear_host. intros Hm Hl.
  assert (Hc : m = 0 \/ m = 1 \/ m = 2 \/ m = 3 \/ m = 4 \/ m = 5 \/ m = 6
               \/ m = 7 \/ m = 8 \/ m = 9 \/ m = 10 \/ m = 11) by lia.
  destruct_or!; subst m; cbn [monthStart]; lia.
Qed.

Lemma getFullYear_setFullYear (t : Z) :
  getFullYear LocalTZA (setFullYear t (getFullYear LocalTZA t + 1))
  = getFullYear LocalTZA t + 1.
Proof.
  clear_canvas. unfold setFullYear, getFullYear. cbv zeta.
  set (lt := LocalTime LocalTZA t).
  pose proof (MonthFromTime_range lt) as Hm.
  pose proof (DateFromTime_range lt) as Hd.
  pose proof (leap_days (YearFromTime lt + 1)) as [Hn Hn'].
  pose proof (DayFromYear_succ (YearFromTime lt + 1)) as Hy.
  pose proof (monthStart_bound (MonthFromTime lt) _ Hm Hn') as Hb.
  unfold LocalTime at 1. unfold UTC.
  rewrite Z.sub_add. apply YearFromTime_unique.
  rewrite Day_MakeDate. unfold MakeDay. cbv zeta.
  rewrite Z.div_small, Z.mod_small, Z.add_0_r by lia.
  lia.
Qed.

Lemma units_of_iteration (c : Component) (k : nat) :
  viewMode c <> month ->
  (units_from_start c (Nat.iter k (getNextDate c) (startDate c))
   == inject_Z (Z.of_nat k))%Q.
Proof.
  clear_canvas. intros Hv.
  assert (Hs : forall d j, getNextDate c d = d + j * msPerDay ->
                           (inject_Z (getNextDate c d)
                            == inject_Z d + inject_Z j * (86400000 # 1))%Q).
  { intros d j ->. by rewrite inject_Z_plus, inject_Z_mult. }
  unfold units_from_start.
  induction k as [| k IH].
  - cbn [Nat.iter nat_rect]. change (inject_Z (Z.of_nat 0)) with (0 # 1).
    destruct (viewMode c); [| | done |].
    + field.
    + field.
    + by rewrite Z.sub_diag.
  - rewrite inject_Z_succ. cbn [Nat.iter nat_rect].
    set (d := Nat.iter k (getNextDate c) (startDate c)) in *.
    change (nat_rect (fun _ : nat => Z) (startDate c)
              (fun _ : nat => getNextDate c) k) with d.
    destruct (getNextDate_step c d) as (j & Hj & Hm).
    pose proof (Hs d j Hj) as Hq.
    unfold getNextDate in Hq |- *.
    destruct (viewMode c); [| | done |].
    + subst j. rewrite Hq, <- IH. change (inject_Z 1) with (1 # 1). field.
    + subst j. rewrite Hq, <- IH. change (inject_Z 7) with (7 # 1). field.
    + rewrite getFullYear_setFullYear.
      replace (getFullYear LocalTZA d + 1 - getFullYear LocalTZA (startDate c))
        with (getFullYear LocalTZA d - getFullYear LocalTZA (startDate c) + 1)
        by lia.
      rewrite inject_Z_plus, IH. by change (inject_Z 1) with 1%Q.
Qed.

(** X18. In a time zone of constant offset, outside the month view, and
    for a unit width that is a whole number, the header is aligned with
    the bars: the separator of the k-th iteration of the header loop
    stands at k unit widths, which is the x that [getXPositionForDate]
    gives to the date of that iteration. *)
Theorem X18_header_aligned_with_bars (fuel : nat) (c : Component)
  (its : list (Z * number)) (x : number) (k : nat) (d : Z) (xk : number)
  (w : Z) :
  viewMode c <> month ->
  finite_as (getOptimalUnitWidth c) (inject_Z w) ->
  headerIterations fuel c (getOptimalUnitWidth c) (of_Z 0) (startDate c)
  = Some (its, x) ->
  its !! k = Some (d, xk) ->
  finite_as xk (inject_Z (Z.of_nat k * w))
  /\ finite_as (getXPositionForDate c d) (inject_Z (Z.of_nat k * w)).
Proof.
  clear_canvas. intros Hv Hwz R Hk.
  destruct (getXPositionForDate_finite c d) as (wq & Hw & _ & Hd).
  rewrite Hw in R, Hwz. destruct Hwz as [_ Hq]. cbn [val] in Hq.
  destruct (headerIterations_ticks c wq fuel _ 0 _ _ _ (finite_as_of_Z 0) R)
    as (Ht & _ & _).
  destruct (Ht _ _ _ Hk) as (-> & _ & Hx).
  split.
  - eapply finite_as_same; [exact Hx |]. rewrite inject_Z_mult, Hq. lra.
  - eapply finite_as_same; [exact Hd |].
    by rewrite units_of_iteration, inject_Z_mult, Hq.
Qed.

(** X19. In the week view the label of a date is made from the Sunday on
    or before it: with k the day of the week of the date, the first
    number is the day of the month k days earlier, which is a Sunday, and
    the second number is 6 more, whatever the length of the month. *)
Theorem X19_week_label_from_sunday (c : Component) (date : Z) :
  viewMode c = week ->
  let k := getDay date in
  let sunday := date - k * msPerDay in
  0 <= k <= 6
  /\ getDay sunday = 0
  /\ 1 <= getDate LocalTZA sunday <= 31
  /\ getDateLabel c date
     = WeekRange (getDate LocalTZA sunday) (getDate LocalTZA sunday + 6).
Proof.
  clear_canvas. intros Hv k sunday.
  assert (Hk : 0 <= k <= 6).
  { unfold k, getDay. pose proof (Z.mod_pos_bound
      (Day (LocalTime LocalTZA date) + 4) 7). lia. }
  split; [done |]. split.
  { unfold sunday, k, getDay, Day, LocalTime, msPerDay.
    Z.to_euclidean_division_equations; lia. }
  split; [apply DateFromTime_range |].
  unfold getDateLabel. rewrite Hv. cbv zeta. rewrite setDateZ_shift.
  replace (date + (getDate LocalTZA date - getDay date - getDate LocalTZA date)
                  * msPerDay) with sunday by (unfold sunday, k; lia).
  done.
Qed.

(** ** The grid *)

Lemma gridIterations_spec (w tv : Q) (total : number) (fuel : nat) :
  (0 < w)%Q -> finite_as total tv ->
  forall x xv (n : Z),
    finite_as x xv ->
    (inject_Z n * w <= tv - xv)%Q -> (tv - xv < (inject_Z n + 1) * w)%Q ->
    Z.max 1 (n + 2) <= Z.of_nat fuel ->
    exists xs,
      gridIterations fuel (Fin w) total x = Some xs
      /\ Z.of_nat (length xs) = Z.max 0 (n + 1)
      /\ forall k xk, xs !! k = Some xk ->
                      finite_as xk (xv + inject_Z (Z.of_nat k) * w).
Proof.
  clear_host. intros Hw Ht.
  induction fuel as [| fuel IH]; intros x xv n Hx Hlo Hhi Hf; [lia |].
  cbn [gridIterations]. rewrite (leb_finite x total xv tv) by done.
  destruct (Qle_bool xv tv) eqn:E.
  - apply Qle_bool_iff in E.
    assert (Hn : 0 <= n).
    { destruct (Z_lt_le_dec n 0) as [Hneg | ]; [exfalso | done].
      assert (H1 : (inject_Z n <= inject_Z (-1))%Q) by (rewrite <- Zle_Qle; lia).
      change (inject_Z (-1)) with (-1 # 1) in H1.
      assert (H2 : ((inject_Z n + 1) * w <= 0 * w)%Q)
        by (apply Qmult_le_compat_r; lra).
      lra. }
    destruct (IH (add x (Fin w)) (xv + w)%Q (n - 1)) as (xs & -> & Hl & Hk).
    + apply finite_as_add; [done | apply finite_as_Fin].
    + unfold Z.sub. rewrite inject_Z_plus.
      change (inject_Z (- (1))) with (-1 # 1). lra.
    + unfold Z.sub. rewrite inject_Z_plus.
      change (inject_Z (- (1))) with (-1 # 1). lra.
    + lia.
    + exists (x :: xs). split; [done |]. split; [cbn [length]; lia |].
      intros [| k] xk Hxk; cbn in Hxk.
      * injection Hxk as <-. eapply finite_as_same; [exact Hx |].
        change (inject_Z (Z.of_nat 0)) with (0 # 1). lra.
      * apply Hk in Hxk. eapply finite_as_same; [exact Hxk |].
        rewrite inject_Z_succ. lra.
  - assert (Hlt : (tv < xv)%Q).
    { apply Qnot_le_lt. rewrite <- Qle_bool_iff, E. discriminate. }
    assert (Hn : n < 0).
    { destruct (Z_lt_le_dec n 0) as [| Hpos]; [done | exfalso].
      assert (H1 : (0 <= inject_Z n)%Q) by (by apply inject_Z_nonneg).
      assert (H2 : (0 <= inject_Z n * w)%Q)
        by (apply Qmult_le_0_compat; lra).
      lra. }
    exists []. split; [done |]. split; [cbn; lia |].
    intros k xk Hxk. by destruct k.
Qed.

(** The commands of the grid, in the exact arithmetic of the embedding:
    with fuel for the width of the canvas in pixels and two more, and n
    the whole number of unit widths that fit in the canvas width. *)
Lemma drawGrid_commands (fuel : nat) (now : Z) (c : Component)
  (height : number) (cw : Z) :
  ctx c = true ->
  calculateCanvasWidth c = of_Z cw ->
  cw + 2 <= Z.of_nat fuel ->
  exists (w : Q) (cmds : list PaintCmd) (n : nat),
    getOptimalUnitWidth c = Fin w
    /\ drawGrid fuel now c height = Some cmds
    /\ (inject_Z (Z.of_nat n) * w <= inject_Z cw)%Q
    /\ (inject_Z cw < (inject_Z (Z.of_nat n) + 1) * w)%Q
    /\ (forall k, (k <= n)%nat ->
          exists xk,
            cmds !! k = Some (StrokeLine false xk headerHeight xk height)
            /\ finite_as xk (inject_Z (Z.of_nat k) * w))
    /\ (forall i, (i <= length (tasks c))%nat ->
          let y := add headerHeight (mul (of_Z (Z.of_nat i)) (rowHeight c)) in
          cmds !! (S n + i)%nat
          = Some (StrokeLine false (of_Z 0) y (of_Z cw) y))
    /\ length cmds
       = (S n + S (length (tasks c))
          + (if (startDate c <=? now)%Z && (now <=? endDate c)%Z
             then 2 else 0))%nat.
Proof.
  clear_canvas. intros Hctx Hcw Hf.
  destruct (getOptimalUnitWidth_Fin c)
    as (lo & hi & w & _ & _ & Hb & Hw & Hbw & _).
  destruct (calculateCanvasWidth_pos c) as (cw' & Hpos & Hcw').
  assert (cw' = cw) as ->.
  { rewrite Hcw in Hcw'. injection Hcw' as E. lia. }
  assert (Hw1 : (1 <= w)%Q).
  { assert (H1 : (inject_Z 1 <= inject_Z lo)%Q) by (rewrite <- Zle_Qle; lia).
    change (inject_Z 1) with 1%Q in H1. lra. }
  set (m := Qfloor (inject_Z cw / w)).
  assert (Hq : (inject_Z cw / w * w == inject_Z cw)%Q) by (field; lra).
  assert (Hlo : (inject_Z m * w <= inject_Z cw)%Q).
  { apply Qle_trans with (inject_Z cw / w * w)%Q;
      [| rewrite Hq; apply Qle_refl].
    apply Qmult_le_compat_r; [apply Qfloor_le | lra]. }
  assert (Hhi : (inject_Z cw < (inject_Z m + 1) * w)%Q).
  { apply Qle_lt_trans with (inject_Z cw / w * w)%Q;
      [rewrite Hq; apply Qle_refl |].
    apply Qmult_lt_compat_r; [lra |].
    pose proof (Qlt_floor (inject_Z cw / w)) as H.
    rewrite inject_Z_plus in H. by change (inject_Z 1) with 1%Q in H. }
  assert (Hcq : (0 < inject_Z cw)%Q) by (by apply inject_Z_pos).
  assert (Hm0 : 0 <= m).
  { destruct (Z_lt_le_dec m 0) as [Hneg | ]; [exfalso | done].
    assert (H1 : (inject_Z m <= inject_Z (-1))%Q) by (rewrite <- Zle_Qle; lia).
    change (inject_Z (-1)) with (-1 # 1) in H1.
    assert (H2 : ((inject_Z m + 1) * w <= 0 * w)%Q)
      by (apply Qmult_le_compat_r; lra).
    lra. }
  assert (Hmc : m <= cw).
  { rewrite Zle_Qle.
    assert (H1 : (0 <= inject_Z m)%Q) by (by apply inject_Z_nonneg).
    assert (H2 : (0 <= inject_Z m * (w - 1))%Q)
      by (apply Qmult_le_0_compat; lra).
    lra. }
  destruct (gridIterations_spec w (inject_Z cw) (of_Z cw) fuel
              ltac:(lra) (finite_as_of_Z cw) (of_Z 0) 0 m (finite_as_of_Z 0)
              ltac:(lra) ltac:(lra) ltac:(lia))
    as (xs & R & Hl & Hk).
  assert (Hlen : length xs = S (Z.to_nat m)) by lia.
  exists w. unfold drawGrid. rewrite Hctx. cbn [negb]. cbv zeta.
  rewrite Hw, Hcw, R. eexists _, (Z.to_nat m).
  split; [reflexivity |]. split; [reflexivity |].
  rewrite Z2Nat.id by done.
  split; [done |]. split; [done |]. split; [| split].
  - intros k Hkn.
    destruct (lookup_lt_is_Some_2 xs k ltac:(lia)) as [xk Exk].
    exists xk. split.
    + rewrite lookup_app_l by (rewrite length_fmap; lia).
      by rewrite list_lookup_fmap, Exk.
    + eapply finite_as_same; [exact (Hk _ _ Exk) |]. lra.
  - intros i Hi.
    rewrite lookup_app_r by (rewrite length_fmap; lia).
    rewrite length_fmap, Hlen.
    replace (S (Z.to_nat m) + i - S (Z.to_nat m))%nat with i by lia.
    rewrite lookup_app_l by (rewrite length_fmap, length_seq; lia).
    rewrite list_lookup_fmap, lookup_seq_lt by lia. done.
  - rewrite !length_app, !length_fmap, length_seq, Hlen.
    destruct ((startDate c <=? now) && (now <=? endDate c)); cbn [length]; lia.
Qed.

(** X20. For a unit width that is a whole number [w], and with fuel for
    the width of the canvas in pixels and two more, the grid is painted:
    with n the quotient of the canvas width by [w], it draws the n + 1
    vertical lines at 0, w, ..., n * w, then one horizontal line above
    each row and one below the last, each as long as the canvas is wide,
    and then the today marker and its caption exactly when the clock is
    within the date range. *)
Theorem X20_grid_lines (fuel : nat) (now : Z) (c : Component)
  (height : number) (cw w : Z) :
  ctx c = true ->
  calculateCanvasWidth c = of_Z cw ->
  finite_as (getOptimalUnitWidth c) (inject_Z w) ->
  cw + 2 <= Z.of_nat fuel ->
  exists cmds : list PaintCmd,
    drawGrid fuel now c height = Some cmds
    /\ 0 < w
    /\ (forall k : nat, Z.of_nat k <= cw / w ->
          exists xk,
            cmds !! k = Some (StrokeLine false xk headerHeight xk height)
            /\ finite_as xk (inject_Z (Z.of_nat k * w)))
    /\ (forall i, (i <= length (tasks c))%nat ->
          let y := add headerHeight (mul (of_Z (Z.of_nat i)) (rowHeight c)) in
          cmds !! (S (Z.to_nat (cw / w)) + i)%nat
          = Some (StrokeLine false (of_Z 0) y (of_Z cw) y))
    /\ length cmds
       = (S (Z.to_nat (cw / w)) + S (length (tasks c))
          + (if (startDate c <=? now)%Z && (now <=? endDate c)%Z
             then 2 else 0))%nat.
Proof.
  clear_canvas. intros Hctx Hcw Hwz Hf.
  destruct (drawGrid_commands fuel now c height cw Hctx Hcw Hf)
    as (wq & cmds & n & Hw & Hd & Hlo & Hhi & Hv & Hh & Hl).
  rewrite Hw in Hwz. destruct Hwz as [_ Hq]. cbn [val] in Hq.
  rewrite Hq in Hlo, Hhi.
  change 1%Q with (inject_Z 1) in Hhi.
  rewrite <- inject_Z_plus, <- inject_Z_mult in Hhi.
  rewrite <- inject_Z_mult in Hlo.
  rewrite <- Zle_Qle in Hlo. rewrite <- Zlt_Qlt in Hhi.
  assert (Hpos : 0 < w) by nia.
  assert (En : cw / w = Z.of_nat n).
  { symmetry. apply (Z.div_unique_pos cw w (Z.of_nat n) (cw - w * Z.of_nat n));
      nia. }
  exists cmds. split; [exact Hd |]. split; [exact Hpos |].
  rewrite En, Nat2Z.id. split; [| split; [exact Hh | exact Hl]].
  intros k Hk. destruct (Hv k ltac:(lia)) as (xk & Hxk & Hfk).
  exists xk. split; [exact Hxk |].
  eapply finite_as_same; [exact Hfk |]. by rewrite inject_Z_mult, Hq.
Qed.

End Gantt.


(** * Concrete runs *)

(** C2, as stated, fails: the range of [backwards] has a total unit
    count of zero (it is -0), and the unit width of the day view is its
    min, 20, not its max, 40. *)
Lemma C2_counterexample :
  initializeDateRange 0 0 [backwards] = Some (1000, 0)
  /\ eqb (getTotalUnits 0 backwards_view) (of_Z 0) = true
  /\ getOptimalUnitWidth 0 backwards_view = of_Z 20
  /\ ~ same (getOptimalUnitWidth 0 backwards_view)
            (w_max (UNIT_WIDTHS (viewMode backwards_view))).
Proof.
  split; [reflexivity |]. split; [reflexivity |]. split; [reflexivity |].
  vm_compute. discriminate.
Qed.

(** A range of a single instant: the count of days is +0 and the width
    is the max of the day view. *)
Lemma C2_witness :
  let c := component [] [] day None 5 5 in
  same (getOptimalUnitWidth 0 c) (of_Z 40).
Proof.
  intros c.
  assert (Hv : valid_date 5) by (unfold valid_date; simpl; lia).
  destruct (C2_unit_width_within_bounds 0 c Hv Hv) as (_ & _ & H).
  destruct H as (_ & _ & H); [reflexivity |].
  apply H. simpl. lia.
Defined.

Lemma C9_witness :
  last (drawTask 0 authentication_view 0 authentication) =
    Some (FillText "#333333" "10px Arial" "left" (Str "Implement authe...")
            (add (getXPositionForDate 0 authentication_view 1704067200000)
                 (of_Z 5))
            (add (add (add headerHeight (mul (of_Z 0) (of_Z 40)))
                      (div (sub (of_Z 40) (of_Z 20)) (of_Z 2)))
                 (div (of_Z 20) (of_Z 2)))).
Proof.
  apply (C9_long_name_truncated 0 authentication_view 0 authentication).
  - reflexivity.
  - simpl. lia.
Defined.

(** C9, as stated, fails on its own example: the bar is 360 pixels wide,
    and the only text drawn is "Implement authe...", the first 15
    characters of the name, which is not "Implement autho...". *)
Lemma C9_counterexample :
  same (JsNum.max (sub (getXPositionForDate 0 authentication_view
                    (task_end authentication))
                 (getXPositionForDate 0 authentication_view
                    (task_start authentication)))
            (of_Z 2)) (of_Z 360)
  /\ initializeDateRange 0 0 [authentication]
     = Some (startDate authentication_view, endDate authentication_view)
  /\ texts (drawTasks 0 authentication_view) = [Str "Implement authe..."]
  /\ Str "Implement autho..." ∉ texts (drawTasks 0 authentication_view).
Proof.
  split; [| split; [| split]].
  - vm_compute. reflexivity.
  - reflexivity.
  - reflexivity.
  - intros H. vm_compute in H. apply list_elem_of_singleton in H. discriminate.
Qed.

Lemma C10_witness :
  onMouseMove 0 everywhere (of_Z 1024) (fun _ => of_Z 200)
              at_100_120 (hovering false) = hovering false.
Proof.
  apply (C10_mouse_move_without_tooltips 0 everywhere (of_Z 1024)
           (fun _ => of_Z 200) at_100_120 (hovering false)).
  reflexivity.
Defined.

(** C4. The pointer moves over the bar of [design] and over a
    relationship line of the freshly painted [january], and then leaves:
    the tooltips are hidden and the cursor is reset, but the hovered task
    and the hovered relationship are still set, where the claim has both
    cleared.  A pointer move off the line, the sibling path, does clear
    the hovered relationship. *)
Lemma C4_leave_while_hovering :
  let move isPointInStroke :=
    onMouseMove 0 isPointInStroke (of_Z 1024) (fun _ => of_Z 200) at_60_110 in
  let hovered := move everywhere (drawChart 0 january) in
  let left := onMouseLeave hovered in
  hoveredTask hovered = Some design
  /\ (line_id <$> hoveredRelationship hovered) = Some "r1"
  /\ hidden (tooltip left)
  /\ hidden (relationshipTooltip left)
  /\ cursor <$> canvasRef left = Some "default"
  /\ hoveredTask left = Some design
  /\ (line_id <$> hoveredRelationship left) = Some "r1"
  /\ hoveredRelationship (move nowhere hovered) = None.
Proof.
  intros move hovered left.
  destruct (onMouseLeave_effect hovered) as (H1 & H2 & H3 & H4 & H5).
  fold left in H1, H2, H3, H4, H5.
  split; [reflexivity |]. split; [reflexivity |].
  split; [exact H1 |]. split; [exact H2 |].
  split; [rewrite H3; reflexivity |].
  split; [rewrite H4; reflexivity |].
  split; [rewrite H5; reflexivity |].
  reflexivity.
Qed.

Lemma C6_witness :
  same (getOptimalUnitWidth 0 january) (of_Z 30)
  /\ exists line line0,
       relationshipLine 0 january (finish_to_start (Some (of_Z 2))) = Some line
       /\ relationshipLine 0 january (finish_to_start None) = Some line0
       /\ same (toX line0) (of_Z 150)
       /\ same (toX line) (of_Z 210)
       /\ same (toX line) (add (toX line0) (of_Z 60)).
Proof.
  split; [vm_compute; reflexivity |].
  destruct (relationshipLine 0 january (finish_to_start (Some (of_Z 2))))
    as [line |] eqn:E; [| vm_compute in E; discriminate].
  assert (Hn : of_Z 2 <> NaN) by discriminate.
  destruct (C6_lag_shifts_toX 0 january (finish_to_start (Some (of_Z 2)))
              (of_Z 2) line eq_refl Hn E)
    as (line0 & H0 & _ & _ & _ & _ & _ & H60).
  exists line, line0. split; [reflexivity |]. split; [exact H0 |].
  vm_compute in E. injection E as <-.
  vm_compute in H0. injection H0 as <-.
  split; [vm_compute; reflexivity |].
  split; [vm_compute; reflexivity |].
  apply H60; vm_compute; reflexivity.
Defined.

Lemma C7_witness :
  relationshipLine 0 january dangling = None
  /\ line_id <$> calculateRelationshipLines 0 january = ["r1"].
Proof.
  split; [| reflexivity].
  apply (C7_dangling_relationship_skipped 0 everywhere january dangling).
  right. simpl. intros H.
  repeat (apply elem_of_cons in H as [H | H]; [discriminate |]).
  by apply not_elem_of_nil in H.
Defined.

(** C7, as stated, fails for the hit test: the handler tests the lines
    cached by the last repaint.  After [january] was painted its parent
    removes the task [build]; the relationship "r1" is now dangling and
    gives no line, but its cached line is still matched. *)
Lemma C7_counterexample :
  let c := with_tasks [design] (drawChart 0 january) in
  let rel := finish_to_start (Some (of_Z 2)) in
  rel ∈ relationships c
  /\ ~ (targetId rel ∈ task_id <$> tasks c)
  /\ relationshipLine 0 c rel = None
  /\ exists h,
       hoveredRelationship
         (handleRelationshipHover 0 everywhere at_60_110
            (of_Z 60) (of_Z 110) c) = Some h
       /\ line_id h = rel_id rel /\ targetTask h = build.
Proof.
  intros c rel. split; [apply list_elem_of_here |]. split.
  - intros H. apply elem_of_cons in H as [H | H]; [discriminate |].
    by apply not_elem_of_nil in H.
  - split; [reflexivity |]. eexists. split; [reflexivity |].
    split; reflexivity.
Qed.





(** On whole pixels the binary64 row of the hit test is the row of the
    band: checked for every row height from 1 to 25 and every ordinate
    from 100 to 350. *)
Lemma binary64_row_on_whole_pixels :
  forallb
    (fun r =>
       forallb
         (fun yv =>
            match Binary64.to_Z
                    (Binary64.floor
                       (Binary64.div
                          (Binary64.sub (Binary64.of_Z yv)
                                        (Binary64.of_number headerHeight))
                          (Binary64.of_Z r))) with
            | Some i => i =? (yv - 100) / r
            | None => false
            end)
         (seqZ 100 251))
    (seqZ 1 25) = true.
Proof. vm_compute. reflexivity. Qed.

(** On whole pixels the two embeddings of the hit test agree. *)
Lemma hit_test_binary64_at_whole_pixels :
  Binary64.getTaskAtPosition 0 january (Binary64.of_Z 60) (Binary64.of_Z 110)
  = getTaskAtPosition 0 january (of_Z 60) (of_Z 110).
Proof. vm_compute. reflexivity. Qed.


(** C1. In UTC, for the single task of the scenario, from 2024-01-01 to
    2024-01-10: the span is 9 days and [paddingDays] is 9 * 0.05 = 0.45,
    not rounded up to 1; the start of the range is set to the day
    1 - 0.45 of the month, which [setDate] cuts to the day 0, one day
    earlier, and the end to the day 10 + 0.45, cut to the day 10: the end
    of the range is the end of the task, where the claim has it one day
    later. *)
Lemma C1_padding_at_scenario :
  let s := task_start authentication in
  let e := task_end authentication in
  let paddingDays := mul (getTotalDaysOf s e) (Fin (5 # 100)) in
  getTotalDaysOf s e = of_Z 9
  /\ same paddingDays (Fin (45 # 100))
  /\ ceil paddingDays = of_Z 1
  /\ to_integer (sub (of_Z (getDate 0 s)) paddingDays) = Some 0
  /\ to_integer (add (of_Z (getDate 0 e)) paddingDays) = Some 10
  /\ initializeDateRange 0 0 [authentication] = Some (s - 1 * msPerDay, e)
  /\ initializeDateRange 0 0 [authentication]
     <> Some (s - 1 * msPerDay, e + 1 * msPerDay).
Proof.
  intros s e paddingDays.
  split; [reflexivity |]. split; [vm_compute; reflexivity |].
  split; [reflexivity |]. split; [vm_compute; reflexivity |].
  split; [vm_compute; reflexivity |]. split; [reflexivity |].
  vm_compute. discriminate.
Qed.

Lemma C3_witness :
  initializeDateRange 0 june_2024 [] = Some (1704067200000, 1735689600000)
  /\ first_instant_of_year 0 2024 1704067200000
  /\ first_instant_of_year 0 2025 1735689600000.
Proof.
  assert (H : 99 < getFullYear 0 june_2024) by (vm_compute; reflexivity).
  destruct (C3_empty_list_current_year 0 june_2024 H)
    as (s & e & Hinit & Hs & He & _).
  vm_compute in Hinit. injection Hinit as <- <-.
  split; [reflexivity |]. split; [exact Hs | exact He].
Defined.

(** C3, as stated, fails: with a clock in 2024 the end of the range is
    the first instant of 2025, which is not an instant of 2024; the last
    instant of 2024 is one millisecond earlier. *)
Lemma C3_counterexample :
  getFullYear 0 june_2024 = 2024
  /\ initializeDateRange 0 june_2024 [] = Some (1704067200000, 1735689600000)
  /\ getFullYear 0 1735689600000 = 2025
  /\ last_instant_of_year 0 2024 1735689599999
  /\ ~ last_instant_of_year 0 2024 1735689600000.
Proof.
  split; [reflexivity |]. split; [reflexivity |]. split; [reflexivity |].
  split; [split; reflexivity |].
  intros [H _]. vm_compute in H. discriminate.
Qed.


(** * Concrete runs of the further properties *)



(** The task of the scenario spans 9 days and its range, one day longer
    at the start, 10. *)
Lemma X4_witness :
  finite_as (getTotalDaysOf 1703980800000 1704844800000) (inject_Z 10).
Proof.
  assert (H : Forall (fun u => task_start u <= task_end u) [authentication]).
  { repeat constructor. simpl. lia. }
  pose proof (X4_padded_day_count 0 0 authentication []
                1703980800000 1704844800000 H eq_refl) as H'.
  cbv zeta in H'. destruct H' as (_ & _ & _ & H'). exact H'.
Defined.

(** A hit on whole pixels: 110 is in the band of row 0, from 100 to 140. *)
Lemma X5_witness :
  exists i : nat,
    tasks january !! i = Some design
    /\ leb headerHeight (of_Z 110) = true
    /\ leb (add headerHeight
                (mul (of_Z (Z.of_nat i)) (rowHeight january)))
           (of_Z 110) = true
    /\ ltb (of_Z 110)
           (add headerHeight
                (mul (of_Z (Z.of_nat i + 1)) (rowHeight january))) = true
    /\ leb (add (of_Z 110) (of_Z 50)) (calculateCanvasHeight january) = true.
Proof.
  destruct (X5_hit_is_in_row_band 0 january (of_Z 60) (of_Z 110) design
              eq_refl) as (i & Hi & Hy & _ & _ & Hband).
  destruct (Hband 40 110) as (H1 & H2 & H3);
    [reflexivity | reflexivity | lia
    | unfold safe_integer; simpl; lia | unfold safe_integer; simpl; lia |].
  exists i. split; [exact Hi |]. split; [exact Hy |].
  split; [exact H1 |]. split; [exact H2 | exact H3].
Defined.


(** Over the bar of the task the cursor is the pointer, although a line
    lies under the pointer as well. *)
Lemma X8_witness :
  cursor <$> canvasRef (onMouseMove 0 everywhere (of_Z 1024)
                          (fun _ => of_Z 200) at_100_120 (hovering true))
  = Some "pointer".
Proof.
  apply (X8_cursor_follows_tasks_only 0 everywhere (of_Z 1024)
           (fun _ => of_Z 200) at_100_120 (hovering true) canvas800);
    reflexivity.
Defined.

Lemma X10_witness :
  hoveredRelationship (onMouseMove 0 everywhere (of_Z 1024)
                         (fun _ => of_Z 200) at_100_120 (hovering true))
  = Some line_AA
  /\ repaints (onMouseMove 0 everywhere (of_Z 1024)
                 (fun _ => of_Z 200) at_100_120 (hovering true)) = 2%nat.
Proof.
  apply (X10_relationship_hover_and_repaints 0 everywhere (of_Z 1024)
           (fun _ => of_Z 200) at_100_120 (hovering true) canvas800);
    reflexivity.
Defined.

Lemma X11_witness :
  exists e',
    relationshipTooltip
      (run 0 everywhere (of_Z 1024) (fun _ => of_Z 200)
           [Move at_100_120; Leave; Move at_100_120] quiet) = Some e'
    /\ style_display e' = "none".
Proof.
  apply (X11_relationship_tooltip_stays_hidden 0 everywhere (of_Z 1024)
           (fun _ => of_Z 200) [Move at_100_120; Leave; Move at_100_120]
           quiet (element "gantt-relationship-tooltip" "none"));
    reflexivity.
Defined.

(** On the bar of [design], off it and on it again: the task is hovered
    and its tooltip is hidden. *)
Lemma X12_witness :
  let hover e x y :=
    handleTaskHover 0 (of_Z 1024) (fun _ => of_Z 200) e (of_Z x) (of_Z y) in
  let c3 :=
    hover at_100_120 60 110 (hover at_0_0 0 0
                               (hover at_100_120 60 110 january)) in
  hoveredTask c3 = Some design /\ hidden (tooltip c3).
Proof.
  intros hover c3.
  pose proof (X12_tooltip_not_shown_again 0 (of_Z 1024) (fun _ => of_Z 200)
                at_100_120 at_0_0 at_100_120
                (of_Z 60) (of_Z 110) (of_Z 0) (of_Z 0) january design
                eq_refl eq_refl eq_refl) as H.
  cbv zeta in H. destruct H as (_ & H). exact H.
Defined.


Lemma X15_witness :
  taskMap (tasks january) !! "D" = Some design
  /\ exists line,
       relationshipLine 0 january (finish_to_start None) = Some line
       /\ sourceTask line = design /\ targetTask line = build
       /\ fromY line
          = add (add headerHeight (mul (of_Z 0) (of_Z 40)))
                (div (of_Z 40) (of_Z 2))
       /\ toY line
          = add (add headerHeight (mul (of_Z 1) (of_Z 40)))
                (div (of_Z 40) (of_Z 2))
       /\ path_moveTo (path line) = (fromX line, fromY line)
       /\ path_end (path line) = (toX line, toY line).
Proof.
  apply (X15_line_joins_row_centres 0 january (finish_to_start None)
           0 1 design build).
  - constructor.
    + intros H. apply elem_of_cons in H as [H | H]; [discriminate |].
      by apply not_elem_of_nil in H.
    + constructor; [apply not_elem_of_nil | constructor].
  - reflexivity.
  - reflexivity.
  - reflexivity.
  - reflexivity.
Defined.


(** The third separator of the header of [january], whose unit width is
    30, stands at 60, the x of the third day of the range. *)
Lemma X18_witness :
  exists xk : number,
    finite_as xk (inject_Z (2 * 30))
    /\ finite_as (getXPositionForDate 0 january 1704240000000)
                 (inject_Z (2 * 30)).
Proof.
  destruct (headerIterations 0 30 january (getOptimalUnitWidth 0 january)
              (of_Z 0) (startDate january)) as [[its x] |] eqn:R;
    [| vm_compute in R; discriminate R].
  destruct (its !! 2%nat) as [[d xk] |] eqn:E.
  - assert (Hd : d = 1704240000000).
    { pose proof R as R'. vm_compute in R'. injection R' as <- _.
      vm_compute in E. injection E as <- _. reflexivity. }
    subst d. exists xk.
    apply (X18_header_aligned_with_bars 0 30 january its x 2
             1704240000000 xk 30).
    + discriminate.
    + split; [reflexivity | vm_compute; reflexivity].
    + exact R.
    + exact E.
  - exfalso. pose proof R as R'. vm_compute in R'. injection R' as <- _.
    vm_compute in E. discriminate E.
Defined.

(** The label of the week of Wednesday 2024-01-31 starts at Sunday the
    28th and runs to a 34th. *)
Lemma X19_witness :
  getDay 0 last_of_january = 3
  /\ getDateLabel 0 weekly last_of_january = WeekRange 28 34.
Proof.
  split; [reflexivity |].
  pose proof (X19_week_label_from_sunday 0 weekly last_of_january eq_refl)
    as H.
  cbv zeta in H. destruct H as (_ & _ & _ & H). exact H.
Defined.

Lemma X20_witness :
  exists cmds : list PaintCmd,
    drawGrid 0 700 june_2024 january (of_Z 230) = Some cmds
    /\ 0 < 30
    /\ (forall k : nat, Z.of_nat k <= 600 / 30 ->
          exists xk,
            cmds !! k
            = Some (StrokeLine false xk headerHeight xk (of_Z 230))
            /\ finite_as xk (inject_Z (Z.of_nat k * 30)))
    /\ (forall i, (i <= length (tasks january))%nat ->
          let y := add headerHeight
                       (mul (of_Z (Z.of_nat i)) (rowHeight january)) in
          cmds !! (S (Z.to_nat (600 / 30)) + i)%nat
          = Some (StrokeLine false (of_Z 0) y (of_Z 600) y))
    /\ length cmds
       = (S (Z.to_nat (600 / 30)) + S (length (tasks january))
          + (if (startDate january <=? june_2024)%Z
                && (june_2024 <=? endDate january)%Z
             then 2 else 0))%nat.
Proof.
  apply (X20_grid_lines 0 700 june_2024 january (of_Z 230) 600 30).
  - reflexivity.
  - reflexivity.
  - split; [reflexivity | vm_compute; reflexivity].
  - vm_compute. discriminate.
Defined.
